(** * Complaint lifecycle rules of the DCMS backend

    A shallow embedding of the decision logic of the backend services
    ([complaintService.ts], [slaService.ts], [aiClassification.ts],
    [webhookService.ts], [utils/helpers.ts], [routes/webhooks.ts], the status
    route of [routes/complaints.ts] with its schema in
    [middleware/validation.ts]) and the properties of that logic.

    Conventions of the embedding.
    - A JavaScript [Date] is its time value: milliseconds since the epoch, in [Z].
      ISO strings stored in the database denote the same instant, so
      [toISOString] and [new Date(string)] are the identity on time values.
    - A finite JavaScript number is the rational it denotes ([Q]).  The
      comparisons of the source are exact on doubles; its products with
      0.25, 0.5 and 1.0 are exact; the remaining arithmetic (weighted sums,
      division by 3600000) is taken over the rationals.
    - Local time is UTC shifted by a fixed offset [LocalTZA] (no daylight
      saving transitions).
    - The database is a record of tables, each table a list of rows in insertion
      order.  [update ... .eq('id', x)] rewrites every row whose id is [x];
      [.single()] succeeds on exactly one row.  Statements execute as written by
      the services and never fail; the triggers of the schema ([updated_at],
      [log_status_change]) are not part of the model, which follows what the
      services themselves read and write.
    - Each service operation runs at one clock reading, [clock] of the world. *)

From Stdlib Require Import ZArith QArith Qround Qminmax Lqa Lia Bool List String Ascii.
Import ListNotations.
Open Scope Z_scope.

(** ** Enumerations of [types/index.ts] *)

Inductive ComplaintStatus :=
| submitted | pending_review | approved | rejected | assigned
| in_progress | resolved | closed | escalated.

Inductive UrgencyLevel := normal | high | critical.

Inductive EscalationLevel := level_1 | level_2 | level_3 | executive.

Definition ComplaintStatus_eqb (a b : ComplaintStatus) : bool :=
  match a, b with
  | submitted, submitted | pending_review, pending_review | approved, approved
  | rejected, rejected | assigned, assigned | in_progress, in_progress
  | resolved, resolved | closed, closed | escalated, escalated => true
  | _, _ => false
  end.

Definition EscalationLevel_eqb (a b : EscalationLevel) : bool :=
  match a, b with
  | level_1, level_1 | level_2, level_2 | level_3, level_3
  | executive, executive => true
  | _, _ => false
  end.

Lemma ComplaintStatus_eqb_spec a b : reflect (a = b) (ComplaintStatus_eqb a b).
Proof. destruct a, b; constructor; congruence. Qed.

Lemma EscalationLevel_eqb_spec a b : reflect (a = b) (EscalationLevel_eqb a b).
Proof. destruct a, b; constructor; congruence. Qed.

Definition status_name (s : ComplaintStatus) : string :=
  match s with
  | submitted => "submitted" | pending_review => "pending_review"
  | approved => "approved" | rejected => "rejected" | assigned => "assigned"
  | in_progress => "in_progress" | resolved => "resolved" | closed => "closed"
  | escalated => "escalated"
  end%string.

Definition level_name (l : EscalationLevel) : string :=
  match l with
  | level_1 => "level_1" | level_2 => "level_2" | level_3 => "level_3"
  | executive => "executive"
  end%string.

(** ** JavaScript numbers and dates *)

Module JS.

Definition msPerSecond : Z := 1000.
Definition msPerMinute : Z := 60000.
Definition msPerHour : Z := 3600000.
Definition msPerDay : Z := 86400000.

  (** [ToIntegerOrInfinity]: the fractional part is dropped, towards zero. *)
Definition ToIntegerOrInfinity (q : Q) : Z := Z.quot (Qnum q) (Zpos (Qden q)).

  (** [Math.round]: the nearest integer, halves upwards. *)
Definition Math_round (q : Q) : Z := Qfloor (q + (1 # 2))%Q.

Definition Math_min (a b : Q) : Q := if Qle_bool a b then a else b.

Definition Math_abs (z : Z) : Z := Z.abs z.

Definition lt (a b : Q) : bool := negb (Qle_bool b a).
Definition ge (a b : Q) : bool := Qle_bool b a.

  (** Date arithmetic of ECMA-262, section "Time Values and Time Range". *)
Definition Day (t : Z) : Z := t / msPerDay.
Definition HourFromTime (t : Z) : Z := (t / msPerHour) mod 24.
Definition MinFromTime (t : Z) : Z := (t / msPerMinute) mod 60.
Definition SecFromTime (t : Z) : Z := (t / msPerSecond) mod 60.
Definition msFromTime (t : Z) : Z := t mod msPerSecond.

Definition MakeTime (hour : Q) (min sec ms : Z) : Z :=
    ToIntegerOrInfinity hour * msPerHour + min * msPerMinute
    + sec * msPerSecond + ms.

Definition MakeDate (day time : Z) : Z := day * msPerDay + time.

Section LocalTime.
    (** Offset of local time from UTC, in milliseconds. *)
Variable LocalTZA : Z.

Definition LocalTime (t : Z) : Z := t + LocalTZA.
Definition UTC (t : Z) : Z := t - LocalTZA.

Definition getHours (d : Z) : Z := HourFromTime (LocalTime d).

    (** [Date.prototype.setHours(hour)]: minutes, seconds and milliseconds
        are kept, the hour goes through [MakeTime]. *)
Definition setHours (d : Z) (hour : Q) : Z :=
      let t := LocalTime d in
      UTC (MakeDate (Day t)
             (MakeTime hour (MinFromTime t) (SecFromTime t) (msFromTime t))).
End LocalTime.

End JS.

(** ** Rows of the database ([types/index.ts], [schema.sql]) *)

(** The columns of [complaints] that the services read or write. *)
Module Complaint.

Record t := mk {
    id : string;
    user_id : string;
    status : ComplaintStatus;
    urgency : UrgencyLevel;
    department_id : option string;
    ai_confidence : option Q;
    ai_reasoning : option string;
    ai_classified_at : option Z;
    ai_model_version : option string;
    is_auto_approved : bool;
    reviewed_by : option string;
    review_notes : option string;
    reviewed_at : option Z;
    assigned_to : option string;
    assigned_at : option Z;
    priority_score : Q;
    is_critical_area : bool;
    resolution_notes : option string;
    resolution_type : option string;
    sla_deadline : option Z;
    sla_breached : bool;
    sla_breach_notified : bool;
    created_at : Z;
    approved_at : option Z;
    resolved_at : option Z;
    closed_at : option Z
  }.

  (** One setter per column written by an [update]. *)
Definition set_status (v : ComplaintStatus) (c : t) : t :=
    mk (id c) (user_id c) v (urgency c) (department_id c) (ai_confidence c)
      (ai_reasoning c) (ai_classified_at c) (ai_model_version c)
      (is_auto_approved c) (reviewed_by c) (review_notes c) (reviewed_at c)
      (assigned_to c) (assigned_at c) (priority_score c) (is_critical_area c)
      (resolution_notes c) (resolution_type c) (sla_deadline c)
      (sla_breached c) (sla_breach_notified c) (created_at c) (approved_at c)
      (resolved_at c) (closed_at c).

Definition set_urgency (v : UrgencyLevel) (c : t) : t :=
    mk (id c) (user_id c) (status c) v (department_id c) (ai_confidence c)
      (ai_reasoning c) (ai_classified_at c) (ai_model_version c)
      (is_auto_approved c) (reviewed_by c) (review_notes c) (reviewed_at c)
      (assigned_to c) (assigned_at c) (priority_score c) (is_critical_area c)
      (resolution_notes c) (resolution_type c) (sla_deadline c)
      (sla_breached c) (sla_breach_notified c) (created_at c) (approved_at c)
      (resolved_at c) (closed_at c).

Definition set_department_id (v : option string) (c : t) : t :=
    mk (id c) (user_id c) (status c) (urgency c) v (ai_confidence c)
      (ai_reasoning c) (ai_classified_at c) (ai_model_version c)
      (is_auto_approved c) (reviewed_by c) (review_notes c) (reviewed_at c)
      (assigned_to c) (assigned_at c) (priority_score c) (is_critical_area c)
      (resolution_notes c) (resolution_type c) (sla_deadline c)
      (sla_breached c) (sla_breach_notified c) (created_at c) (approved_at c)
      (resolved_at c) (closed_at c).

Definition set_ai_confidence (v : option Q) (c : t) : t :=
    mk (id c) (user_id c) (status c) (urgency c) (department_id c) v
      (ai_reasoning c) (ai_classified_at c) (ai_model_version c)
      (is_auto_approved c) (reviewed_by c) (review_notes c) (reviewed_at c)
      (assigned_to c) (assigned_at c) (priority_score c) (is_critical_area c)
      (resolution_notes c) (resolution_type c) (sla_deadline c)
      (sla_breached c) (sla_breach_notified c) (created_at c) (approved_at c)
      (resolved_at c) (closed_at c).

Definition set_ai_reasoning (v : option string) (c : t) : t :=
    mk (id c) (user_id c) (status c) (urgency c) (department_id c)
      (ai_confidence c) v (ai_classified_at c) (ai_model_version c)
      (is_auto_approved c) (reviewed_by c) (review_notes c) (reviewed_at c)
      (assigned_to c) (assigned_at c) (priority_score c) (is_critical_area c)
      (resolution_notes c) (resolution_type c) (sla_deadline c)
      (sla_breached c) (sla_breach_notified c) (created_at c) (approved_at c)
      (resolved_at c) (closed_at c).

Definition set_ai_classified_at (v : option Z) (c : t) : t :=
    mk (id c) (user_id c) (status c) (urgency c) (department_id c)
      (ai_confidence c) (ai_reasoning c) v (ai_model_version c)
      (is_auto_approved c) (reviewed_by c) (review_notes c) (reviewed_at c)
      (assigned_to c) (assigned_at c) (priority_score c) (is_critical_area c)
      (resolution_notes c) (resolution_type c) (sla_deadline c)
      (sla_breached c) (sla_breach_notified c) (created_at c) (approved_at c)
      (resolved_at c) (closed_at c).

Definition set_ai_model_version (v : option string) (c : t) : t :=
    mk (id c) (user_id c) (status c) (urgency c) (department_id c)
      (ai_confidence c) (ai_reasoning c) (ai_classified_at c) v
      (is_auto_approved c) (reviewed_by c) (review_notes c) (reviewed_at c)
      (assigned_to c) (assigned_at c) (priority_score c) (is_critical_area c)
      (resolution_notes c) (resolution_type c) (sla_deadline c)
      (sla_breached c) (sla_breach_notified c) (created_at c) (approved_at c)
      (resolved_at c) (closed_at c).

Definition set_is_auto_approved (v : bool) (c : t) : t :=
    mk (id c) (user_id c) (status c) (urgency c) (department_id c)
      (ai_confidence c) (ai_reasoning c) (ai_classified_at c)
      (ai_model_version c) v (reviewed_by c) (review_notes c) (reviewed_at c)
      (assigned_to c) (assigned_at c) (priority_score c) (is_critical_area c)
      (resolution_notes c) (resolution_type c) (sla_deadline c)
      (sla_breached c) (sla_breach_notified c) (created_at c) (approved_at c)
      (resolved_at c) (closed_at c).

Definition set_reviewed_by (v : option string) (c : t) : t :=
    mk (id c) (user_id c) (status c) (urgency c) (department_id c)
      (ai_confidence c) (ai_reasoning c) (ai_classified_at c)
      (ai_model_version c) (is_auto_approved c) v (review_notes c)
      (reviewed_at c) (assigned_to c) (assigned_at c) (priority_score c)
      (is_critical_area c) (resolution_notes c) (resolution_type c)
      (sla_deadline c) (sla_breached c) (sla_breach_notified c) (created_at c)
      (approved_at c) (resolved_at c) (closed_at c).

Definition set_review_notes (v : option string) (c : t) : t :=
    mk (id c) (user_id c) (status c) (urgency c) (department_id c)
      (ai_confidence c) (ai_reasoning c) (ai_classified_at c)
      (ai_model_version c) (is_auto_approved c) (reviewed_by c) v
      (reviewed_at c) (assigned_to c) (assigned_at c) (priority_score c)
      (is_critical_area c) (resolution_notes c) (resolution_type c)
      (sla_deadline c) (sla_breached c) (sla_breach_notified c) (created_at c)
      (approved_at c) (resolved_at c) (closed_at c).

Definition set_reviewed_at (v : option Z) (c : t) : t :=
    mk (id c) (user_id c) (status c) (urgency c) (department_id c)
      (ai_confidence c) (ai_reasoning c) (ai_classified_at c)
      (ai_model_version c) (is_auto_approved c) (reviewed_by c)
      (review_notes c) v (assigned_to c) (assigned_at c) (priority_score c)
      (is_critical_area c) (resolution_notes c) (resolution_type c)
      (sla_deadline c) (sla_breached c) (sla_breach_notified c) (created_at c)
      (approved_at c) (resolved_at c) (closed_at c).

Definition set_assigned_to (v : option string) (c : t) : t :=
    mk (id c) (user_id c) (status c) (urgency c) (department_id c)
      (ai_confidence c) (ai_reasoning c) (ai_classified_at c)
      (ai_model_version c) (is_auto_approved c) (reviewed_by c)
      (review_notes c) (reviewed_at c) v (assigned_at c) (priority_score c)
      (is_critical_area c) (resolution_notes c) (resolution_type c)
      (sla_deadline c) (sla_breached c) (sla_breach_notified c) (created_at c)
      (approved_at c) (resolved_at c) (closed_at c).

Definition set_assigned_at (v : option Z) (c : t) : t :=
    mk (id c) (user_id c) (status c) (urgency c) (department_id c)
      (ai_confidence c) (ai_reasoning c) (ai_classified_at c)
      (ai_model_version c) (is_auto_approved c) (reviewed_by c)
      (review_notes c) (reviewed_at c) (assigned_to c) v (priority_score c)
      (is_critical_area c) (resolution_notes c) (resolution_type c)
      (sla_deadline c) (sla_breached c) (sla_breach_notified c) (created_at c)
      (approved_at c) (resolved_at c) (closed_at c).

Definition set_priority_score (v : Q) (c : t) : t :=
    mk (id c) (user_id c) (status c) (urgency c) (department_id c)
      (ai_confidence c) (ai_reasoning c) (ai_classified_at c)
      (ai_model_version c) (is_auto_approved c) (reviewed_by c)
      (review_notes c) (reviewed_at c) (assigned_to c) (assigned_at c) v
      (is_critical_area c) (resolution_notes c) (resolution_type c)
      (sla_deadline c) (sla_breached c) (sla_breach_notified c) (created_at c)
      (approved_at c) (resolved_at c) (closed_at c).

Definition set_is_critical_area (v : bool) (c : t) : t :=
    mk (id c) (user_id c) (status c) (urgency c) (department_id c)
      (ai_confidence c) (ai_reasoning c) (ai_classified_at c)
      (ai_model_version c) (is_auto_approved c) (reviewed_by c)
      (review_notes c) (reviewed_at c) (assigned_to c) (assigned_at c)
      (priority_score c) v (resolution_notes c) (resolution_type c)
      (sla_deadline c) (sla_breached c) (sla_breach_notified c) (created_at c)
      (approved_at c) (resolved_at c) (closed_at c).

Definition set_resolution_notes (v : option string) (c : t) : t :=
    mk (id c) (user_id c) (status c) (urgency c) (department_id c)
      (ai_confidence c) (ai_reasoning c) (ai_classified_at c)
      (ai_model_version c) (is_auto_approved c) (reviewed_by c)
      (review_notes c) (reviewed_at c) (assigned_to c) (assigned_at c)
      (priority_score c) (is_critical_area c) v (resolution_type c)
      (sla_deadline c) (sla_breached c) (sla_breach_notified c) (created_at c)
      (approved_at c) (resolved_at c) (closed_at c).

Definition set_resolution_type (v : option string) (c : t) : t :=
    mk (id c) (user_id c) (status c) (urgency c) (department_id c)
      (ai_confidence c) (ai_reasoning c) (ai_classified_at c)
      (ai_model_version c) (is_auto_approved c) (reviewed_by c)
      (review_notes c) (reviewed_at c) (assigned_to c) (assigned_at c)
      (priority_score c) (is_critical_area c) (resolution_notes c) v
      (sla_deadline c) (sla_breached c) (sla_breach_notified c) (created_at c)
      (approved_at c) (resolved_at c) (closed_at c).

Definition set_sla_deadline (v : option Z) (c : t) : t :=
    mk (id c) (user_id c) (status c) (urgency c) (department_id c)
      (ai_confidence c) (ai_reasoning c) (ai_classified_at c)
      (ai_model_version c) (is_auto_approved c) (reviewed_by c)
      (review_notes c) (reviewed_at c) (assigned_to c) (assigned_at c)
      (priority_score c) (is_critical_area c) (resolution_notes c)
      (resolution_type c) v (sla_breached c) (sla_breach_notified c)
      (created_at c) (approved_at c) (resolved_at c) (closed_at c).

Definition set_sla_breached (v : bool) (c : t) : t :=
    mk (id c) (user_id c) (status c) (urgency c) (department_id c)
      (ai_confidence c) (ai_reasoning c) (ai_classified_at c)
      (ai_model_version c) (is_auto_approved c) (reviewed_by c)
      (review_notes c) (reviewed_at c) (assigned_to c) (assigned_at c)
      (priority_score c) (is_critical_area c) (resolution_notes c)
      (resolution_type c) (sla_deadline c) v (sla_breach_notified c)
      (created_at c) (approved_at c) (resolved_at c) (closed_at c).

Definition set_sla_breach_notified (v : bool) (c : t) : t :=
    mk (id c) (user_id c) (status c) (urgency c) (department_id c)
      (ai_confidence c) (ai_reasoning c) (ai_classified_at c)
      (ai_model_version c) (is_auto_approved c) (reviewed_by c)
      (review_notes c) (reviewed_at c) (assigned_to c) (assigned_at c)
      (priority_score c) (is_critical_area c) (resolution_notes c)
      (resolution_type c) (sla_deadline c) (sla_breached c) v (created_at c)
      (approved_at c) (resolved_at c) (closed_at c).

Definition set_approved_at (v : option Z) (c : t) : t :=
    mk (id c) (user_id c) (status c) (urgency c) (department_id c)
      (ai_confidence c) (ai_reasoning c) (ai_classified_at c)
      (ai_model_version c) (is_auto_approved c) (reviewed_by c)
      (review_notes c) (reviewed_at c) (assigned_to c) (assigned_at c)
      (priority_score c) (is_critical_area c) (resolution_notes c)
      (resolution_type c) (sla_deadline c) (sla_breached c)
      (sla_breach_notified c) (created_at c) v (resolved_at c) (closed_at c).

Definition set_resolved_at (v : option Z) (c : t) : t :=
    mk (id c) (user_id c) (status c) (urgency c) (department_id c)
      (ai_confidence c) (ai_reasoning c) (ai_classified_at c)
      (ai_model_version c) (is_auto_approved c) (reviewed_by c)
      (review_notes c) (reviewed_at c) (assigned_to c) (assigned_at c)
      (priority_score c) (is_critical_area c) (resolution_notes c)
      (resolution_type c) (sla_deadline c) (sla_breached c)
      (sla_breach_notified c) (created_at c) (approved_at c) v (closed_at c).

Definition set_closed_at (v : option Z) (c : t) : t :=
    mk (id c) (user_id c) (status c) (urgency c) (department_id c)
      (ai_confidence c) (ai_reasoning c) (ai_classified_at c)
      (ai_model_version c) (is_auto_approved c) (reviewed_by c)
      (review_notes c) (reviewed_at c) (assigned_to c) (assigned_at c)
      (priority_score c) (is_critical_area c) (resolution_notes c)
      (resolution_type c) (sla_deadline c) (sla_breached c)
      (sla_breach_notified c) (created_at c) (approved_at c) (resolved_at c)
      v.

End Complaint.

Module StatusLog.
  (** A row of [complaint_status_logs]. *)
Record t := mk {
    complaint_id : string;
    old_status : option ComplaintStatus;
    new_status : ComplaintStatus;
    changed_by : option string;
    change_reason : option string
  }.
End StatusLog.

Module Escalation.
  (** A row of [escalations]; [created_at] is filled in by the database. *)
Record t := mk {
    complaint_id : string;
    escalation_level : EscalationLevel;
    previous_level : option EscalationLevel;
    reason : string;
    is_system_escalation : bool;
    acknowledged : bool;
    created_at : Z
  }.
End Escalation.

Module Department.
Record t := mk {
    id : string;
    code : string;
    sla_hours : Z;
    is_active : bool
  }.
End Department.

Module CriticalArea.
Record t := mk {
    is_active : bool;
    lat_min : Q;
    lat_max : Q;
    lng_min : Q;
    lng_max : Q
  }.
End CriticalArea.

(** ** The world the services run in *)

(** [config/index.ts]: the two settings the rules read. *)
Record Config := {
  ai_confidenceThreshold : Q;
  sla_warningHoursBefore : Q
}.

(** The defaults of the environment schema. *)
Definition default_config : Config :=
  {| ai_confidenceThreshold := 75 # 100; sla_warningHoursBefore := 6 |}%Q.

Inductive LogLevel := log_error | log_warn | log_info.

(** What [webhookService.ts] hands to the notifier. *)
Inductive Outgoing :=
| ComplaintRouting (complaintId departmentId : string)
| Notification (userId complaintId notificationType : string)
| SLAWarning (complaintId : string)
| SLABreach (complaintId escalationLevel : string).

(** What the generative model answers to a prompt. *)
Inductive ModelReply :=
| ReplyFails (message : string)
| ReplyText (text : string).

Record World := {
  clock : Z;
  LocalTZA : Z;
  config : Config;
  complaints : list Complaint.t;
  complaint_status_logs : list StatusLog.t;
  escalations : list Escalation.t;
  departments : list Department.t;
  critical_areas : list CriticalArea.t;
  generateContent : string -> ModelReply;
  logger : list (LogLevel * string);
  outbox : list Outgoing
}.

Definition with_complaints (l : list Complaint.t) (w : World) : World :=
  {| clock := clock w; LocalTZA := LocalTZA w; config := config w;
     complaints := l;
     complaint_status_logs := complaint_status_logs w;
     escalations := escalations w; departments := departments w;
     critical_areas := critical_areas w;
     generateContent := generateContent w;
     logger := logger w; outbox := outbox w |}.

Definition with_status_logs (l : list StatusLog.t) (w : World) : World :=
  {| clock := clock w; LocalTZA := LocalTZA w; config := config w;
     complaints := complaints w;
     complaint_status_logs := l;
     escalations := escalations w; departments := departments w;
     critical_areas := critical_areas w;
     generateContent := generateContent w;
     logger := logger w; outbox := outbox w |}.

Definition with_escalations (l : list Escalation.t) (w : World) : World :=
  {| clock := clock w; LocalTZA := LocalTZA w; config := config w;
     complaints := complaints w;
     complaint_status_logs := complaint_status_logs w;
     escalations := l; departments := departments w;
     critical_areas := critical_areas w;
     generateContent := generateContent w;
     logger := logger w; outbox := outbox w |}.

Definition with_logger (l : list (LogLevel * string)) (w : World) : World :=
  {| clock := clock w; LocalTZA := LocalTZA w; config := config w;
     complaints := complaints w;
     complaint_status_logs := complaint_status_logs w;
     escalations := escalations w; departments := departments w;
     critical_areas := critical_areas w;
     generateContent := generateContent w;
     logger := l; outbox := outbox w |}.

Definition with_outbox (l : list Outgoing) (w : World) : World :=
  {| clock := clock w; LocalTZA := LocalTZA w; config := config w;
     complaints := complaints w;
     complaint_status_logs := complaint_status_logs w;
     escalations := escalations w; departments := departments w;
     critical_areas := critical_areas w;
     generateContent := generateContent w;
     logger := logger w; outbox := l |}.

Definition with_clock (t : Z) (w : World) : World :=
  {| clock := t; LocalTZA := LocalTZA w; config := config w;
     complaints := complaints w;
     complaint_status_logs := complaint_status_logs w;
     escalations := escalations w; departments := departments w;
     critical_areas := critical_areas w;
     generateContent := generateContent w;
     logger := logger w; outbox := outbox w |}.

(** ** Errors and the monad of the services ([utils/errors.ts]) *)

Inductive AppError :=
| ValidationError (message : string)
| NotFoundError (resource id : string)
| AIServiceError (message : string)
| DatabaseError (message : string)
| Error (message : string).

Inductive Result (A : Type) :=
| Ok (a : A)
| Throw (e : AppError).
Arguments Ok {A} a.
Arguments Throw {A} e.

(** An asynchronous operation: it reads and writes the world and either
    resolves or rejects; what it wrote before rejecting stays written. *)
Definition M (A : Type) : Type := World -> Result A * World.

Definition ret {A} (a : A) : M A := fun w => (Ok a, w).

Definition throw {A} (e : AppError) : M A := fun w => (Throw e, w).

Definition bind {A B} (m : M A) (k : A -> M B) : M B :=
  fun w =>
    match m w with
    | (Ok a, w') => k a w'
    | (Throw e, w') => (Throw e, w')
    end.

Definition try_catch {A} (body : M A) (handler : AppError -> M A) : M A :=
  fun w =>
    match body w with
    | (Ok a, w') => (Ok a, w')
    | (Throw e, w') => handler e w'
    end.

Notation "x <- m ;; k" := (bind m (fun x => k))
  (at level 61, m at next level, right associativity).
Notation "m ;;; k" := (bind m (fun _ => k))
  (at level 61, right associativity).

Definition gets {A} (f : World -> A) : M A := fun w => (Ok (f w), w).
Definition modify (f : World -> World) : M unit := fun w => (Ok tt, f w).

Definition Date_now : M Z := gets clock.

Definition log (level : LogLevel) (message : string) : M unit :=
  modify (fun w => with_logger (logger w ++ [(level, message)]) w).

Definition send (o : Outgoing) : M unit :=
  modify (fun w => with_outbox (outbox w ++ [o]) w).

(** [.single()]: exactly one row, or nothing. *)
Definition single {A} (rows : list A) : option A :=
  match rows with
  | [r] => Some r
  | _ => None
  end.

Definition has_id (complaintId : string) (c : Complaint.t) : bool :=
  String.eqb (Complaint.id c) complaintId.

(** [from('complaints').update(updateData).eq('id', complaintId)] *)
Definition update_complaints (complaintId : string)
    (updateData : Complaint.t -> Complaint.t) : M unit :=
  modify (fun w =>
    with_complaints
      (map (fun c => if has_id complaintId c then updateData c else c)
         (complaints w)) w).

(** [from('complaints').select().eq('id', complaintId)] *)
Definition select_complaints (complaintId : string) : M (list Complaint.t) :=
  gets (fun w => filter (has_id complaintId) (complaints w)).

(** A key of [updateData] that holds [undefined] is not sent. *)
Definition set_if_defined {A} (set : option A -> Complaint.t -> Complaint.t)
    (v : option A) : Complaint.t -> Complaint.t :=
  match v with
  | Some a => set (Some a)
  | None => fun c => c
  end.

(** ** [utils/helpers.ts] *)

Record PriorityWeights := {
  w_urgency : Q;
  w_time : Q;
  w_location : Q
}.

Definition DEFAULT_WEIGHTS : PriorityWeights :=
  {| w_urgency := 40; w_time := 35; w_location := 25 |}%Q.

Definition URGENCY_VALUES (u : UrgencyLevel) : Q :=
  match u with
  | critical => 1
  | high => 7 # 10
  | normal => 3 # 10
  end%Q.

Definition urgencyMultipliers (u : UrgencyLevel) : Q :=
  match u with
  | critical => 1 # 4
  | high => 1 # 2
  | normal => 1
  end%Q.

Definition calculatePriorityScore (urgency : UrgencyLevel) (createdAt : Z)
    (isCriticalArea : bool) (weights : PriorityWeights) : M Q :=
  let urgencyValue := URGENCY_VALUES urgency in
  date_now <- Date_now ;;
  let hoursOpen :=
    (inject_Z (date_now - createdAt) / inject_Z JS.msPerHour)%Q in
  let timeValue := JS.Math_min (hoursOpen / 168)%Q 1%Q in
  let locationValue := (if isCriticalArea then 1 else 0)%Q in
  let score :=
    (w_urgency weights * urgencyValue
     + w_time weights * timeValue
     + w_location weights * locationValue)%Q in
  ret (inject_Z (JS.Math_round (score * 100)%Q) / 100)%Q.

(** SLA Deadline Calculation; [LocalTZA] is the time zone the process runs
    in, which [getHours] and [setHours] read. *)
Definition calculateSLADeadline (LocalTZA : Z) (baseSLAHours : Q)
    (urgency : UrgencyLevel) (createdAt : Z) : Z :=
  let multiplier := urgencyMultipliers urgency in
  let slaHours := (baseSLAHours * multiplier)%Q in
  let deadline := createdAt in
  JS.setHours LocalTZA deadline
    (inject_Z (JS.getHours LocalTZA deadline) + slaHours)%Q.

(** ** [schema.sql]: the database function [calculate_sla_deadline] *)

(** [SELECT sla_hours INTO v_sla_hours FROM departments WHERE id = ...],
    72 when no row is found; the interval is a number of hours. *)
Definition calculate_sla_deadline (p_department_id : option string)
    (p_urgency : UrgencyLevel) (p_created_at : Z) : M Z :=
  rows <- gets (fun w =>
    filter (fun d =>
      match p_department_id with
      | Some i => String.eqb (Department.id d) i
      | None => false
      end) (departments w)) ;;
  let v_sla_hours :=
    match rows with
    | d :: _ => Department.sla_hours d
    | [] => 72
    end in
  let v_urgency_multiplier := urgencyMultipliers p_urgency in
  ret (p_created_at
       + Qfloor (inject_Z v_sla_hours * v_urgency_multiplier
                 * inject_Z JS.msPerHour)%Q).

(** ** [services/webhookService.ts] *)

(** The services hand messages to the notifier and never hear back.  The
    [users], [notifications] and [webhook_logs] tables are left out; the user
    of a notification is taken to exist. *)

Definition triggerNotification (userId complaintId : string)
    (notificationType : string) : M unit :=
  rows <- select_complaints complaintId ;;
  match single rows with
  | None => log log_error "User or complaint not found for notification"
  | Some _ => send (Notification userId complaintId notificationType)
  end.

Definition triggerComplaintRouting (complaintId departmentId : string)
    : M unit :=
  rows <- select_complaints complaintId ;;
  match single rows with
  | None => log log_error "Complaint not found for routing"
  | Some _ => send (ComplaintRouting complaintId departmentId)
  end.

Definition triggerSLAWarning (complaintId : string) : M unit :=
  rows <- select_complaints complaintId ;;
  match single rows with
  | None => ret tt
  | Some _ => send (SLAWarning complaintId)
  end.

Definition triggerSLABreach (complaintId : string) (escalationLevel : string)
    : M unit :=
  rows <- select_complaints complaintId ;;
  match single rows with
  | None => ret tt
  | Some complaint =>
      send (SLABreach complaintId escalationLevel) ;;;
      triggerNotification (Complaint.user_id complaint) complaintId
        "escalation_created"
  end.

(** ** [services/aiClassification.ts] *)

(** String methods of the response parser, on ASCII text. *)
Module Str.

Definition isWhiteSpace (c : ascii) : bool :=
  let n := nat_of_ascii c in
  (Nat.eqb n 32 || Nat.eqb n 9 || Nat.eqb n 10 || Nat.eqb n 11
   || Nat.eqb n 12 || Nat.eqb n 13)%bool.

Fixpoint trimStart (s : string) : string :=
  match s with
  | String c s' => if isWhiteSpace c then trimStart s' else s
  | EmptyString => EmptyString
  end.

Fixpoint reverse (s acc : string) : string :=
  match s with
  | String c s' => reverse s' (String c acc)
  | EmptyString => acc
  end.

Definition trim (s : string) : string :=
  reverse (trimStart (reverse (trimStart s) EmptyString)) EmptyString.

Definition startsWith (s p : string) : bool := String.prefix p s.

Definition endsWith (s p : string) : bool :=
  String.prefix (reverse p EmptyString) (reverse s EmptyString).

(** [s.slice(n)] *)
Definition sliceFrom (n : nat) (s : string) : string :=
  String.substring n (String.length s - n) s.

(** [s.slice(0, -n)] *)
Definition sliceButLast (n : nat) (s : string) : string :=
  String.substring 0 (String.length s - n) s.

Definition upper (c : ascii) : ascii :=
  let n := nat_of_ascii c in
  if (Nat.leb 97 n && Nat.leb n 122)%bool then ascii_of_nat (n - 32) else c.

Definition lower (c : ascii) : ascii :=
  let n := nat_of_ascii c in
  if (Nat.leb 65 n && Nat.leb n 90)%bool then ascii_of_nat (n + 32) else c.

Fixpoint mapChars (f : ascii -> ascii) (s : string) : string :=
  match s with
  | String c s' => String (f c) (mapChars f s')
  | EmptyString => EmptyString
  end.

Definition toUpperCase : string -> string := mapChars upper.
Definition toLowerCase : string -> string := mapChars lower.

Definition includes (l : list string) (x : string) : bool :=
  existsb (String.eqb x) l.

(** A string in a condition: the empty string counts as absent. *)
Definition truthy (s : option string) : option string :=
  match s with
  | Some EmptyString => None
  | other => other
  end.

End Str.

Definition DEPARTMENT_MAPPINGS : list (string * string) :=
  [ ("water", "WATER"); ("water supply", "WATER"); ("water leak", "WATER");
    ("water contamination", "WATER"); ("electricity", "ELECTRICITY");
    ("power", "ELECTRICITY"); ("power outage", "ELECTRICITY");
    ("street light", "ELECTRICITY"); ("electrical", "ELECTRICITY");
    ("sanitation", "SANITATION"); ("garbage", "SANITATION");
    ("waste", "SANITATION"); ("sewage", "SANITATION");
    ("cleaning", "SANITATION"); ("safety", "SAFETY");
    ("public safety", "SAFETY"); ("accident", "SAFETY"); ("hazard", "SAFETY");
    ("emergency", "SAFETY"); ("road", "ROADS"); ("roads", "ROADS");
    ("pothole", "ROADS"); ("infrastructure", "ROADS"); ("traffic", "ROADS");
    ("other", "OTHER"); ("general", "OTHER") ]%string.

Fixpoint lookup (table : list (string * string)) (key : string)
    : option string :=
  match table with
  | (k, v) :: rest => if String.eqb k key then Some v else lookup rest key
  | [] => None
  end.

(** A JavaScript number that may be [NaN]. *)
Inductive JsNumber := NaN | Finite (q : Q).

(** What [parseAIResponse] reads off the object [JSON.parse] returns: a text
    field is [None] when missing or not a string, [confidence] is [None] when
    [undefined] and otherwise what [parseFloat] makes of it. *)
Module Parsed.
Record t := mk {
  department : option string;
  department_code : option string;
  urgency : option string;
  confidence : option JsNumber;
  reasoning : option string;
  keywords : option (list string);
  suggested_priority : option Q
}.
End Parsed.

Module AIClassificationResult.
Record t := mk {
  department : string;
  department_code : string;
  urgency : UrgencyLevel;
  confidence : Q;
  reasoning : string;
  keywords : list string;
  suggested_priority : Q
}.
End AIClassificationResult.

Definition urgency_of_name (s : string) : option UrgencyLevel :=
  if String.eqb s "critical" then Some critical
  else if String.eqb s "high" then Some high
  else if String.eqb s "normal" then Some normal
  else None.

Definition PROMPT_HEAD : string :=
  "You are an AI assistant for a government Digital Complaint Management System. ANALYZE THE FOLLOWING COMPLAINT: ".
Definition PROMPT_TAIL : string := " RESPOND WITH JSON ONLY:".

(** The template with its three placeholders filled in (the rules and the
    output format that the template spells out are not repeated here). *)
Definition buildPrompt (description : string)
    (locationAddress imageAnalysis : option string) : string :=
  (PROMPT_HEAD ++ description ++ " "
   ++ match Str.truthy locationAddress with
      | Some a => "LOCATION: " ++ a
      | None => EmptyString
      end
   ++ " "
   ++ match Str.truthy imageAnalysis with
      | Some a => "IMAGE ANALYSIS: " ++ a
      | None => EmptyString
      end
   ++ PROMPT_TAIL)%string.

Definition DEPARTMENT_CODES : list string :=
  ["WATER"; "ELECTRICITY"; "SANITATION"; "SAFETY"; "ROADS"; "OTHER"]%string.

Record ProcessedComplaint := {
  classification : AIClassificationResult.t;
  departmentId : option string;
  isCriticalArea : bool;
  isAutoApproved : bool;
  slaDeadline : option Z
}.

Section Classification.

(** [JSON.parse]; [None] when it throws. *)
Variable JSON_parse : string -> option Parsed.t.

(** Parse and validate AI response. *)
Definition parseAIResponse (response : string) : M AIClassificationResult.t :=
  try_catch
    (let cleanResponse := Str.trim response in
     let cleanResponse :=
       if Str.startsWith cleanResponse "```json"
       then Str.sliceFrom 7 cleanResponse
       else if Str.startsWith cleanResponse "```"
       then Str.sliceFrom 3 cleanResponse
       else cleanResponse in
     let cleanResponse :=
       if Str.endsWith cleanResponse "```"
       then Str.sliceButLast 3 cleanResponse
       else cleanResponse in
     let cleanResponse := Str.trim cleanResponse in
     match JSON_parse cleanResponse with
     | None => throw (Error "Unexpected token in JSON")
     | Some parsed =>
         match Str.truthy (Parsed.department_code parsed),
               Str.truthy (Parsed.urgency parsed),
               Parsed.confidence parsed with
         | Some department_code, Some urgency_text, Some parsed_confidence =>
             let departmentCode := Str.toUpperCase department_code in
             let departmentCode :=
               if negb (Str.includes DEPARTMENT_CODES departmentCode)
               then
                 match Parsed.department parsed with
                 | Some d =>
                     match lookup DEPARTMENT_MAPPINGS (Str.toLowerCase d) with
                     | Some code => code
                     | None => "OTHER"%string
                     end
                 | None => "OTHER"%string
                 end
               else departmentCode in
             let urgency :=
               match urgency_of_name (Str.toLowerCase urgency_text) with
               | Some u => u
               | None => normal
               end in
             let confidence :=
               match parsed_confidence with
               | NaN => (1 # 2)%Q
               | Finite c =>
                   if (JS.lt c 0 || JS.lt 1 c)%bool then (1 # 2)%Q else c
               end in
             ret (AIClassificationResult.mk
                    match Str.truthy (Parsed.department parsed) with
                    | Some d => d
                    | None => departmentCode
                    end
                    departmentCode
                    urgency
                    (inject_Z (JS.Math_round (confidence * 100)%Q) / 100)%Q
                    (String.substring 0 500
                       match Str.truthy (Parsed.reasoning parsed) with
                       | Some r => r
                       | None => "Classification completed"%string
                       end)
                    match Parsed.keywords parsed with
                    | Some ks => firstn 10 ks
                    | None => []
                    end
                    match Parsed.suggested_priority parsed with
                    | Some p => if Qeq_bool p 0 then 50%Q else p
                    | None => 50%Q
                    end)
         | _, _, _ => throw (Error "Missing required fields in AI response")
         end
     end)
    (fun _ =>
       log log_error "Failed to parse AI response:" ;;;
       throw (AIServiceError "Failed to parse AI classification response")).

Definition error_message (e : AppError) : string :=
  match e with
  | ValidationError m | AIServiceError m | DatabaseError m | Error m => m
  | NotFoundError resource id => (resource ++ " with ID " ++ id ++ " not found")%string
  end.

(** Main classification function. *)
Definition classifyComplaint (description : string)
    (locationAddress imageAnalysis : option string)
    : M AIClassificationResult.t :=
  try_catch
    (log log_info "Starting AI classification" ;;;
     let prompt := buildPrompt description locationAddress imageAnalysis in
     reply <- gets (fun w => generateContent w prompt) ;;
     text <- match reply with
             | ReplyFails message => throw (Error message)
             | ReplyText text => ret text
             end ;;
     (if String.eqb text EmptyString then
        throw (AIServiceError "Empty response from AI model")
      else ret tt) ;;;
     classification <- parseAIResponse text ;;
     log log_info "AI classification completed" ;;;
     ret classification)
    (fun error =>
       log log_error "AI classification failed" ;;;
       match error with
       | AIServiceError _ => throw error
       | _ => throw (AIServiceError (error_message error))
       end).

(** Get department ID from code. *)
Definition getDepartmentByCode (code : string) : M (option (string * Z)) :=
  rows <- gets (fun w =>
    filter (fun d => (String.eqb (Department.code d) code
                      && Department.is_active d)%bool) (departments w)) ;;
  match single rows with
  | None => log log_warn "Department not found for code:" ;;; ret None
  | Some data => ret (Some (Department.id data, Department.sla_hours data))
  end.

(** Check if location is in critical area. *)
Definition checkCriticalArea (lat lng : Q) : M bool :=
  data <- gets (fun w =>
    filter (fun a =>
      (CriticalArea.is_active a
       && JS.ge (CriticalArea.lat_max a) lat
       && Qle_bool (CriticalArea.lat_min a) lat
       && JS.ge (CriticalArea.lng_max a) lng
       && Qle_bool (CriticalArea.lng_min a) lng)%bool) (critical_areas w)) ;;
  ret (negb (Nat.eqb (List.length (firstn 1 data)) 0)).

(** A number in a condition: zero counts as absent. *)
Definition truthy_number (n : option Q) : option Q :=
  match n with
  | Some q => if Qeq_bool q 0 then None else Some q
  | None => None
  end.

(** Full classification pipeline. *)
Definition classifyAndProcessComplaint (complaintId description : string)
    (locationLat locationLng : option Q) (locationAddress : option string)
    : M ProcessedComplaint :=
  classification <- classifyComplaint description locationAddress None ;;
  department <-
    getDepartmentByCode (AIClassificationResult.department_code classification) ;;
  isCriticalArea <-
    match truthy_number locationLat, truthy_number locationLng with
    | Some lat, Some lng => checkCriticalArea lat lng
    | _, _ => ret false
    end ;;
  threshold <- gets (fun w => ai_confidenceThreshold (config w)) ;;
  let isAutoApproved :=
    JS.ge (AIClassificationResult.confidence classification) threshold in
  slaDeadline <-
    match department with
    | Some (_, sla_hours) =>
        let multiplier :=
          urgencyMultipliers (AIClassificationResult.urgency classification) in
        let slaHours := (inject_Z sla_hours * multiplier)%Q in
        date <- Date_now ;;
        tza <- gets LocalTZA ;;
        ret (Some (JS.setHours tza date
                     (inject_Z (JS.getHours tza date) + slaHours)%Q))
    | None => ret None
    end ;;
  log log_info "Complaint processed" ;;;
  ret {| classification := classification;
         departmentId := match department with
                         | Some (id, _) => Str.truthy (Some id)
                         | None => None
                         end;
         isCriticalArea := isCriticalArea;
         isAutoApproved := isAutoApproved;
         slaDeadline := slaDeadline |}.

(** ** [services/complaintService.ts] *)

Record CreateComplaintRequest := {
  description : string;
  location_lat : option Q;
  location_lng : option Q;
  location_address : option string
}.

(** Process complaint classification in background. *)
Definition processComplaintClassification (complaintId : string)
    (data : CreateComplaintRequest) (createdAt : Z) : M unit :=
  try_catch
    (result <- classifyAndProcessComplaint complaintId (description data)
                 (location_lat data) (location_lng data)
                 (location_address data) ;;
     priorityScore <-
       calculatePriorityScore
         (AIClassificationResult.urgency (classification result))
         createdAt (isCriticalArea result) DEFAULT_WEIGHTS ;;
     let newStatus :=
       if isAutoApproved result then approved else pending_review in
     date <- Date_now ;;
     update_complaints complaintId (fun c =>
       Complaint.set_approved_at
         (if isAutoApproved result then Some date else None)
       (set_if_defined Complaint.set_sla_deadline (slaDeadline result)
       (Complaint.set_is_critical_area (isCriticalArea result)
       (Complaint.set_priority_score priorityScore
       (Complaint.set_status newStatus
       (Complaint.set_is_auto_approved (isAutoApproved result)
       (Complaint.set_ai_model_version (Some "gemini-pro-1.0"%string)
       (Complaint.set_ai_classified_at (Some date)
       (Complaint.set_ai_reasoning
          (Some (AIClassificationResult.reasoning (classification result)))
       (Complaint.set_ai_confidence
          (Some (AIClassificationResult.confidence (classification result)))
       (Complaint.set_urgency
          (AIClassificationResult.urgency (classification result))
       (Complaint.set_department_id (departmentId result) c)))))))))))) ;;;
     log log_info "Complaint classification completed" ;;;
     match isAutoApproved result, departmentId result with
     | true, Some dept => triggerComplaintRouting complaintId dept
     | _, _ => ret tt
     end)
    (fun _ =>
       log log_error "Classification processing failed" ;;;
       update_complaints complaintId (fun c =>
         Complaint.set_ai_reasoning
           (Some "Classification failed - requires manual review"%string)
           (Complaint.set_status pending_review c))).

(** The row that [insert] creates: the columns given by the service, the
    defaults of the schema for the others, [newId] for the generated key. *)
Definition new_complaint (newId userId : string) (createdAt : Z)
    : Complaint.t :=
  Complaint.mk newId userId submitted normal None None None None None false
    None None None None None 0%Q false None None None false false createdAt
    None None None.

(** Create a new complaint.  The classification is started and not awaited:
    it runs after the insert, and its rejection is logged and dropped. *)
Definition createComplaint (newId userId : string)
    (data : CreateComplaintRequest) : M Complaint.t :=
  try_catch
    (date <- Date_now ;;
     let complaint := new_complaint newId userId date in
     modify (fun w => with_complaints (complaints w ++ [complaint]) w) ;;;
     log log_info "Complaint created" ;;;
     try_catch
       (processComplaintClassification (Complaint.id complaint) data
          (Complaint.created_at complaint))
       (fun _ => log log_error "Background classification failed") ;;;
     ret complaint)
    (fun error =>
       log log_error "Failed to create complaint" ;;; throw error).

End Classification.

(** Get complaint by ID (the call without a role filter). *)
Definition getComplaintById (complaintId : string) : M Complaint.t :=
  rows <- select_complaints complaintId ;;
  match single rows with
  | Some data => ret data
  | None => throw (NotFoundError "Complaint" complaintId)
  end.

(** [.update(updateData).eq('id', complaintId).select().single()] *)
Definition update_returning (complaintId : string)
    (updateData : Complaint.t -> Complaint.t) : M Complaint.t :=
  update_complaints complaintId updateData ;;;
  rows <- select_complaints complaintId ;;
  match single rows with
  | Some data => ret data
  | None => throw (DatabaseError "Database operation failed")
  end.

(** Approve or reject complaint (admin only). *)
Definition reviewComplaint (complaintId reviewerId : string) (approved_ : bool)
    (notes departmentId : option string) (urgency : option UrgencyLevel)
    : M Complaint.t :=
  complaint <- getComplaintById complaintId ;;
  if negb (ComplaintStatus_eqb (Complaint.status complaint) pending_review)
  then throw (ValidationError "Complaint is not pending review")
  else
    date <- Date_now ;;
    let updateData c :=
      set_if_defined Complaint.set_review_notes notes
        (Complaint.set_reviewed_at (Some date)
        (Complaint.set_reviewed_by (Some reviewerId)
        (Complaint.set_status (if approved_ then approved else rejected) c)))
    in
    let updateData c :=
      if approved_ then
        match urgency with
        | Some u => Complaint.set_urgency u
        | None => fun c => c
        end
        (match Str.truthy departmentId with
         | Some d => Complaint.set_department_id (Some d)
         | None => fun c => c
         end
        (Complaint.set_is_auto_approved false
        (Complaint.set_approved_at (Some date) (updateData c))))
      else updateData c in
    data <- update_returning complaintId updateData ;;
    log log_info "Complaint reviewed" ;;;
    match approved_,
          match Str.truthy departmentId with
          | Some d => Some d
          | None => Str.truthy (Complaint.department_id complaint)
          end with
    | true, Some dept => triggerComplaintRouting complaintId dept
    | _, _ => ret tt
    end ;;;
    triggerNotification (Complaint.user_id complaint) complaintId
      (if approved_ then "complaint_approved" else "complaint_rejected") ;;;
    ret data.

Definition validTransitions (from : ComplaintStatus) : list ComplaintStatus :=
  match from with
  | submitted => [pending_review; approved]
  | pending_review => [approved; rejected]
  | approved => [assigned]
  | rejected => []
  | assigned => [in_progress]
  | in_progress => [resolved; escalated]
  | resolved => [closed]
  | closed => []
  | escalated => [in_progress; resolved]
  end.

Definition includes (l : list ComplaintStatus) (s : ComplaintStatus) : bool :=
  existsb (ComplaintStatus_eqb s) l.

(** Update complaint status (department user). *)
Definition updateComplaintStatus (complaintId updaterId : string)
    (status : ComplaintStatus) (notes resolutionType : option string)
    : M Complaint.t :=
  complaint <- getComplaintById complaintId ;;
  if negb (includes (validTransitions (Complaint.status complaint)) status)
  then
    throw (ValidationError
             ("Cannot transition from "
              ++ status_name (Complaint.status complaint)
              ++ " to " ++ status_name status))
  else
    date <- Date_now ;;
    let updateData c := Complaint.set_status status c in
    let updateData c :=
      if ComplaintStatus_eqb status resolved then
        set_if_defined Complaint.set_resolution_type resolutionType
          (set_if_defined Complaint.set_resolution_notes notes
          (Complaint.set_resolved_at (Some date) (updateData c)))
      else updateData c in
    let updateData c :=
      if ComplaintStatus_eqb status closed then
        Complaint.set_closed_at (Some date) (updateData c)
      else updateData c in
    data <- update_returning complaintId updateData ;;
    modify (fun w =>
      with_status_logs
        (complaint_status_logs w
         ++ [StatusLog.mk complaintId (Some (Complaint.status complaint))
               status (Some updaterId) notes]) w) ;;;
    log log_info "Complaint status updated" ;;;
    triggerNotification (Complaint.user_id complaint) complaintId
      "status_updated" ;;;
    ret data.

(** Assign complaint to user. *)
Definition assignComplaint (complaintId : string) (assignedTo : option string)
    : M Complaint.t :=
  date <- Date_now ;;
  data <- update_returning complaintId (fun c =>
    set_if_defined Complaint.set_assigned_to assignedTo
      (Complaint.set_assigned_at (Some date)
      (Complaint.set_status assigned c))) ;;
  log log_info "Complaint assigned" ;;;
  ret data.

(** ** [services/slaService.ts] *)

(** Escalation levels in order. *)
Definition ESCALATION_ORDER : list EscalationLevel :=
  [level_1; level_2; level_3; executive].

(** [Array.prototype.indexOf]: -1 when the element is absent. *)
Fixpoint indexOf (l : list EscalationLevel) (x : EscalationLevel) : Z :=
  match l with
  | [] => -1
  | y :: rest =>
      if EscalationLevel_eqb y x then 0
      else let i := indexOf rest x in if i <? 0 then -1 else i + 1
  end.

Definition escalationThresholds (level : EscalationLevel) : option Q :=
  match level with
  | level_1 => Some 24%Q
  | level_2 => Some 48%Q
  | level_3 => Some 72%Q
  | executive => None
  end.

(** [insert] into [escalations]; the database stamps the row. *)
Definition insert_escalation (complaintId : string) (level : EscalationLevel)
    (previous : option EscalationLevel) (reason : string) : M unit :=
  modify (fun w =>
    with_escalations
      (escalations w
       ++ [Escalation.mk complaintId level previous reason true false
             (clock w)]) w).

(** [.order('created_at', { ascending: false }).limit(1)]: the row with the
    greatest [created_at]; among equal stamps the one inserted last. *)
Definition most_recent (rows : list Escalation.t) : option Escalation.t :=
  fold_left
    (fun best e =>
       match best with
       | None => Some e
       | Some b =>
           if Escalation.created_at b <=? Escalation.created_at e
           then Some e else Some b
       end) rows None.

Definition of_complaint (complaintId : string) (e : Escalation.t) : bool :=
  String.eqb (Escalation.complaint_id e) complaintId.

Definition latest_escalation (complaintId : string)
    : M (option Escalation.t) :=
  gets (fun w => most_recent (filter (of_complaint complaintId) (escalations w))).

(** Handle SLA warning (approaching deadline). *)
Definition handleSLAWarning (complaintId : string) : M unit :=
  try_catch
    (update_complaints complaintId (Complaint.set_sla_breach_notified true) ;;;
     triggerSLAWarning complaintId ;;;
     log log_info "SLA warning sent")
    (fun _ => log log_error "Failed to handle SLA warning").

(** Handle SLA breach. *)
Definition handleSLABreach (complaintId : string) : M unit :=
  try_catch
    (update_complaints complaintId (fun c =>
       Complaint.set_status escalated
         (Complaint.set_sla_breach_notified true
         (Complaint.set_sla_breached true c))) ;;;
     insert_escalation complaintId level_1 None "SLA deadline exceeded" ;;;
     triggerSLABreach complaintId "level_1" ;;;
     log log_info "SLA breach processed")
    (fun _ => log log_error "Failed to handle SLA breach").

(** Escalate complaint to next level. *)
Definition escalateComplaint (complaintId : string)
    (previousLevel newLevel : EscalationLevel) : M unit :=
  try_catch
    (insert_escalation complaintId newLevel (Some previousLevel)
       ("Automatic escalation due to continued SLA breach ("
        ++ level_name previousLevel ++ " -> " ++ level_name newLevel ++ ")") ;;;
     triggerSLABreach complaintId (level_name newLevel) ;;;
     log log_info "Complaint escalated")
    (fun _ => log log_error "Failed to escalate complaint").

(** Check if complaint needs further escalation. *)
Definition checkEscalation (complaintId : string) (hoursOverdue : Q)
    : M bool :=
  try_catch
    (latestEscalation <- latest_escalation complaintId ;;
     match latestEscalation with
     | None => ret false
     | Some latest =>
         let currentLevel := Escalation.escalation_level latest in
         let currentIndex := indexOf ESCALATION_ORDER currentLevel in
         if currentIndex >=? Z.of_nat (List.length ESCALATION_ORDER) - 1
         then ret false
         else
           let threshold := escalationThresholds currentLevel in
           if match threshold with
              | Some t => JS.lt hoursOverdue t
              | None => false
              end
           then ret false
           else
             date_now <- Date_now ;;
             let hoursSinceEscalation :=
               (inject_Z (date_now - Escalation.created_at latest)
                / inject_Z JS.msPerHour)%Q in
             if JS.lt hoursSinceEscalation 12 then ret false
             else
               match nth_error ESCALATION_ORDER
                       (Z.to_nat (currentIndex + 1)) with
               | Some nextLevel =>
                   escalateComplaint complaintId currentLevel nextLevel ;;;
                   ret true
               | None => throw (DatabaseError "Database operation failed")
               end
     end)
    (fun _ => log log_error "Escalation check failed" ;;; ret false).

Record SweepResult := {
  checked : nat;
  warnings : nat;
  breaches : nat;
  escalations_ : nat
}.

Definition is_open (c : Complaint.t) : bool :=
  negb (ComplaintStatus_eqb (Complaint.status c) resolved
        || ComplaintStatus_eqb (Complaint.status c) closed
        || ComplaintStatus_eqb (Complaint.status c) rejected).

Definition has_deadline (c : Complaint.t) : bool :=
  match Complaint.sla_deadline c with
  | Some _ => true
  | None => false
  end.

(** One turn of the loop of [checkSLABreaches] on a row as it was selected;
    the counters so far go in and come out. *)
Definition check_complaint (now : Z) (warningThreshold : Q)
    (complaint : Complaint.t) (counters : nat * nat * nat)
    : M (nat * nat * nat) :=
  let '(warnings, breaches, escalations) := counters in
  let deadline :=
    match Complaint.sla_deadline complaint with
    | Some d => d
    | None => 0
    end in
  let timeUntilDeadline := deadline - now in
  counted <-
    (if (timeUntilDeadline <? 0)
        && negb (Complaint.sla_breached complaint)
     then handleSLABreach (Complaint.id complaint) ;;;
          ret (warnings, S breaches)
     else if (0 <? timeUntilDeadline)
             && JS.lt (inject_Z timeUntilDeadline) warningThreshold
             && negb (Complaint.sla_breach_notified complaint)
     then handleSLAWarning (Complaint.id complaint) ;;;
          ret (S warnings, breaches)
     else ret (warnings, breaches)) ;;
  let '(warnings, breaches) := counted in
  if Complaint.sla_breached complaint
     && negb (ComplaintStatus_eqb (Complaint.status complaint) escalated)
  then
    let hoursOverdue :=
      (inject_Z (JS.Math_abs timeUntilDeadline) / inject_Z JS.msPerHour)%Q in
    shouldEscalate <- checkEscalation (Complaint.id complaint) hoursOverdue ;;
    ret (warnings, breaches,
         if shouldEscalate then S escalations else escalations)
  else ret (warnings, breaches, escalations).

Fixpoint for_each (now : Z) (warningThreshold : Q)
    (selected : list Complaint.t) (counters : nat * nat * nat)
    : M (nat * nat * nat) :=
  match selected with
  | [] => ret counters
  | complaint :: rest =>
      counters' <- check_complaint now warningThreshold complaint counters ;;
      for_each now warningThreshold rest counters'
  end.

(** Check and process SLA breaches. *)
Definition checkSLABreaches : M SweepResult :=
  try_catch
    (selected <- gets (fun w =>
       filter (fun c => is_open c && has_deadline c)%bool (complaints w)) ;;
     now <- Date_now ;;
     hours <- gets (fun w => sla_warningHoursBefore (config w)) ;;
     let warningThreshold := (hours * 60 * 60 * 1000)%Q in
     counters <- for_each now warningThreshold selected (0, 0, 0)%nat ;;
     let '(warnings, breaches, escalations) := counters in
     log log_info "SLA check completed" ;;;
     ret {| checked := List.length selected; warnings := warnings;
            breaches := breaches; escalations_ := escalations |})
    (fun error => log log_error "SLA check failed" ;;; throw error).

(** ** [routes/webhooks.ts]: the cases of the n8n webhook that write a status *)

Module WebhookData.
Record t := mk {
  assigned_to : option string;
  status : option ComplaintStatus;
  updated_by : option string;
  notes : option string
}.
End WebhookData.

(** [case 'complaint_assigned'] *)
Definition n8n_complaint_assigned (complaint_id : string)
    (data : WebhookData.t) : M unit :=
  match Str.truthy (WebhookData.assigned_to data) with
  | Some assigned_to => assignComplaint complaint_id (Some assigned_to) ;;; ret tt
  | None => ret tt
  end.

(** [case 'status_update']: updates on behalf of the system are written
    directly, the others go through [updateComplaintStatus]. *)
Definition n8n_status_update (complaint_id : string) (data : WebhookData.t)
    : M unit :=
  match WebhookData.status data with
  | None => ret tt
  | Some status =>
      let updatedBy :=
        match Str.truthy (WebhookData.updated_by data) with
        | Some u => u
        | None => "system"%string
        end in
      if String.eqb updatedBy "system" then
        date <- Date_now ;;
        update_complaints complaint_id (fun c =>
          if ComplaintStatus_eqb status assigned
          then Complaint.set_assigned_at (Some date)
                 (Complaint.set_status status c)
          else Complaint.set_status status c) ;;;
        modify (fun w =>
          with_status_logs
            (complaint_status_logs w
             ++ [StatusLog.mk complaint_id None status None
                   (Some match Str.truthy (WebhookData.notes data) with
                         | Some n => n
                         | None => "Updated via n8n routing workflow"%string
                         end)]) w) ;;;
        log log_info "Complaint status updated via webhook"
      else
        updateComplaintStatus complaint_id updatedBy status
          (WebhookData.notes data) None ;;;
        ret tt
  end.

(** ** [utils/helpers.ts]: escalation level and input helpers *)

(** Determine escalation level based on overdue time. *)
Definition determineEscalationLevel (currentLevel : option string)
    (hoursOverdue : Q) : EscalationLevel :=
  let currentLevel_is (name : string) :=
    match currentLevel with
    | Some l => String.eqb l name
    | None => false
    end in
  if (JS.lt 72 hoursOverdue || currentLevel_is "level_3"%string)%bool then executive
  else if (JS.lt 48 hoursOverdue || currentLevel_is "level_2"%string)%bool
       then level_3
  else if (JS.lt 24 hoursOverdue || currentLevel_is "level_1"%string)%bool
       then level_2
  else level_1.

(** [s.replace(/<[^>]*>/g, '')]: from the left, a '<' and the text up to and
    including the next '>' are removed; a '<' with no '>' after it stays,
    with the text that follows it.  [held] is the text read since such a
    '<', most recent character first. *)
Fixpoint removeTags (held : option string) (s : string) : string :=
  match s, held with
  | EmptyString, None => EmptyString
  | EmptyString, Some h => Str.reverse h EmptyString
  | String c s', None =>
      if Ascii.eqb c "<" then removeTags (Some (String c EmptyString)) s'
      else String c (removeTags None s')
  | String c s', Some h =>
      if Ascii.eqb c ">" then removeTags None s'
      else removeTags (Some (String c h)) s'
  end.

(** [s.replace(/[<>]/g, '')] *)
Fixpoint removeAngleBrackets (s : string) : string :=
  match s with
  | EmptyString => EmptyString
  | String c s' =>
      if (Ascii.eqb c "<" || Ascii.eqb c ">")%bool
      then removeAngleBrackets s'
      else String c (removeAngleBrackets s')
  end.

(** Sanitize user input. *)
Definition sanitizeInput (input : string) : string :=
  removeAngleBrackets (removeTags None (Str.trim input)).

(** ** [services/webhookService.ts]: the hours of the SLA messages *)

Definition Math_max (a b : Q) : Q := if Qle_bool a b then b else a.

Definition calculateHoursRemaining (deadline : option Z) : M Q :=
  match deadline with
  | None => ret 0%Q
  | Some d =>
      date_now <- Date_now ;;
      let diff := d - date_now in
      ret (Math_max 0
             (inject_Z
                (JS.Math_round
                   (inject_Z diff / inject_Z (1000 * 60 * 60) * 10)%Q)
              / 10)%Q)
  end.

Definition calculateHoursOverdue (deadline : option Z) : M Q :=
  match deadline with
  | None => ret 0%Q
  | Some d =>
      date_now <- Date_now ;;
      let diff := date_now - d in
      ret (Math_max 0
             (inject_Z
                (JS.Math_round
                   (inject_Z diff / inject_Z (1000 * 60 * 60) * 10)%Q)
              / 10)%Q)
  end.

(** ** [services/slaService.ts]: SLA statistics *)

Module SLAStatistics.
Record t := mk {
  total_complaints : nat;
  sla_breached : nat;
  sla_compliance_rate : Q;
  resolved_on_time : nat;
  resolution_rate : Q
}.
End SLAStatistics.

Definition is_resolved (c : Complaint.t) : bool :=
  match Complaint.resolved_at c with
  | Some _ => true
  | None => false
  end.

(** Get SLA statistics. *)
Definition getSLAStatistics (departmentId : option string)
    : M SLAStatistics.t :=
  data <- gets (fun w =>
    filter (fun c =>
      negb (ComplaintStatus_eqb (Complaint.status c) submitted
            || ComplaintStatus_eqb (Complaint.status c) pending_review)
      && match Str.truthy departmentId with
         | Some d =>
             match Complaint.department_id c with
             | Some d' => String.eqb d' d
             | None => false
             end
         | None => true
         end)%bool (complaints w)) ;;
  let total := List.length data in
  let breached := List.length (filter Complaint.sla_breached data) in
  let resolved := List.length (filter is_resolved data) in
  let resolvedOnTime :=
    List.length
      (filter (fun c => is_resolved c && negb (Complaint.sla_breached c))%bool
         data) in
  let number (n : nat) := inject_Z (Z.of_nat n) in
  ret {| SLAStatistics.total_complaints := total;
         SLAStatistics.sla_breached := breached;
         SLAStatistics.sla_compliance_rate :=
           (if (0 <? total)%nat
            then (number total - number breached) / number total * 100
            else 100)%Q;
         SLAStatistics.resolved_on_time := resolvedOnTime;
         SLAStatistics.resolution_rate :=
           (if (0 <? total)%nat
            then number resolved / number total * 100
            else 0)%Q |}.

(** ** [services/complaintService.ts]: reading a complaint for a user *)

(** Apply role-based filtering: the condition that the query adds. *)
Definition role_filter (userId userRole departmentId : option string)
    (c : Complaint.t) : bool :=
  let role_is (name : string) :=
    match userRole with
    | Some r => String.eqb r name
    | None => false
    end in
  match role_is "citizen"%string, Str.truthy userId with
  | true, Some u => String.eqb (Complaint.user_id c) u
  | _, _ =>
      match role_is "department"%string, Str.truthy departmentId with
      | true, Some d =>
          match Complaint.department_id c with
          | Some d' => String.eqb d' d
          | None => false
          end
      | _, _ => true
      end
  end.

(** Get complaint by ID, for a user. *)
Definition getComplaintById_as (complaintId : string)
    (userId userRole departmentId : option string) : M Complaint.t :=
  rows <- gets (fun w =>
    filter (fun c =>
              has_id complaintId c
              && role_filter userId userRole departmentId c)%bool
      (complaints w)) ;;
  match single rows with
  | Some data => ret data
  | None => throw (NotFoundError "Complaint" complaintId)
  end.

(** ** [middleware/validation.ts], [routes/complaints.ts]: the status route *)

(** The body of [PATCH /:id/status]; a field is [None] when it is missing. *)
Module StatusBody.
Record t := mk {
  status : option string;
  notes : option string;
  resolution_type : option string
}.
End StatusBody.

(** [updateComplaintStatusSchema.safeParse]: the parsed body, or [None] when
    validation fails. *)
Definition updateComplaintStatusSchema (body : StatusBody.t)
    : option (ComplaintStatus * option string * option string) :=
  let status :=
    match StatusBody.status body with
    | Some s =>
        if String.eqb s "in_progress" then Some in_progress
        else if String.eqb s "resolved" then Some resolved
        else if String.eqb s "closed" then Some closed
        else None
    | None => None
    end in
  let notes_fit :=
    match StatusBody.notes body with
    | Some n => Nat.leb (String.length n) 2000
    | None => true
    end in
  let resolution_type_known :=
    match StatusBody.resolution_type body with
    | Some r =>
        Str.includes ["fixed"; "duplicate"; "invalid"; "referred"]%string r
    | None => true
    end in
  match status with
  | Some s =>
      if (notes_fit && resolution_type_known)%bool
      then Some (s, StatusBody.notes body, StatusBody.resolution_type body)
      else None
  | None => None
  end.

(** [validate(updateComplaintStatusSchema, 'body')] and the handler of the
    route, for an authorised user. *)
Definition patch_status (id updaterId : string) (body : StatusBody.t)
    : M Complaint.t :=
  match updateComplaintStatusSchema body with
  | None => throw (ValidationError "Validation failed")
  | Some (status, notes, resolution_type) =>
      updateComplaintStatus id updaterId status notes resolution_type
  end.

(** * Properties *)

(** ** Dates *)

Lemma time_value_parts (t : Z) :
  JS.MakeDate (JS.Day t)
    (JS.HourFromTime t * JS.msPerHour + JS.MinFromTime t * JS.msPerMinute
     + JS.SecFromTime t * JS.msPerSecond + JS.msFromTime t) = t.
Proof.
  unfold JS.MakeDate, JS.Day, JS.HourFromTime, JS.MinFromTime, JS.SecFromTime,
    JS.msFromTime, JS.msPerDay, JS.msPerHour, JS.msPerMinute, JS.msPerSecond.
  assert (H1 : t / 60000 = t / 1000 / 60)
    by (rewrite Z.div_div by lia; reflexivity).
  assert (H2 : t / 3600000 = t / 60000 / 60)
    by (rewrite Z.div_div by lia; reflexivity).
  assert (H3 : t / 86400000 = t / 3600000 / 24)
    by (rewrite Z.div_div by lia; reflexivity).
  pose proof (Z.div_mod t 1000 ltac:(lia)).
  pose proof (Z.div_mod (t / 1000) 60 ltac:(lia)).
  pose proof (Z.div_mod (t / 60000) 60 ltac:(lia)).
  pose proof (Z.div_mod (t / 3600000) 24 ltac:(lia)).
  lia.
Qed.

Lemma ToIntegerOrInfinity_whole (q : Q) (n : Z) :
  (q == inject_Z n)%Q -> JS.ToIntegerOrInfinity q = n.
Proof.
  unfold Qeq, JS.ToIntegerOrInfinity; simpl; intros H.
  rewrite Z.mul_1_r in H; rewrite H.
  apply Z.quot_mul; lia.
Qed.

(** Moving the hour of a date by a whole number of hours moves the date by
    that many hours. *)
Lemma setHours_whole (tza d : Z) (q : Q) (n : Z) :
  (q == inject_Z n)%Q ->
  JS.setHours tza d (inject_Z (JS.getHours tza d) + q)%Q
  = d + n * JS.msPerHour.
Proof.
  intros Hq. unfold JS.setHours, JS.getHours, JS.MakeTime.
  rewrite (ToIntegerOrInfinity_whole _ (JS.HourFromTime (JS.LocalTime tza d) + n)).
  - pose proof (time_value_parts (JS.LocalTime tza d)) as Hp.
    unfold JS.MakeDate in *. unfold JS.UTC, JS.LocalTime in *. lia.
  - rewrite Hq, inject_Z_plus. reflexivity.
Qed.

(** A fractional number of hours loses its fraction. *)
Lemma setHours_drops_fraction :
  calculateSLADeadline 0 10 critical 0 = 2 * JS.msPerHour.
Proof. reflexivity. Qed.

(** ** Operations that only write to the log *)

(** [logged w w']: [w'] is [w] with more lines in the log. *)
Definition logged (w w' : World) : Prop :=
  exists lines, w' = with_logger (logger w ++ lines) w.

Lemma logged_refl w : logged w w.
Proof. exists []. rewrite app_nil_r. destruct w; reflexivity. Qed.

Lemma logged_trans w1 w2 w3 : logged w1 w2 -> logged w2 w3 -> logged w1 w3.
Proof.
  intros [l1 ->] [l2 ->]. exists (l1 ++ l2). simpl.
  rewrite app_assoc. reflexivity.
Qed.

Definition logs_only {A} (m : M A) : Prop := forall w, logged w (snd (m w)).

Lemma logs_only_ret {A} (a : A) : logs_only (ret a).
Proof. intros w. apply logged_refl. Qed.

Lemma logs_only_throw {A} e : logs_only (@throw A e).
Proof. intros w. apply logged_refl. Qed.

Lemma logs_only_gets {A} (f : World -> A) : logs_only (gets f).
Proof. intros w. apply logged_refl. Qed.

Lemma logs_only_log level message : logs_only (log level message).
Proof. intros w. exists [(level, message)]. reflexivity. Qed.

Lemma logs_only_bind {A B} (m : M A) (k : A -> M B) :
  logs_only m -> (forall a, logs_only (k a)) -> logs_only (bind m k).
Proof.
  intros Hm Hk w. unfold bind. specialize (Hm w).
  destruct (m w) as [[a | e] w1]; simpl in *; [|assumption].
  eapply logged_trans; [eassumption | apply Hk].
Qed.

Lemma logs_only_try_catch {A} (m : M A) (h : AppError -> M A) :
  logs_only m -> (forall e, logs_only (h e)) -> logs_only (try_catch m h).
Proof.
  intros Hm Hh w. unfold try_catch. specialize (Hm w).
  destruct (m w) as [[a | e] w1]; simpl in *; [assumption|].
  eapply logged_trans; [eassumption | apply Hh].
Qed.

Ltac logs_only_step :=
  first
    [ apply logs_only_ret | apply logs_only_throw | apply logs_only_gets
    | apply logs_only_log | apply logs_only_bind; [|intros ?]
    | apply logs_only_try_catch; [|intros ?] ].

Ltac logs_only_tac :=
  repeat first
    [ logs_only_step
    | match goal with
      | |- logs_only (match ?x with _ => _ end) => destruct x
      | |- logs_only (if ?x then _ else _) => destruct x
      | |- logs_only (let _ := _ in _) => cbv zeta
      end ].

Lemma logs_only_parseAIResponse JSON_parse response :
  logs_only (parseAIResponse JSON_parse response).
Proof. unfold parseAIResponse. logs_only_tac. Qed.

Lemma logs_only_classifyComplaint JSON_parse d a i :
  logs_only (classifyComplaint JSON_parse d a i).
Proof.
  unfold classifyComplaint. logs_only_tac.
Qed.

Lemma logs_only_classifyAndProcessComplaint JSON_parse cid d lat lng a :
  logs_only (classifyAndProcessComplaint JSON_parse cid d lat lng a).
Proof.
  unfold classifyAndProcessComplaint, getDepartmentByCode, checkCriticalArea,
    Date_now.
  logs_only_tac.
Qed.

Lemma logs_only_calculatePriorityScore u c a wts :
  logs_only (calculatePriorityScore u c a wts).
Proof. unfold calculatePriorityScore, Date_now. logs_only_tac. Qed.

(** ** Priority Scorer *)

(** The urgency values and the weighted sum as section 4.1 words them, for a
    clock reading [now]. *)
Definition urgency_value (u : UrgencyLevel) : Q :=
  match u with
  | critical => 1
  | high => 7 # 10
  | normal => 3 # 10
  end%Q.

Definition hoursSince (createdAt now : Z) : Q :=
  (inject_Z (now - createdAt) / 3600000)%Q.

Definition weighted_sum (now : Z) (urgency : UrgencyLevel) (createdAt : Z)
    (isCriticalArea : bool) (weights : PriorityWeights) : Q :=
  (w_urgency weights * urgency_value urgency
   + w_time weights * Qmin (hoursSince createdAt now / 168) 1
   + w_location weights * (if isCriticalArea then 1 else 0))%Q.

(** [s] is [x] rounded to two decimals, halves upwards. *)
Definition rounded_to_2_decimals (x s : Q) : Prop :=
  exists k : Z,
    (s == inject_Z k / 100 /\ x - (1 # 200) < s /\ s <= x + (1 # 200))%Q.

Lemma Math_min_Qmin (a b : Q) : (JS.Math_min a b == Qmin a b)%Q.
Proof.
  unfold JS.Math_min. destruct (Qle_bool a b) eqn:E.
  - apply Qle_bool_iff in E. symmetry. apply Q.min_l. assumption.
  - assert (b <= a)%Q.
    { destruct (Qlt_le_dec b a) as [H | H]; [apply Qlt_le_weak; assumption|].
      apply Qle_bool_iff in H. congruence. }
    symmetry. apply Q.min_r. assumption.
Qed.

Lemma Math_round_2_decimals (x : Q) :
  rounded_to_2_decimals x (inject_Z (JS.Math_round (x * 100)) / 100)%Q.
Proof.
  exists (JS.Math_round (x * 100)). split; [reflexivity|].
  unfold JS.Math_round.
  pose proof (Qfloor_le (x * 100 + (1 # 2))) as Hle.
  pose proof (Qlt_floor (x * 100 + (1 # 2))) as Hlt.
  rewrite inject_Z_plus in Hlt.
  set (k := inject_Z (Qfloor (x * 100 + (1 # 2)))) in *.
  change (inject_Z 1) with 1%Q in Hlt.
  assert (E : (k / 100 == k * (1 # 100))%Q) by reflexivity.
  rewrite E. split; lra.
Qed.

Lemma hundredths_range (k : Z) :
  0 <= k <= 10000 -> (0 <= inject_Z k / 100 /\ inject_Z k / 100 <= 100)%Q.
Proof. intros H. unfold Qle, Qdiv, Qmult, Qinv, inject_Z; simpl. lia. Qed.

Lemma Math_round_range (x : Q) :
  (0 <= x)%Q -> (x <= 100)%Q ->
  (0 <= inject_Z (JS.Math_round (x * 100)) / 100
   /\ inject_Z (JS.Math_round (x * 100)) / 100 <= 100)%Q.
Proof.
  intros H0 H1. apply hundredths_range. unfold JS.Math_round. split.
  - change 0 with (Qfloor 0). apply Qfloor_resp_le. lra.
  - change 10000 with (Qfloor (10000 + (1 # 2))). apply Qfloor_resp_le. lra.
Qed.

Lemma weighted_sum_range now u createdAt (flag : bool) wts :
  (0 <= w_urgency wts)%Q -> (0 <= w_time wts)%Q -> (0 <= w_location wts)%Q ->
  (w_urgency wts + w_time wts + w_location wts <= 100)%Q ->
  createdAt <= now ->
  (0 <= weighted_sum now u createdAt flag wts
   /\ weighted_sum now u createdAt flag wts <= 100)%Q.
Proof.
  intros Hu Ht Hl Hsum Hage. unfold weighted_sum.
  set (tv := Qmin (hoursSince createdAt now / 168) 1).
  assert (Htv : (0 <= tv /\ tv <= 1)%Q).
  { unfold tv. split; [|apply Q.le_min_r].
    apply Q.min_glb; [|lra].
    unfold hoursSince, Qle, Qdiv, Qmult, Qinv, inject_Z; simpl. lia. }
  assert (Huv : (0 <= urgency_value u /\ urgency_value u <= 1)%Q)
    by (destruct u; simpl; split; lra).
  assert (Hlv : (0 <= (if flag then 1 else 0) /\ (if flag then 1 else 0) <= 1)%Q)
    by (destruct flag; split; lra).
  set (lv := (if flag then 1 else 0)%Q) in *.
  split; nra.
Qed.

Lemma score_is_weighted_sum now u createdAt (flag : bool) wts :
  (w_urgency wts * URGENCY_VALUES u
   + w_time wts
     * JS.Math_min
         (inject_Z (now - createdAt) / inject_Z JS.msPerHour / 168) 1
   + w_location wts * (if flag then 1 else 0)
   == weighted_sum now u createdAt flag wts)%Q.
Proof.
  unfold weighted_sum, hoursSince. rewrite Math_min_Qmin.
  destruct u; reflexivity.
Qed.

(** A world with empty tables, at the epoch, with the default settings. *)
Definition empty_world : World :=
  {| clock := 0; LocalTZA := 0; config := default_config;
     complaints := []; complaint_status_logs := []; escalations := [];
     departments := []; critical_areas := [];
     generateContent := fun _ => ReplyFails "unavailable";
     logger := []; outbox := [] |}.







(** ** Auto-Approval Gate: what the pipeline returns *)

Definition find_department (w : World) (code : string)
    : option Department.t :=
  single (filter (fun d => (String.eqb (Department.code d) code
                            && Department.is_active d)%bool) (departments w)).

Definition in_critical_area (w : World) (lat lng : Q) : bool :=
  negb (Nat.eqb (List.length (firstn 1 (filter (fun a =>
    (CriticalArea.is_active a
     && JS.ge (CriticalArea.lat_max a) lat
     && Qle_bool (CriticalArea.lat_min a) lat
     && JS.ge (CriticalArea.lng_max a) lng
     && Qle_bool (CriticalArea.lng_min a) lng)%bool) (critical_areas w))))
    0).

(** The value of [classifyAndProcessComplaint] in world [w] once the
    classifier has answered [cls]. *)
Definition gate (w : World) (cls : AIClassificationResult.t)
    (lat lng : option Q) : ProcessedComplaint :=
  let department :=
    find_department w (AIClassificationResult.department_code cls) in
  {| classification := cls;
     departmentId :=
       match department with
       | Some d => Str.truthy (Some (Department.id d))
       | None => None
       end;
     isCriticalArea :=
       match truthy_number lat, truthy_number lng with
       | Some la, Some ln => in_critical_area w la ln
       | _, _ => false
       end;
     isAutoApproved :=
       JS.ge (AIClassificationResult.confidence cls)
         (ai_confidenceThreshold (config w));
     slaDeadline :=
       match department with
       | Some d =>
           Some (JS.setHours (LocalTZA w) (clock w)
                   (inject_Z (JS.getHours (LocalTZA w) (clock w))
                    + inject_Z (Department.sla_hours d)
                      * urgencyMultipliers (AIClassificationResult.urgency cls))%Q)
       | None => None
       end |}.

Lemma classifyAndProcessComplaint_result JSON_parse cid d lat lng addr w cls w1 :
  classifyComplaint JSON_parse d addr None w = (Ok cls, w1) ->
  fst (classifyAndProcessComplaint JSON_parse cid d lat lng addr w)
  = Ok (gate w cls lat lng).
Proof.
  intros H.
  pose proof (logs_only_classifyComplaint JSON_parse d addr None w) as L.
  rewrite H in L; simpl in L. destruct L as [l ->].
  unfold classifyAndProcessComplaint, gate, find_department, in_critical_area.
  unfold bind at 1. rewrite H.
  unfold getDepartmentByCode, checkCriticalArea, Date_now, bind, gets, ret, log,
    modify; simpl.
  destruct (single _) as [dept|]; simpl;
    destruct (truthy_number lat); destruct (truthy_number lng); reflexivity.
Qed.

Lemma classifyAndProcessComplaint_throws JSON_parse cid d lat lng addr w e w1 :
  classifyComplaint JSON_parse d addr None w = (Throw e, w1) ->
  classifyAndProcessComplaint JSON_parse cid d lat lng addr w = (Throw e, w1).
Proof.
  intros H. unfold classifyAndProcessComplaint. unfold bind at 1.
  rewrite H. reflexivity.
Qed.

(** ** SLA Deadline Calculator *)

(** An answer of the model as [JSON.parse] returns it, for the examples. *)
Definition sample_answer (u : string) (confidence : Q) : Parsed.t :=
  {| Parsed.department := Some "Water Supply"%string;
     Parsed.department_code := Some "WATER"%string;
     Parsed.urgency := Some u;
     Parsed.confidence := Some (Finite confidence);
     Parsed.reasoning := Some "Burst pipe on the main road"%string;
     Parsed.keywords := Some ["pipe"; "leak"]%string;
     Parsed.suggested_priority := Some 80%Q |}.

(** A world whose model answers and which knows the water department
    (48 hours) when [known] holds. *)
Definition answering_world (known : bool) : World :=
  {| clock := 0; LocalTZA := 0; config := default_config;
     complaints := []; complaint_status_logs := []; escalations := [];
     departments :=
       if known then [Department.mk "d-water" "WATER" 48 true] else [];
     critical_areas := [];
     generateContent := fun _ => ReplyText "{ }";
     logger := []; outbox := [] |}.

Lemma filter_none {A} (l : list A) : filter (fun _ => false) l = [].
Proof. induction l; simpl; auto. Qed.




(** ** Operations that only log and notify *)

(** [same_tables w w']: the worlds differ at most in the log and in the
    messages handed to the notifier. *)
Definition same_tables (w w' : World) : Prop :=
  exists lines messages, w' = with_outbox messages (with_logger lines w).

Lemma same_tables_refl w : same_tables w w.
Proof. exists (logger w), (outbox w). destruct w; reflexivity. Qed.

Lemma same_tables_trans w1 w2 w3 :
  same_tables w1 w2 -> same_tables w2 w3 -> same_tables w1 w3.
Proof.
  intros (l1 & o1 & ->) (l2 & o2 & ->). exists l2, o2. reflexivity.
Qed.

Lemma logged_same_tables w w' : logged w w' -> same_tables w w'.
Proof. intros [l ->]. exists (logger w ++ l), (outbox w). destruct w; reflexivity. Qed.

(** [quiet m]: [m] always resolves and leaves the tables alone. *)
Definition quiet {A} (m : M A) : Prop :=
  forall w, exists a w', m w = (Ok a, w') /\ same_tables w w'.

Lemma quiet_log level message : quiet (log level message).
Proof.
  intros w. do 2 eexists. split; [reflexivity|].
  apply logged_same_tables. exists [(level, message)]. reflexivity.
Qed.

Lemma quiet_send o : quiet (send o).
Proof.
  intros w. do 2 eexists. split; [reflexivity|].
  exists (logger w), (outbox w ++ [o]). destruct w; reflexivity.
Qed.

Lemma quiet_ret {A} (a : A) : quiet (ret a).
Proof. intros w. do 2 eexists. split; [reflexivity | apply same_tables_refl]. Qed.

Lemma quiet_gets {A} (f : World -> A) : quiet (gets f).
Proof. intros w. do 2 eexists. split; [reflexivity | apply same_tables_refl]. Qed.

Lemma quiet_bind {A B} (m : M A) (k : A -> M B) :
  quiet m -> (forall a, quiet (k a)) -> quiet (bind m k).
Proof.
  intros Hm Hk w. destruct (Hm w) as (a & w1 & E1 & T1).
  destruct (Hk a w1) as (b & w2 & E2 & T2).
  exists b, w2. unfold bind. rewrite E1. split; [assumption|].
  eapply same_tables_trans; eassumption.
Qed.

Ltac quiet_tac :=
  repeat first
    [ apply quiet_ret | apply quiet_gets | apply quiet_log | apply quiet_send
    | apply quiet_bind; [|intros ?]
    | match goal with
      | |- quiet (match ?x with _ => _ end) => destruct x
      end ].

Lemma quiet_triggerNotification u c t : quiet (triggerNotification u c t).
Proof. unfold triggerNotification, select_complaints. quiet_tac. Qed.

Lemma quiet_triggerComplaintRouting c d : quiet (triggerComplaintRouting c d).
Proof. unfold triggerComplaintRouting, select_complaints. quiet_tac. Qed.

Lemma quiet_triggerSLAWarning c : quiet (triggerSLAWarning c).
Proof. unfold triggerSLAWarning, select_complaints. quiet_tac. Qed.

Lemma quiet_triggerSLABreach c l : quiet (triggerSLABreach c l).
Proof.
  unfold triggerSLABreach, select_complaints. quiet_tac.
Qed.

Lemma Forall2_map_r {A} (P : A -> A -> Prop) (f : A -> A) (l : list A) :
  (forall a, In a l -> P a (f a)) -> Forall2 P l (map f l).
Proof.
  induction l as [|a l IH]; simpl; intros H; constructor.
  - apply H. left. reflexivity.
  - apply IH. intros b Hb. apply H. right. assumption.
Qed.

(** ** Auto-Approval Gate *)

(** The row that the gate writes for a complaint, given what the pipeline
    returned, the score and the clock reading. *)
Definition classified (r : ProcessedComplaint) (score : Q) (now : Z)
    (c : Complaint.t) : Complaint.t :=
  Complaint.set_approved_at (if isAutoApproved r then Some now else None)
    (set_if_defined Complaint.set_sla_deadline (slaDeadline r)
    (Complaint.set_is_critical_area (isCriticalArea r)
    (Complaint.set_priority_score score
    (Complaint.set_status (if isAutoApproved r then approved else pending_review)
    (Complaint.set_is_auto_approved (isAutoApproved r)
    (Complaint.set_ai_model_version (Some "gemini-pro-1.0"%string)
    (Complaint.set_ai_classified_at (Some now)
    (Complaint.set_ai_reasoning
       (Some (AIClassificationResult.reasoning (classification r)))
    (Complaint.set_ai_confidence
       (Some (AIClassificationResult.confidence (classification r)))
    (Complaint.set_urgency (AIClassificationResult.urgency (classification r))
    (Complaint.set_department_id (departmentId r) c))))))))))).

Definition rewrite_rows (complaintId : string)
    (f : Complaint.t -> Complaint.t) (rows : list Complaint.t)
    : list Complaint.t :=
  map (fun c => if has_id complaintId c then f c else c) rows.

Lemma processComplaintClassification_classified
    JSON_parse cid data createdAt w cls w1 :
  classifyComplaint JSON_parse (description data) (location_address data)
    None w = (Ok cls, w1) ->
  let r := gate w cls (location_lat data) (location_lng data) in
  let run := processComplaintClassification JSON_parse cid data createdAt w in
  exists score,
    calculatePriorityScore (AIClassificationResult.urgency cls) createdAt
      (isCriticalArea r) DEFAULT_WEIGHTS w = (Ok score, w)
    /\ fst run = Ok tt
    /\ complaints (snd run)
       = rewrite_rows cid (classified r score (clock w)) (complaints w)
    /\ complaint_status_logs (snd run) = complaint_status_logs w
    /\ escalations (snd run) = escalations w.
Proof.
  intros H r run.
  pose proof (classifyAndProcessComplaint_result JSON_parse cid
                (description data) (location_lat data) (location_lng data)
                (location_address data) w cls w1 H) as Hres.
  pose proof (logs_only_classifyAndProcessComplaint JSON_parse cid
                (description data) (location_lat data) (location_lng data)
                (location_address data) w) as [l Hl].
  destruct (classifyAndProcessComplaint JSON_parse cid (description data)
              (location_lat data) (location_lng data) (location_address data)
              w) as [res w2] eqn:E.
  simpl in Hres, Hl. subst res w2. fold r in E.
  subst run.
  destruct (processComplaintClassification JSON_parse cid data createdAt w)
    as [res wf] eqn:Erun.
  unfold processComplaintClassification, try_catch in Erun.
  unfold bind at 1 in Erun. rewrite E in Erun.
  unfold calculatePriorityScore, Date_now, update_complaints, log in Erun.
  unfold bind, gets, modify, ret in Erun. cbn beta iota zeta in Erun.
  eexists. split; [reflexivity|].
  unfold classified.
  destruct (isAutoApproved r) eqn:Ea; [destruct (departmentId r) eqn:Ed|].
  - match type of Erun with
    | context [triggerComplaintRouting ?c ?d ?w0] =>
        destruct (quiet_triggerComplaintRouting c d w0)
          as ([] & w3 & E3 & (l3 & o3 & ->))
    end.
    rewrite E3 in Erun. injection Erun as <- <-. repeat split.
  - injection Erun as <- <-. repeat split.
  - injection Erun as <- <-. repeat split.
Qed.

Definition approved_by_gate (now : Z) (c : Complaint.t) : Prop :=
  Complaint.status c = approved
  /\ Complaint.is_auto_approved c = true
  /\ Complaint.approved_at c = Some now.

Definition left_for_review (c : Complaint.t) : Prop :=
  Complaint.status c = pending_review
  /\ Complaint.is_auto_approved c = false
  /\ Complaint.approved_at c = None.

(** What the gate did to the rows of complaint [cid], every other row being
    left as it was. *)
Definition gate_wrote (cid : string) (P : Complaint.t -> Complaint.t -> Prop)
    (before after : list Complaint.t) : Prop :=
  Forall2 (fun c c' => if has_id cid c then P c c' else c' = c) before after.

Lemma gate_wrote_weaken cid (P Q : Complaint.t -> Complaint.t -> Prop) l l' :
  (forall c c', P c c' -> Q c c') ->
  gate_wrote cid P l l' -> gate_wrote cid Q l l'.
Proof.
  intros HPQ H. unfold gate_wrote in *.
  induction H as [|c c' l l' Hc _ IH]; constructor; [|assumption].
  destruct (has_id cid c); [apply HPQ|]; assumption.
Qed.


(** A world whose model answers, which knows the water department, and in
    which complaint c-1 has just been submitted. *)
Definition submitted_world : World :=
  with_complaints [new_complaint "c-1" "u-1" 0] (answering_world true).

Definition flooding : CreateComplaintRequest :=
  {| description := "Water is flooding the street";
     location_lat := None; location_lng := None; location_address := None |}.


(** ** Classification failures *)

(** The text that [parseAIResponse] hands to [JSON.parse]. *)
Definition cleaned (response : string) : string :=
  let cleanResponse := Str.trim response in
  let cleanResponse :=
    if Str.startsWith cleanResponse "```json"
    then Str.sliceFrom 7 cleanResponse
    else if Str.startsWith cleanResponse "```"
    then Str.sliceFrom 3 cleanResponse
    else cleanResponse in
  let cleanResponse :=
    if Str.endsWith cleanResponse "```"
    then Str.sliceButLast 3 cleanResponse
    else cleanResponse in
  Str.trim cleanResponse.

(** The answer is not JSON, or lacks one of the required fields. *)
Definition malformed (JSON_parse : string -> option Parsed.t)
    (text : string) : Prop :=
  match JSON_parse (cleaned text) with
  | None => True
  | Some parsed =>
      Str.truthy (Parsed.department_code parsed) = None
      \/ Str.truthy (Parsed.urgency parsed) = None
      \/ Parsed.confidence parsed = None
  end.

(** The call to the model fails, or its answer is empty or malformed. *)
Definition classifier_fails (JSON_parse : string -> option Parsed.t)
    (w : World) (data : CreateComplaintRequest) : Prop :=
  match generateContent w
          (buildPrompt (description data) (location_address data) None) with
  | ReplyFails _ => True
  | ReplyText text => text = EmptyString \/ malformed JSON_parse text
  end.

(** How often the log records the start of a classification. *)
Definition classifier_calls (lines : list (LogLevel * string)) : nat :=
  List.length
    (filter (fun line => String.eqb (snd line) "Starting AI classification")
       lines).

(** The row of a complaint whose classification failed. *)
Definition needs_manual_review (c : Complaint.t) : Complaint.t :=
  Complaint.set_ai_reasoning
    (Some "Classification failed - requires manual review"%string)
    (Complaint.set_status pending_review c).

Lemma parseAIResponse_malformed JSON_parse text w :
  malformed JSON_parse text ->
  parseAIResponse JSON_parse text w
  = (Throw (AIServiceError "Failed to parse AI classification response"),
     with_logger (logger w ++ [(log_error, "Failed to parse AI response:"%string)])
       w).
Proof.
  unfold malformed, parseAIResponse, try_catch. cbv zeta. fold (cleaned text).
  destruct (JSON_parse (cleaned text)) as [parsed|]; [|reflexivity].
  intros [H | [H | H]]; rewrite H; try reflexivity.
  - destruct (Str.truthy (Parsed.department_code parsed)); reflexivity.
  - destruct (Str.truthy (Parsed.department_code parsed));
      destruct (Str.truthy (Parsed.urgency parsed)); reflexivity.
Qed.

Lemma classifyComplaint_fails JSON_parse w data :
  classifier_fails JSON_parse w data ->
  exists message lines,
    classifyComplaint JSON_parse (description data) (location_address data)
      None w
    = (Throw (AIServiceError message),
       with_logger
         (logger w
          ++ (log_info, "Starting AI classification"%string) :: lines) w)
    /\ classifier_calls lines = 0%nat.
Proof.
  unfold classifier_fails, classifyComplaint, try_catch.
  unfold bind at 1. unfold log at 1, modify. unfold bind at 1. unfold gets.
  cbn [generateContent with_logger].
  destruct (generateContent w _) as [message | text].
  - intros _. do 2 eexists.
    split; [unfold log, modify, bind, throw; simpl; rewrite <- app_assoc;
            reflexivity|].
    reflexivity.
  - intros Hfail. unfold bind at 1. unfold ret at 1. unfold bind at 1.
    destruct (String.eqb text EmptyString) eqn:Etext.
    + do 2 eexists.
      split; [unfold log, modify, bind, throw; simpl; rewrite <- app_assoc;
              reflexivity|].
      reflexivity.
    + destruct Hfail as [-> | Hbad]; [discriminate|].
      unfold ret at 1. unfold bind at 1.
      rewrite (parseAIResponse_malformed _ _ _ Hbad).
      do 2 eexists.
      split; [unfold log, modify, bind, throw; simpl;
              rewrite <- !app_assoc; reflexivity|].
      reflexivity.
Qed.

Lemma processComplaintClassification_failed JSON_parse cid data createdAt w e w1 :
  classifyComplaint JSON_parse (description data) (location_address data)
    None w = (Throw e, w1) ->
  processComplaintClassification JSON_parse cid data createdAt w
  = (Ok tt,
     with_complaints
       (rewrite_rows cid needs_manual_review (complaints w1))
       (with_logger
          (logger w1
           ++ [(log_error, "Classification processing failed"%string)]) w1)).
Proof.
  intros H. unfold processComplaintClassification, try_catch.
  unfold bind at 1.
  rewrite (classifyAndProcessComplaint_throws _ _ _ _ _ _ _ _ _ H).
  reflexivity.
Qed.

Lemma classifier_calls_app l1 l2 :
  classifier_calls (l1 ++ l2) = (classifier_calls l1 + classifier_calls l2)%nat.
Proof. unfold classifier_calls. rewrite filter_app, length_app. reflexivity. Qed.



(** ** Complaint State Machine *)

(** The edges of the transition table of section 4.3. *)
Inductive allowed_edge : ComplaintStatus -> ComplaintStatus -> Prop :=
| submitted_to_pending_review : allowed_edge submitted pending_review
| submitted_to_approved : allowed_edge submitted approved
| pending_review_to_approved : allowed_edge pending_review approved
| pending_review_to_rejected : allowed_edge pending_review rejected
| approved_to_assigned : allowed_edge approved assigned
| assigned_to_in_progress : allowed_edge assigned in_progress
| in_progress_to_resolved : allowed_edge in_progress resolved
| in_progress_to_escalated : allowed_edge in_progress escalated
| escalated_to_in_progress : allowed_edge escalated in_progress
| escalated_to_resolved : allowed_edge escalated resolved
| resolved_to_closed : allowed_edge resolved closed.

Lemma allowed_edge_validTransitions from to :
  allowed_edge from to <-> includes (validTransitions from) to = true.
Proof.
  split.
  - intros []; reflexivity.
  - destruct from, to; simpl; intros H; try discriminate H; constructor.
Qed.

Lemma single_inv {A} (l : list A) (a : A) : single l = Some a -> l = [a].
Proof.
  destruct l as [|x [|y l]]; simpl; intros H; try discriminate H.
  injection H as ->. reflexivity.
Qed.

Lemma filter_only {A} (f : A -> bool) (l : list A) (a : A) :
  filter f l = [a] -> forall r, In r l -> f r = true -> r = a.
Proof.
  intros H r Hin Hf.
  assert (Hr : In r (filter f l)) by (apply filter_In; split; assumption).
  rewrite H in Hr. destruct Hr as [<- | []]. reflexivity.
Qed.

Lemma filter_rewrite_rows cid f l :
  (forall c, Complaint.id (f c) = Complaint.id c) ->
  filter (has_id cid) (rewrite_rows cid f l) = map f (filter (has_id cid) l).
Proof.
  intros Hid. unfold rewrite_rows.
  induction l as [|c l IH]; simpl; [reflexivity|].
  destruct (has_id cid c) eqn:E.
  - unfold has_id at 1. rewrite Hid. fold (has_id cid c). rewrite E.
    simpl. f_equal. assumption.
  - rewrite E. assumption.
Qed.

(** [update_returning] on a complaint that is stored once. *)
Lemma update_returning_single cid f w c :
  (forall r, Complaint.id (f r) = Complaint.id r) ->
  single (filter (has_id cid) (complaints w)) = Some c ->
  update_returning cid f w
  = (Ok (f c), with_complaints (rewrite_rows cid f (complaints w)) w).
Proof.
  intros Hid H. apply single_inv in H.
  unfold update_returning, update_complaints, select_complaints, bind, modify,
    gets.
  cbn [complaints with_complaints].
  fold (rewrite_rows cid f (complaints w)).
  rewrite (filter_rewrite_rows cid f _ Hid), H. reflexivity.
Qed.

(** The row that [updateComplaintStatus] writes. *)
Definition transitioned (status : ComplaintStatus)
    (notes resolutionType : option string) (now : Z) (c : Complaint.t)
    : Complaint.t :=
  let c1 := Complaint.set_status status c in
  let c2 :=
    if ComplaintStatus_eqb status resolved then
      set_if_defined Complaint.set_resolution_type resolutionType
        (set_if_defined Complaint.set_resolution_notes notes
        (Complaint.set_resolved_at (Some now) c1))
    else c1 in
  if ComplaintStatus_eqb status closed
  then Complaint.set_closed_at (Some now) c2
  else c2.

Lemma set_if_defined_id {A} (set : option A -> Complaint.t -> Complaint.t)
    (v : option A) (c : Complaint.t) :
  (forall x r, Complaint.id (set x r) = Complaint.id r) ->
  Complaint.id (set_if_defined set v c) = Complaint.id c.
Proof. intros H. destruct v; simpl; [apply H | reflexivity]. Qed.

Lemma transitioned_id status notes rtype now c :
  Complaint.id (transitioned status notes rtype now c) = Complaint.id c.
Proof.
  unfold transitioned.
  destruct (ComplaintStatus_eqb status resolved),
    (ComplaintStatus_eqb status closed), notes, rtype; reflexivity.
Qed.

(** What a call of [updateComplaintStatus] does, case by case. *)
Lemma updateComplaintStatus_run cid updater target notes rtype w :
  let run := updateComplaintStatus cid updater target notes rtype w in
  match single (filter (has_id cid) (complaints w)) with
  | None => run = (Throw (NotFoundError "Complaint" cid), w)
  | Some c =>
      if includes (validTransitions (Complaint.status c)) target then
        fst run = Ok (transitioned target notes rtype (clock w) c)
        /\ complaints (snd run)
           = rewrite_rows cid (transitioned target notes rtype (clock w))
               (complaints w)
        /\ complaint_status_logs (snd run)
           = complaint_status_logs w
             ++ [StatusLog.mk cid (Some (Complaint.status c)) target
                   (Some updater) notes]
        /\ escalations (snd run) = escalations w
      else
        run = (Throw (ValidationError
                        ("Cannot transition from "
                         ++ status_name (Complaint.status c)
                         ++ " to " ++ status_name target)), w)
  end.
Proof.
  intros run. subst run.
  destruct (updateComplaintStatus cid updater target notes rtype w)
    as [res wf] eqn:Erun.
  unfold updateComplaintStatus in Erun. unfold bind at 1 in Erun.
  unfold getComplaintById, select_complaints in Erun.
  unfold bind at 1 in Erun. unfold gets at 1 in Erun.
  destruct (single (filter (has_id cid) (complaints w))) as [c|] eqn:Hc.
  - unfold ret at 1 in Erun.
    destruct (includes (validTransitions (Complaint.status c)) target).
    + cbn [negb] in Erun. unfold bind at 1 in Erun.
      unfold Date_now, gets in Erun. unfold bind at 1 in Erun.
      fold (transitioned target notes rtype (clock w)) in Erun.
      rewrite (update_returning_single cid _ w c
                 (transitioned_id target notes rtype (clock w)) Hc) in Erun.
      unfold bind at 1 in Erun. unfold modify at 1 in Erun.
      unfold bind at 1 in Erun. unfold log, modify in Erun.
      unfold bind at 1 in Erun.
      match type of Erun with
      | context [triggerNotification ?u ?c0 ?t ?w0] =>
          destruct (quiet_triggerNotification u c0 t w0)
            as ([] & w3 & E3 & (l3 & o3 & ->))
      end.
      rewrite E3 in Erun. injection Erun as <- <-. repeat split.
    + injection Erun as <- <-. reflexivity.
  - injection Erun as <- <-. reflexivity.
Qed.


(** A world in which complaint c-1 is stored once, with the given status. *)
Definition world_with (s : ComplaintStatus) : World :=
  with_complaints [Complaint.set_status s (new_complaint "c-1" "u-1" 0)]
    empty_world.


(** Tails of notifications at the end of an operation: each resolves and
    leaves the tables alone. *)
Ltac run_notifications E :=
  repeat
    (match type of E with
     | context [triggerNotification ?u ?c0 ?t ?w0] =>
         let E3 := fresh "E" in
         destruct (quiet_triggerNotification u c0 t w0)
           as ([] & ? & E3 & (? & ? & ->));
         rewrite E3 in E; clear E3
     | context [triggerComplaintRouting ?c0 ?d ?w0] =>
         let E3 := fresh "E" in
         destruct (quiet_triggerComplaintRouting c0 d w0)
           as ([] & ? & E3 & (? & ? & ->));
         rewrite E3 in E; clear E3
     | context [triggerSLABreach ?c0 ?l ?w0] =>
         let E3 := fresh "E" in
         destruct (quiet_triggerSLABreach c0 l w0)
           as ([] & ? & E3 & (? & ? & ->));
         rewrite E3 in E; clear E3
     | context [triggerSLAWarning ?c0 ?w0] =>
         let E3 := fresh "E" in
         destruct (quiet_triggerSLAWarning c0 w0)
           as ([] & ? & E3 & (? & ? & ->));
         rewrite E3 in E; clear E3
     end;
     cbn beta iota zeta in E).

(** The row that [reviewComplaint] writes. *)
Definition reviewed (reviewerId : string) (approved_ : bool)
    (notes departmentId : option string) (urgency : option UrgencyLevel)
    (now : Z) (c : Complaint.t) : Complaint.t :=
  let c1 :=
    set_if_defined Complaint.set_review_notes notes
      (Complaint.set_reviewed_at (Some now)
      (Complaint.set_reviewed_by (Some reviewerId)
      (Complaint.set_status (if approved_ then approved else rejected) c))) in
  if approved_ then
    match urgency with
    | Some u => Complaint.set_urgency u
    | None => fun c => c
    end
    (match Str.truthy departmentId with
     | Some d => Complaint.set_department_id (Some d)
     | None => fun c => c
     end
    (Complaint.set_is_auto_approved false
    (Complaint.set_approved_at (Some now) c1)))
  else c1.

Lemma reviewed_id reviewerId approved_ notes departmentId urgency now c :
  Complaint.id (reviewed reviewerId approved_ notes departmentId urgency now c)
  = Complaint.id c.
Proof.
  unfold reviewed.
  destruct approved_, urgency, (Str.truthy departmentId), notes; reflexivity.
Qed.

Lemma reviewed_status reviewerId approved_ notes departmentId urgency now c :
  Complaint.status
    (reviewed reviewerId approved_ notes departmentId urgency now c)
  = if approved_ then approved else rejected.
Proof.
  unfold reviewed.
  destruct approved_, urgency, (Str.truthy departmentId), notes; reflexivity.
Qed.

(** What a call of [reviewComplaint] does, case by case. *)
Lemma reviewComplaint_run cid reviewerId approved_ notes departmentId urgency w :
  let run :=
    reviewComplaint cid reviewerId approved_ notes departmentId urgency w in
  match single (filter (has_id cid) (complaints w)) with
  | None => run = (Throw (NotFoundError "Complaint" cid), w)
  | Some c =>
      if ComplaintStatus_eqb (Complaint.status c) pending_review then
        fst run
        = Ok (reviewed reviewerId approved_ notes departmentId urgency
                (clock w) c)
        /\ complaints (snd run)
           = rewrite_rows cid
               (reviewed reviewerId approved_ notes departmentId urgency
                  (clock w)) (complaints w)
        /\ complaint_status_logs (snd run) = complaint_status_logs w
        /\ escalations (snd run) = escalations w
      else
        run = (Throw (ValidationError "Complaint is not pending review"), w)
  end.
Proof.
  intros run. subst run.
  destruct (reviewComplaint cid reviewerId approved_ notes departmentId
              urgency w) as [res wf] eqn:Erun.
  unfold reviewComplaint in Erun. unfold bind at 1 in Erun.
  unfold getComplaintById, select_complaints in Erun.
  unfold bind at 1 in Erun. unfold gets at 1 in Erun.
  destruct (single (filter (has_id cid) (complaints w))) as [c|] eqn:Hc.
  - unfold ret at 1 in Erun.
    destruct (ComplaintStatus_eqb (Complaint.status c) pending_review).
    + cbn [negb] in Erun. unfold bind at 1 in Erun.
      unfold Date_now, gets in Erun. unfold bind at 1 in Erun.
      fold (reviewed reviewerId approved_ notes departmentId urgency (clock w))
        in Erun.
      rewrite (update_returning_single cid _ w c
                 (reviewed_id reviewerId approved_ notes departmentId urgency
                    (clock w)) Hc) in Erun.
      unfold log, modify in Erun. unfold bind, ret in Erun.
      cbn beta iota zeta in Erun.
      destruct approved_;
        [destruct (Str.truthy departmentId);
           [|destruct (Str.truthy (Complaint.department_id c))]|];
        run_notifications Erun; injection Erun as <- <-; repeat split.
    + injection Erun as <- <-. reflexivity.
  - injection Erun as <- <-. reflexivity.
Qed.

(** ** SLA service, step by step *)

(** A world after a step of the SLA service: the complaints and escalations
    given, more in the log and in the outbox, the rest as in [w]. *)
Definition sla_world (rows : list Complaint.t) (ladder : list Escalation.t)
    (lines : list (LogLevel * string)) (messages : list Outgoing)
    (w : World) : World :=
  with_outbox messages
    (with_logger lines (with_escalations ladder (with_complaints rows w))).

Definition breached_row (c : Complaint.t) : Complaint.t :=
  Complaint.set_status escalated
    (Complaint.set_sla_breach_notified true
    (Complaint.set_sla_breached true c)).

Definition escalation_row (cid : string) (level : EscalationLevel)
    (previous : option EscalationLevel) (now : Z) : Escalation.t :=
  Escalation.mk cid level previous
    match previous with
    | None => "SLA deadline exceeded"
    | Some p =>
        "Automatic escalation due to continued SLA breach ("
        ++ level_name p ++ " -> " ++ level_name level ++ ")"
    end%string
    true false now.

Lemma sla_world_same w :
  w = sla_world (complaints w) (escalations w) (logger w) (outbox w) w.
Proof. destruct w; reflexivity. Qed.

Lemma handleSLABreach_run cid w :
  exists lines messages,
    handleSLABreach cid w
    = (Ok tt,
       sla_world (rewrite_rows cid breached_row (complaints w))
         (escalations w ++ [escalation_row cid level_1 None (clock w)])
         lines messages w).
Proof.
  destruct (handleSLABreach cid w) as [res wf] eqn:Erun.
  unfold handleSLABreach, try_catch, update_complaints, insert_escalation,
    log in Erun.
  unfold bind, modify in Erun. cbn beta iota zeta in Erun.
  run_notifications Erun. injection Erun as <- <-.
  do 2 eexists. reflexivity.
Qed.

Lemma handleSLAWarning_run cid w :
  exists lines messages,
    handleSLAWarning cid w
    = (Ok tt,
       sla_world
         (rewrite_rows cid (Complaint.set_sla_breach_notified true)
            (complaints w))
         (escalations w) lines messages w).
Proof.
  destruct (handleSLAWarning cid w) as [res wf] eqn:Erun.
  unfold handleSLAWarning, try_catch, update_complaints, log in Erun.
  unfold bind, modify in Erun. cbn beta iota zeta in Erun.
  run_notifications Erun. injection Erun as <- <-.
  do 2 eexists. reflexivity.
Qed.

Lemma escalateComplaint_run cid previous next w :
  exists lines messages,
    escalateComplaint cid previous next w
    = (Ok tt,
       sla_world (complaints w)
         (escalations w ++ [escalation_row cid next (Some previous) (clock w)])
         lines messages w).
Proof.
  destruct (escalateComplaint cid previous next w) as [res wf] eqn:Erun.
  unfold escalateComplaint, try_catch, insert_escalation, log in Erun.
  unfold bind, modify in Erun. cbn beta iota zeta in Erun.
  run_notifications Erun. injection Erun as <- <-.
  do 2 eexists. reflexivity.
Qed.

Definition next_level (level : EscalationLevel) : option EscalationLevel :=
  match level with
  | level_1 => Some level_2
  | level_2 => Some level_3
  | level_3 => Some executive
  | executive => None
  end.

(** The two time guards of [checkEscalation], as the source computes them. *)
Definition due (latest : Escalation.t) (hoursOverdue : Q) (now : Z) : bool :=
  negb match escalationThresholds (Escalation.escalation_level latest) with
       | Some t => JS.lt hoursOverdue t
       | None => false
       end
  && negb (JS.lt (inject_Z (now - Escalation.created_at latest)
                  / inject_Z JS.msPerHour)%Q 12).

Definition latest_of (cid : string) (w : World) : option Escalation.t :=
  most_recent (filter (of_complaint cid) (escalations w)).

(** What a call of [checkEscalation] does, case by case. *)
Lemma checkEscalation_run cid hoursOverdue w :
  match latest_of cid w with
  | None => checkEscalation cid hoursOverdue w = (Ok false, w)
  | Some latest =>
      match next_level (Escalation.escalation_level latest) with
      | None => checkEscalation cid hoursOverdue w = (Ok false, w)
      | Some next =>
          if due latest hoursOverdue (clock w) then
            exists lines messages,
              checkEscalation cid hoursOverdue w
              = (Ok true,
                 sla_world (complaints w)
                   (escalations w
                    ++ [escalation_row cid next
                          (Some (Escalation.escalation_level latest))
                          (clock w)])
                   lines messages w)
          else checkEscalation cid hoursOverdue w = (Ok false, w)
      end
  end.
Proof.
  destruct (checkEscalation cid hoursOverdue w) as [res wf] eqn:Erun.
  unfold checkEscalation, try_catch, latest_escalation in Erun.
  unfold bind at 1 in Erun. unfold gets at 1 in Erun.
  unfold latest_of.
  destruct (most_recent (filter (of_complaint cid) (escalations w)))
    as [latest|]; [|injection Erun as <- <-; reflexivity].
  unfold due.
  destruct (Escalation.escalation_level latest) eqn:El;
    cbn -[JS.lt Qdiv escalateComplaint] in Erun |- *;
    try (injection Erun as <- <-; reflexivity);
    (destruct (JS.lt hoursOverdue _);
     cbn -[JS.lt Qdiv escalateComplaint] in Erun |- *;
     [injection Erun as <- <-; reflexivity|]);
    (destruct (JS.lt _ 12);
     cbn -[JS.lt Qdiv escalateComplaint] in Erun |- *;
     [injection Erun as <- <-; reflexivity|]);
    match type of Erun with
    | context [nth_error ?l ?n] =>
        let v := eval vm_compute in (nth_error l n) in
        change (nth_error l n) with v in Erun
    end;
    unfold bind in Erun;
    match type of Erun with
    | context [escalateComplaint ?c ?p ?n ?w0] =>
        destruct (escalateComplaint_run c p n w0) as (lines & messages & E2)
    end;
    rewrite E2 in Erun; injection Erun as <- <-;
    exists lines, messages; reflexivity.
Qed.

Lemma hours_since_at_least_12 (z : Z) :
  negb (JS.lt (inject_Z z / inject_Z JS.msPerHour)%Q 12)
  = (12 * JS.msPerHour <=? z).
Proof.
  unfold JS.lt. rewrite negb_involutive.
  unfold Qle_bool, Qdiv, Qmult, Qinv, inject_Z, JS.msPerHour; simpl.
  rewrite !Z.mul_1_r. reflexivity.
Qed.

Lemma due_iff latest hoursOverdue now t :
  escalationThresholds (Escalation.escalation_level latest) = Some t ->
  due latest hoursOverdue now = true
  <-> (t <= hoursOverdue)%Q
      /\ 12 * JS.msPerHour <= now - Escalation.created_at latest.
Proof.
  intros Ht. unfold due. rewrite Ht, hours_since_at_least_12.
  unfold JS.lt. rewrite negb_involutive, andb_true_iff, Qle_bool_iff.
  rewrite Z.leb_le. reflexivity.
Qed.

(** ** Escalation Ladder *)

(** C4, as amended.  For a complaint whose most recent escalation row is at
    level L in {level_1, level_2, level_3}, [checkEscalation] advances it to
    the next level if and only if hoursOverdue is at least the threshold of
    L (24, 48, 72) and at least 12 hours have passed since that row; a
    complaint at executive never advances.  Escalated to level_1 nine hours
    ago with hoursOverdue 30 it does not advance; checked again 13 hours
    later it does. *)
Theorem escalation_ladder_advance :
  (forall w cid hoursOverdue latest,
     latest_of cid w = Some latest ->
     let L := Escalation.escalation_level latest in
     let run := checkEscalation cid hoursOverdue w in
     (L = executive -> run = (Ok false, w))
     /\ (forall t,
           escalationThresholds L = Some t ->
           exists next,
             next_level L = Some next
             /\ ((t <= hoursOverdue)%Q
                 /\ 12 * JS.msPerHour <= clock w - Escalation.created_at latest ->
                 fst run = Ok true
                 /\ escalations (snd run)
                    = escalations w
                      ++ [escalation_row cid next (Some L) (clock w)]
                 /\ complaints (snd run) = complaints w)
             /\ (~ ((t <= hoursOverdue)%Q
                    /\ 12 * JS.msPerHour
                       <= clock w - Escalation.created_at latest) ->
                 run = (Ok false, w))))
  /\ (escalationThresholds level_1 = Some 24%Q
      /\ escalationThresholds level_2 = Some 48%Q
      /\ escalationThresholds level_3 = Some 72%Q
      /\ next_level level_1 = Some level_2
      /\ next_level level_2 = Some level_3
      /\ next_level level_3 = Some executive)
  /\ (forall w cid latest,
        latest_of cid w = Some latest ->
        Escalation.escalation_level latest = level_1 ->
        (clock w - Escalation.created_at latest = 9 * JS.msPerHour ->
         checkEscalation cid 30 w = (Ok false, w))
        /\ (clock w - Escalation.created_at latest = (9 + 13) * JS.msPerHour ->
            fst (checkEscalation cid (30 + 13) w) = Ok true
            /\ escalations (snd (checkEscalation cid (30 + 13) w))
               = escalations w
                 ++ [escalation_row cid level_2 (Some level_1) (clock w)])).
Proof.
  assert (General :
    forall w cid hoursOverdue latest,
      latest_of cid w = Some latest ->
      let L := Escalation.escalation_level latest in
      let run := checkEscalation cid hoursOverdue w in
      (L = executive -> run = (Ok false, w))
      /\ (forall t,
            escalationThresholds L = Some t ->
            exists next,
              next_level L = Some next
              /\ ((t <= hoursOverdue)%Q
                  /\ 12 * JS.msPerHour <= clock w - Escalation.created_at latest ->
                  fst run = Ok true
                  /\ escalations (snd run)
                     = escalations w
                       ++ [escalation_row cid next (Some L) (clock w)]
                  /\ complaints (snd run) = complaints w)
              /\ (~ ((t <= hoursOverdue)%Q
                     /\ 12 * JS.msPerHour
                        <= clock w - Escalation.created_at latest) ->
                  run = (Ok false, w)))).
  { intros w cid hoursOverdue latest Hlatest L run.
    pose proof (checkEscalation_run cid hoursOverdue w) as R.
    rewrite Hlatest in R. fold L run in R. split.
    - intros HL. rewrite HL in R. exact R.
    - intros t Ht.
      pose proof (due_iff latest hoursOverdue (clock w) t Ht) as D.
      destruct (next_level L) as [next|] eqn:En;
        [|destruct L; discriminate].
      exists next. split; [reflexivity|].
      destruct (due latest hoursOverdue (clock w)).
      + destruct R as (lines & messages & R). split.
        * intros _. rewrite R. repeat split.
        * intros Hno. exfalso. apply Hno. apply D. reflexivity.
      + split.
        * intros Hyes. apply D in Hyes. discriminate.
        * intros _. exact R. }
  split; [exact General|]. split; [repeat split|].
  intros w cid latest Hlatest HL.
  destruct (General w cid 30%Q latest Hlatest) as [_ G30].
  destruct (General w cid (30 + 13)%Q latest Hlatest) as [_ G43].
  rewrite HL in G30, G43.
  destruct (G30 24%Q eq_refl) as (n30 & _ & _ & Hstay).
  destruct (G43 24%Q eq_refl) as (n43 & Hn & Hgo & _).
  injection Hn as <-. split.
  - intros Hsince. apply Hstay. rewrite Hsince.
    unfold JS.msPerHour. intros [_ H]. lia.
  - intros Hsince. destruct Hgo as (Hres & Hesc & _).
    + rewrite Hsince. split; [unfold Qle; simpl; lia|].
      unfold JS.msPerHour. lia.
    + split; assumption.
Qed.

(** A world at clock reading [now] in which complaint c-1, in the given
    status, has been in breach since the epoch and was escalated to
    [level] at [since]. *)
Definition breached_world (now : Z) (s : ComplaintStatus)
    (level : EscalationLevel) (since : Z) : World :=
  with_clock now
    (with_escalations [escalation_row "c-1" level None since]
       (with_complaints
          [Complaint.set_sla_deadline (Some 0)
             (Complaint.set_status s
                (breached_row (new_complaint "c-1" "u-1" (-1))))]
          empty_world)).

Lemma escalation_ladder_advance_witness :
  checkEscalation "c-1" 30
    (breached_world (30 * JS.msPerHour) in_progress level_1 (21 * JS.msPerHour))
  = (Ok false,
     breached_world (30 * JS.msPerHour) in_progress level_1 (21 * JS.msPerHour))
  /\ fst (checkEscalation "c-1" (30 + 13)
            (breached_world (43 * JS.msPerHour) in_progress level_1
               (21 * JS.msPerHour)))
     = Ok true.
Proof.
  split.
  - refine (proj1 (proj2 (proj2 escalation_ladder_advance)
                    (breached_world (30 * JS.msPerHour) in_progress level_1
                       (21 * JS.msPerHour))
                    "c-1"%string
                    (escalation_row "c-1" level_1 None (21 * JS.msPerHour))
                    _ _) _).
    + vm_compute. reflexivity.
    + reflexivity.
    + vm_compute. reflexivity.
  - refine (proj1 (proj2 (proj2 (proj2 escalation_ladder_advance)
                    (breached_world (43 * JS.msPerHour) in_progress level_1
                       (21 * JS.msPerHour))
                    "c-1"%string
                    (escalation_row "c-1" level_1 None (21 * JS.msPerHour))
                    _ _) _)).
    + vm_compute. reflexivity.
    + reflexivity.
    + vm_compute. reflexivity.
Defined.

(** C4 as stated fails at the threshold itself: 24 hours overdue do not
    exceed 24, yet the complaint advances from level_1 to level_2. *)
Lemma escalation_at_the_threshold :
  let w := breached_world (24 * JS.msPerHour) in_progress level_1 0 in
  latest_of "c-1" w = Some (escalation_row "c-1" level_1 None 0)
  /\ fst (checkEscalation "c-1" 24 w) = Ok true
  /\ escalations (snd (checkEscalation "c-1" 24 w))
     = escalations w
       ++ [escalation_row "c-1" level_2 (Some level_1) (24 * JS.msPerHour)]
  /\ ~ (24 < 24)%Q.
Proof.
  cbv zeta. split; [vm_compute; reflexivity|].
  split; [vm_compute; reflexivity|].
  split; [vm_compute; reflexivity|].
  intros H. discriminate H.
Qed.

(** ** Which status writes go through the transition table *)

(** A row before and after an operation: the status stayed, or moved along
    an edge of the table. *)
Definition status_step (c c' : Complaint.t) : Prop :=
  Complaint.status c' = Complaint.status c
  \/ allowed_edge (Complaint.status c) (Complaint.status c').

Definition respects_table {A} (op : M A) : Prop :=
  forall w, Forall2 status_step (complaints w) (complaints (snd (op w))).

Lemma status_step_same l : Forall2 status_step l l.
Proof. induction l; constructor; [left; reflexivity | assumption]. Qed.

Lemma transitioned_status target notes rtype now c :
  Complaint.status (transitioned target notes rtype now c) = target.
Proof. unfold transitioned. destruct target, notes, rtype; reflexivity. Qed.

Lemma respects_updateComplaintStatus cid updater target notes rtype :
  respects_table (updateComplaintStatus cid updater target notes rtype).
Proof.
  intros w.
  pose proof (updateComplaintStatus_run cid updater target notes rtype w) as R.
  cbv zeta in R.
  destruct (single (filter (has_id cid) (complaints w))) as [c|] eqn:Hc;
    [|rewrite R; apply status_step_same].
  destruct (includes (validTransitions (Complaint.status c)) target) eqn:E;
    [|rewrite R; apply status_step_same].
  destruct R as (_ & -> & _). apply Forall2_map_r. intros r Hr.
  destruct (has_id cid r) eqn:Er; [|left; reflexivity].
  rewrite (filter_only _ _ _ (single_inv _ _ Hc) r Hr Er).
  right. rewrite transitioned_status.
  apply allowed_edge_validTransitions. assumption.
Qed.

Lemma respects_reviewComplaint cid reviewerId approved_ notes dept urgency :
  respects_table (reviewComplaint cid reviewerId approved_ notes dept urgency).
Proof.
  intros w.
  pose proof (reviewComplaint_run cid reviewerId approved_ notes dept urgency w)
    as R.
  cbv zeta in R.
  destruct (single (filter (has_id cid) (complaints w))) as [c|] eqn:Hc;
    [|rewrite R; apply status_step_same].
  destruct (ComplaintStatus_eqb_spec (Complaint.status c) pending_review)
    as [Hp | _]; [|rewrite R; apply status_step_same].
  destruct R as (_ & -> & _). apply Forall2_map_r. intros r Hr.
  destruct (has_id cid r) eqn:Er; [|left; reflexivity].
  rewrite (filter_only _ _ _ (single_inv _ _ Hc) r Hr Er).
  right. rewrite reviewed_status, Hp. destruct approved_; constructor.
Qed.

(** The row that [assignComplaint] writes. *)
Definition assigned_row (assignedTo : option string) (now : Z)
    (c : Complaint.t) : Complaint.t :=
  set_if_defined Complaint.set_assigned_to assignedTo
    (Complaint.set_assigned_at (Some now) (Complaint.set_status assigned c)).

(** The row that a status update on behalf of the system writes. *)
Definition system_row (status : ComplaintStatus) (now : Z) (c : Complaint.t)
    : Complaint.t :=
  if ComplaintStatus_eqb status assigned
  then Complaint.set_assigned_at (Some now) (Complaint.set_status status c)
  else Complaint.set_status status c.

Lemma assignComplaint_rows cid assignedTo w :
  complaints (snd (assignComplaint cid assignedTo w))
  = rewrite_rows cid (assigned_row assignedTo (clock w)) (complaints w).
Proof.
  unfold assignComplaint, update_returning, update_complaints,
    select_complaints, Date_now, log.
  unfold bind, gets, modify. cbn beta iota zeta.
  destruct (single _); reflexivity.
Qed.

Lemma n8n_status_update_system cid data status w :
  WebhookData.status data = Some status ->
  Str.truthy (WebhookData.updated_by data) = None
  \/ Str.truthy (WebhookData.updated_by data) = Some "system"%string ->
  complaints (snd (n8n_status_update cid data w))
  = rewrite_rows cid (system_row status (clock w)) (complaints w).
Proof.
  intros Hs Hby. unfold n8n_status_update. rewrite Hs.
  destruct Hby as [-> | ->]; reflexivity.
Qed.

Lemma n8n_status_update_delegates cid data status updatedBy w :
  WebhookData.status data = Some status ->
  Str.truthy (WebhookData.updated_by data) = Some updatedBy ->
  updatedBy <> "system"%string ->
  complaints (snd (n8n_status_update cid data w))
  = complaints
      (snd (updateComplaintStatus cid updatedBy status
              (WebhookData.notes data) None w)).
Proof.
  intros Hs Hby Hne. unfold n8n_status_update. rewrite Hs, Hby.
  destruct (String.eqb_spec updatedBy "system"); [contradiction|].
  unfold bind.
  destruct (updateComplaintStatus cid updatedBy status (WebhookData.notes data)
              None w) as [[c | e] w']; reflexivity.
Qed.

(** C2, as amended.  The status writes of [updateComplaintStatus], of
    [reviewComplaint] and of webhook status updates made in the name of a
    user go through a check against the transition table: each leaves a
    status as it was or moves it along an edge.  The webhook status update
    made in the name of the system, [handleSLABreach] and [assignComplaint]
    write their status on every row of the complaint without consulting the
    table. *)
Theorem validated_and_direct_status_writes :
  (forall cid updater target notes rtype,
     respects_table (updateComplaintStatus cid updater target notes rtype))
  /\ (forall cid reviewerId approved_ notes dept urgency,
        respects_table
          (reviewComplaint cid reviewerId approved_ notes dept urgency))
  /\ (forall cid data status updatedBy,
        WebhookData.status data = Some status ->
        Str.truthy (WebhookData.updated_by data) = Some updatedBy ->
        updatedBy <> "system"%string ->
        respects_table (n8n_status_update cid data))
  /\ (forall cid data status w,
        WebhookData.status data = Some status ->
        Str.truthy (WebhookData.updated_by data) = None
        \/ Str.truthy (WebhookData.updated_by data) = Some "system"%string ->
        complaints (snd (n8n_status_update cid data w))
        = rewrite_rows cid (system_row status (clock w)) (complaints w))
  /\ (forall cid w,
        complaints (snd (handleSLABreach cid w))
        = rewrite_rows cid breached_row (complaints w))
  /\ (forall cid assignedTo w,
        complaints (snd (assignComplaint cid assignedTo w))
        = rewrite_rows cid (assigned_row assignedTo (clock w)) (complaints w))
  /\ (forall status now c,
        Complaint.status (system_row status now c) = status
        /\ Complaint.status (breached_row c) = escalated
        /\ forall a, Complaint.status (assigned_row a now c) = assigned).
Proof.
  split; [exact respects_updateComplaintStatus|].
  split; [exact respects_reviewComplaint|].
  split.
  { intros cid data status updatedBy Hs Hby Hne w.
    rewrite (n8n_status_update_delegates cid data status updatedBy w Hs Hby Hne).
    apply respects_updateComplaintStatus. }
  split; [exact n8n_status_update_system|].
  split.
  { intros cid w. destruct (handleSLABreach_run cid w) as (l & o & ->).
    reflexivity. }
  split; [exact assignComplaint_rows|].
  intros status now c. split; [|split].
  - unfold system_row. destruct (ComplaintStatus_eqb status assigned); reflexivity.
  - reflexivity.
  - intros [a|]; reflexivity.
Qed.

Lemma validated_and_direct_status_writes_witness :
  Forall2 status_step (complaints (world_with in_progress))
    (complaints
       (snd (n8n_status_update "c-1"
               (WebhookData.mk None (Some resolved) (Some "officer"%string)
                  None)
               (world_with in_progress))))
  /\ map Complaint.status
       (complaints
          (snd (n8n_status_update "c-1"
                  (WebhookData.mk None (Some approved) None None)
                  (world_with closed))))
     = [approved].
Proof.
  split.
  - apply (proj1 (proj2 (proj2 validated_and_direct_status_writes))
             "c-1"%string
             (WebhookData.mk None (Some resolved) (Some "officer"%string) None)
             resolved "officer"%string eq_refl eq_refl).
    discriminate.
  - rewrite (proj1 (proj2 (proj2 (proj2 validated_and_direct_status_writes)))
               "c-1"%string (WebhookData.mk None (Some approved) None None)
               approved (world_with closed) eq_refl (or_introl eq_refl)).
    vm_compute. reflexivity.
Defined.

(** C2 as stated fails: the webhook moves a closed complaint back to
    submitted in the name of the system, a sweep escalates an approved
    complaint, and an assignment reopens a closed one; none of the three is
    an edge of the table. *)
Lemma status_writes_that_bypass_the_table :
  ~ respects_table
      (n8n_status_update "c-1"
         (WebhookData.mk None (Some submitted) None None))
  /\ ~ respects_table (handleSLABreach "c-1")
  /\ ~ respects_table (assignComplaint "c-1" None).
Proof.
  split; [|split].
  - intros H. specialize (H (world_with closed)). vm_compute in H.
    inversion H as [|? ? ? ? [Hs | Hs] _]; [discriminate Hs | inversion Hs].
  - intros H. specialize (H (world_with approved)). vm_compute in H.
    inversion H as [|? ? ? ? [Hs | Hs] _]; [discriminate Hs | inversion Hs].
  - intros H. specialize (H (world_with closed)). vm_compute in H.
    inversion H as [|? ? ? ? [Hs | Hs] _]; [discriminate Hs | inversion Hs].
Qed.

(** ** SLA Breach Monitor: one turn of the loop *)

Lemma rewrite_rows_same cid l : rewrite_rows cid (fun c => c) l = l.
Proof.
  unfold rewrite_rows. induction l as [|c l IH]; simpl; [reflexivity|].
  rewrite IH. destruct (has_id cid c); reflexivity.
Qed.

(** The escalation rows that a turn on the selected row [c] may add: none,
    the first one of a complaint found in breach, or the next level after
    the most recent row. *)
Inductive added_by (c : Complaint.t) (w : World)
    (f : Complaint.t -> Complaint.t) : list Escalation.t -> Prop :=
| added_none : added_by c w f []
| added_first :
    Complaint.sla_breached c = false ->
    (forall r, Complaint.sla_breached (f r) = true) ->
    added_by c w f [escalation_row (Complaint.id c) level_1 None (clock w)]
| added_next latest next :
    latest_of (Complaint.id c) w = Some latest ->
    next_level (Escalation.escalation_level latest) = Some next ->
    Escalation.created_at latest <= clock w ->
    added_by c w f
      [escalation_row (Complaint.id c) next
         (Some (Escalation.escalation_level latest)) (clock w)].

Lemma due_not_in_future latest hoursOverdue now :
  due latest hoursOverdue now = true -> Escalation.created_at latest <= now.
Proof.
  unfold due. rewrite hours_since_at_least_12, andb_true_iff, Z.leb_le.
  unfold JS.msPerHour. intros [_ H]. lia.
Qed.

(** [checkEscalation] adds nothing or the next level. *)
Lemma checkEscalation_step cid hoursOverdue w :
  exists answer added lines messages,
    checkEscalation cid hoursOverdue w
    = (Ok answer,
       sla_world (complaints w) (escalations w ++ added) lines messages w)
    /\ (added = []
        \/ exists latest next,
             latest_of cid w = Some latest
             /\ next_level (Escalation.escalation_level latest) = Some next
             /\ Escalation.created_at latest <= clock w
             /\ added
                = [escalation_row cid next
                     (Some (Escalation.escalation_level latest)) (clock w)]).
Proof.
  assert (Stay : checkEscalation cid hoursOverdue w = (Ok false, w) ->
                 exists answer added lines messages,
                   checkEscalation cid hoursOverdue w
                   = (Ok answer,
                      sla_world (complaints w) (escalations w ++ added) lines
                        messages w)
                   /\ (added = []
                       \/ exists latest next,
                            latest_of cid w = Some latest
                            /\ next_level (Escalation.escalation_level latest)
                               = Some next
                            /\ Escalation.created_at latest <= clock w
                            /\ added
                               = [escalation_row cid next
                                    (Some (Escalation.escalation_level latest))
                                    (clock w)])).
  { intros ->. exists false, [], (logger w), (outbox w).
    split; [|left; reflexivity].
    rewrite app_nil_r. f_equal. apply sla_world_same. }
  pose proof (checkEscalation_run cid hoursOverdue w) as R.
  destruct (latest_of cid w) as [latest|] eqn:Hl; [|exact (Stay R)].
  destruct (next_level (Escalation.escalation_level latest)) as [next|] eqn:Hn;
    [|exact (Stay R)].
  destruct (due latest hoursOverdue (clock w)) eqn:Hd; [|exact (Stay R)].
  destruct R as (lines & messages & R).
  exists true, [escalation_row cid next
                  (Some (Escalation.escalation_level latest)) (clock w)],
    lines, messages.
  split; [exact R|]. right. exists latest, next.
  repeat split; try assumption. eapply due_not_in_future. eassumption.
Qed.

(** A turn of the loop rewrites the rows of the complaint at most by setting
    flags and the status, and adds at most one escalation row. *)
Lemma check_complaint_step now thr c counters w :
  exists counters' f added lines messages,
    check_complaint now thr c counters w
    = (Ok counters',
       sla_world (rewrite_rows (Complaint.id c) f (complaints w))
         (escalations w ++ added) lines messages w)
    /\ (forall r, Complaint.id (f r) = Complaint.id r)
    /\ (forall r, Complaint.sla_breached (f r) = false ->
                  Complaint.sla_breached r = false)
    /\ added_by c w f added.
Proof.
  destruct (check_complaint now thr c counters w) as [res wf] eqn:Erun.
  unfold check_complaint in Erun. destruct counters as [[wa br] es].
  cbv zeta in Erun.
  set (t := match Complaint.sla_deadline c with
            | Some d => d
            | None => 0
            end - now) in Erun.
  unfold bind, ret in Erun.
  destruct ((t <? 0) && negb (Complaint.sla_breached c))%bool eqn:C1.
  - destruct (handleSLABreach_run (Complaint.id c) w) as (l & m & E1).
    rewrite E1 in Erun.
    apply andb_true_iff in C1. destruct C1 as [_ C1].
    apply negb_true_iff in C1. rewrite C1 in Erun.
    cbn beta iota in Erun. injection Erun as <- <-.
    exists (wa, S br, es), breached_row,
      [escalation_row (Complaint.id c) level_1 None (clock w)], l, m.
    split; [reflexivity|]. split; [reflexivity|].
    split; [intros r H; discriminate H|].
    apply added_first; [assumption | reflexivity].
  - destruct ((0 <? t) && JS.lt (inject_Z t) thr
              && negb (Complaint.sla_breach_notified c))%bool eqn:C2.
    + destruct (handleSLAWarning_run (Complaint.id c) w) as (l & m & E1).
      rewrite E1 in Erun.
      destruct (Complaint.sla_breached c
                && negb (ComplaintStatus_eqb (Complaint.status c) escalated))%bool.
      * match type of Erun with
        | context [checkEscalation ?a ?h ?w0] =>
            destruct (checkEscalation_step a h w0)
              as (ans & added & l' & m' & E2 & Hadd)
        end.
        rewrite E2 in Erun. injection Erun as <- <-.
        exists (S wa, br, if ans then S es else es),
          (Complaint.set_sla_breach_notified true), added, l', m'.
        split; [reflexivity|]. split; [reflexivity|].
        split; [intros r H; exact H|].
        destruct Hadd as [-> | (latest & next & Hl & Hn & Hc & ->)];
          [apply added_none | exact (added_next c w _ latest next Hl Hn Hc)].
      * injection Erun as <- <-.
        exists (S wa, br, es), (Complaint.set_sla_breach_notified true), [],
          l, m.
        rewrite app_nil_r.
        split; [reflexivity|]. split; [reflexivity|].
        split; [intros r H; exact H | apply added_none].
    + destruct (Complaint.sla_breached c
                && negb (ComplaintStatus_eqb (Complaint.status c) escalated))%bool.
      * match type of Erun with
        | context [checkEscalation ?a ?h ?w0] =>
            destruct (checkEscalation_step a h w0)
              as (ans & added & l' & m' & E2 & Hadd)
        end.
        rewrite E2 in Erun. injection Erun as <- <-.
        exists (wa, br, if ans then S es else es), (fun r => r), added, l', m'.
        rewrite rewrite_rows_same.
        split; [reflexivity|]. split; [reflexivity|].
        split; [intros r H; exact H|].
        destruct Hadd as [-> | (latest & next & Hl & Hn & Hc & ->)];
          [apply added_none | exact (added_next c w _ latest next Hl Hn Hc)].
      * injection Erun as <- <-.
        exists (wa, br, es), (fun r => r), [], (logger w), (outbox w).
        rewrite rewrite_rows_same, app_nil_r.
        split; [f_equal; apply sla_world_same|]. split; [reflexivity|].
        split; [intros r H; exact H | apply added_none].
Qed.

(** ** Escalation levels over sweeps *)

(** The order level_1 < level_2 < level_3 < executive, with "no escalation
    yet" below all of them. *)
Definition level_rank (level : option EscalationLevel) : nat :=
  match level with
  | None => 0
  | Some level_1 => 1
  | Some level_2 => 2
  | Some level_3 => 3
  | Some executive => 4
  end.

(** The escalation level of a complaint: that of its most recent row. *)
Definition current_level (cid : string) (w : World) : option EscalationLevel :=
  option_map Escalation.escalation_level (latest_of cid w).

Definition unbreached_have_no_rows (rows : list Complaint.t)
    (ladder : list Escalation.t) : Prop :=
  forall r, In r rows -> Complaint.sla_breached r = false ->
            filter (of_complaint (Complaint.id r)) ladder = [].

(** The states the services produce: complaint ids are keys, and escalation
    rows exist only for complaints marked as breached. *)
Definition consistent (w : World) : Prop :=
  NoDup (map Complaint.id (complaints w))
  /\ unbreached_have_no_rows (complaints w) (escalations w).

Lemma most_recent_snoc l e :
  most_recent (l ++ [e])
  = match most_recent l with
    | None => Some e
    | Some b =>
        if Escalation.created_at b <=? Escalation.created_at e
        then Some e else Some b
    end.
Proof. unfold most_recent. rewrite fold_left_app. reflexivity. Qed.

Lemma filter_snoc {A} (f : A -> bool) l a :
  filter f (l ++ [a]) = filter f l ++ (if f a then [a] else []).
Proof. rewrite filter_app. reflexivity. Qed.

Lemma next_level_rank l n :
  next_level l = Some n -> level_rank (Some n) = S (level_rank (Some l)).
Proof. destruct l; simpl; intros H; inversion H; reflexivity. Qed.

Lemma rewrite_rows_ids cid f l :
  (forall r, Complaint.id (f r) = Complaint.id r) ->
  map Complaint.id (rewrite_rows cid f l) = map Complaint.id l.
Proof.
  intros Hid. unfold rewrite_rows. rewrite map_map. apply map_ext.
  intros r. destruct (has_id cid r); [apply Hid | reflexivity].
Qed.

Lemma of_complaint_row cid cid' level previous now :
  of_complaint cid (escalation_row cid' level previous now)
  = String.eqb cid' cid.
Proof. reflexivity. Qed.

Section OneTurn.

Variables (c : Complaint.t) (w : World) (f : Complaint.t -> Complaint.t).
Variables (added : list Escalation.t).
Variables (lines : list (LogLevel * string)) (messages : list Outgoing).

Hypothesis f_id : forall r, Complaint.id (f r) = Complaint.id r.
Hypothesis f_breached :
  forall r, Complaint.sla_breached (f r) = false ->
            Complaint.sla_breached r = false.
Hypothesis Hadded : added_by c w f added.
Hypothesis Hrows : unbreached_have_no_rows (complaints w) (escalations w).
Hypothesis Hhead :
  Complaint.sla_breached c = false ->
  filter (of_complaint (Complaint.id c)) (escalations w) = [].

Let w' : World :=
  sla_world (rewrite_rows (Complaint.id c) f (complaints w))
    (escalations w ++ added) lines messages w.

Lemma turn_other_complaints cid :
  cid <> Complaint.id c ->
  filter (of_complaint cid) (escalations w')
  = filter (of_complaint cid) (escalations w).
Proof.
  intros Hne. unfold w'. cbn [escalations sla_world with_outbox with_logger with_escalations].
  assert (Hno : String.eqb (Complaint.id c) cid = false)
    by (apply String.eqb_neq; congruence).
  destruct Hadded; rewrite ?app_nil_r; [reflexivity| |];
    rewrite filter_snoc, of_complaint_row, Hno, app_nil_r; reflexivity.
Qed.

Lemma turn_level_grows cid :
  (level_rank (current_level cid w) <= level_rank (current_level cid w'))%nat.
Proof.
  destruct (String.eqb_spec cid (Complaint.id c)) as [-> | Hne].
  - unfold current_level, latest_of, w'.
    cbn [escalations sla_world with_outbox with_logger with_escalations].
    destruct Hadded as [|Hb _|latest next Hl Hn Hc].
    + rewrite app_nil_r. apply Nat.le_refl.
    + rewrite filter_snoc, of_complaint_row, String.eqb_refl, (Hhead Hb).
      simpl. lia.
    + rewrite filter_snoc, of_complaint_row, String.eqb_refl, most_recent_snoc.
      unfold latest_of in Hl. rewrite Hl.
      change (Escalation.created_at (escalation_row _ _ _ (clock w)))
        with (clock w).
      apply Z.leb_le in Hc. rewrite Hc.
      apply next_level_rank in Hn.
      change (level_rank (Some next)
              = S (level_rank (option_map Escalation.escalation_level
                                 (Some latest)))) in Hn.
      change (option_map Escalation.escalation_level
                (Some (escalation_row (Complaint.id c) next
                         (Some (Escalation.escalation_level latest))
                         (clock w))))
        with (Some next).
      rewrite Hn. lia.
  - unfold current_level, latest_of.
    rewrite (turn_other_complaints cid Hne). apply Nat.le_refl.
Qed.

Lemma turn_keeps_rows_consistent :
  unbreached_have_no_rows (complaints w') (escalations w').
Proof.
  intros r' Hin Hb. unfold w' in Hin.
  cbn [complaints sla_world with_outbox with_logger with_escalations
       with_complaints] in Hin.
  unfold rewrite_rows in Hin. apply in_map_iff in Hin.
  destruct Hin as (r & Hr' & Hr).
  assert (Hid : Complaint.id r' = Complaint.id r)
    by (subst r'; destruct (has_id (Complaint.id c) r); [apply f_id | reflexivity]).
  assert (Hbr : Complaint.sla_breached r = false)
    by (subst r'; destruct (has_id (Complaint.id c) r);
        [apply f_breached; assumption | assumption]).
  pose proof (Hrows r Hr Hbr) as Hnone.
  rewrite Hid.
  destruct (String.eqb_spec (Complaint.id r) (Complaint.id c)) as [Heq | Hne].
  - unfold w'.
    cbn [escalations sla_world with_outbox with_logger with_escalations].
    destruct Hadded as [|_ Hall|latest next Hl _ _].
    + rewrite app_nil_r. assumption.
    + exfalso. subst r'. unfold has_id in Hb.
      rewrite (proj2 (String.eqb_eq _ _) Heq) in Hb.
      rewrite Hall in Hb. discriminate Hb.
    + exfalso. unfold latest_of in Hl. rewrite <- Heq, Hnone in Hl.
      discriminate Hl.
  - rewrite (turn_other_complaints _ Hne). assumption.
Qed.

End OneTurn.

(** The loop of the sweep, over rows selected from a consistent state. *)
Lemma for_each_grows now thr selected :
  forall counters w,
    NoDup (map Complaint.id selected) ->
    unbreached_have_no_rows selected (escalations w) ->
    unbreached_have_no_rows (complaints w) (escalations w) ->
    exists counters' w',
      for_each now thr selected counters w = (Ok counters', w')
      /\ clock w' = clock w
      /\ map Complaint.id (complaints w') = map Complaint.id (complaints w)
      /\ unbreached_have_no_rows (complaints w') (escalations w')
      /\ forall cid,
           (level_rank (current_level cid w)
            <= level_rank (current_level cid w'))%nat.
Proof.
  induction selected as [|c rest IH]; intros counters w Hnd Hsel Hrows.
  - exists counters, w. repeat split; try assumption. intros cid. apply Nat.le_refl.
  - destruct (check_complaint_step now thr c counters w)
      as (counters1 & f & added & lines & messages & E & Hid & Hbr & Hadd).
    set (w1 := sla_world (rewrite_rows (Complaint.id c) f (complaints w))
                 (escalations w ++ added) lines messages w) in *.
    assert (Hhead : Complaint.sla_breached c = false ->
                    filter (of_complaint (Complaint.id c)) (escalations w) = [])
      by (intros Hb; apply Hsel; [left; reflexivity | assumption]).
    inversion Hnd as [|? ? Hnotin Hnd']; subst.
    destruct (IH counters1 w1 Hnd') as (counters2 & w2 & E2 & Hc & Hids & Hr2 & Hg).
    + intros r Hr Hb.
      assert (Hne : Complaint.id r <> Complaint.id c).
      { intros Heq. apply Hnotin. rewrite <- Heq. apply in_map. assumption. }
      unfold w1.
      rewrite (turn_other_complaints c w f added lines messages Hadd _ Hne).
      apply Hsel; [right; assumption | assumption].
    + apply (turn_keeps_rows_consistent c w f added lines messages Hid Hbr
               Hadd Hrows).
    + exists counters2, w2. split.
      { simpl. unfold bind. rewrite E. exact E2. }
      split; [rewrite Hc; reflexivity|].
      split; [rewrite Hids; unfold w1; apply rewrite_rows_ids; assumption|].
      split; [assumption|].
      intros cid. eapply Nat.le_trans; [|apply Hg].
      apply (turn_level_grows c w f added lines messages Hadd Hhead).
Qed.

Lemma NoDup_map_filter {A B} (g : A -> B) (p : A -> bool) (l : list A) :
  NoDup (map g l) -> NoDup (map g (filter p l)).
Proof.
  induction l as [|a l IH]; simpl; intros H; [constructor|].
  inversion H as [|? ? Hnotin Hnd]; subst.
  destruct (p a); simpl; [|apply IH; assumption].
  constructor; [|apply IH; assumption].
  intros Hin. apply Hnotin. apply in_map_iff in Hin.
  destruct Hin as (x & Hx & Hin). apply filter_In in Hin.
  apply in_map_iff. exists x. tauto.
Qed.

(** A sweep returns, keeps the state consistent and lowers no level. *)
Lemma checkSLABreaches_grows w :
  consistent w ->
  exists result w',
    checkSLABreaches w = (Ok result, w')
    /\ consistent w'
    /\ forall cid,
         (level_rank (current_level cid w)
          <= level_rank (current_level cid w'))%nat.
Proof.
  intros [Hnd Hrows].
  set (selected := filter (fun c => is_open c && has_deadline c)%bool
                     (complaints w)).
  destruct (for_each_grows (clock w)
              (sla_warningHoursBefore (config w) * 60 * 60 * 1000)%Q
              selected (0, 0, 0)%nat w)
    as (counters & w1 & E & Hc & Hids & Hr1 & Hg).
  - apply NoDup_map_filter. assumption.
  - intros r Hr Hb. apply Hrows; [|assumption].
    apply filter_In in Hr. tauto.
  - assumption.
  - destruct counters as [[wa br] es].
    exists {| checked := List.length selected; warnings := wa;
              breaches := br; escalations_ := es |},
      (with_logger (logger w1 ++ [(log_info, "SLA check completed"%string)]) w1).
    split; [|split].
    + unfold checkSLABreaches, try_catch, Date_now, log.
      unfold bind, gets, modify, ret. fold selected. rewrite E. reflexivity.
    + split; [cbn [complaints with_logger]; rewrite Hids; assumption|].
      exact Hr1.
    + intros cid. apply Hg.
Qed.

(** A sweep at clock reading [now], and a sequence of sweeps. *)
Definition sweep (now : Z) (w : World) : World :=
  snd (checkSLABreaches (with_clock now w)).

Definition sweeps (times : list Z) (w : World) : World :=
  fold_left (fun w now => sweep now w) times w.

Lemma sweeps_consistent times :
  forall w, consistent w -> consistent (sweeps times w).
Proof.
  induction times as [|t times IH]; intros w Hw; [assumption|].
  simpl. apply IH. unfold sweep.
  destruct (checkSLABreaches_grows (with_clock t w) Hw)
    as (result & w' & E & Hc & _).
  rewrite E. assumption.
Qed.


Lemma breached_world_consistent now s level since :
  consistent (breached_world now s level since).
Proof.
  split.
  - simpl. constructor; [intros [] | constructor].
  - intros r [<- | []] H. discriminate H.
Qed.


(** ** Breached complaints left in status escalated *)

(** A turn of the loop on a row in status escalated that is already marked
    as breached never reaches [checkEscalation]: it adds no escalation row
    and counts no escalation. *)
Lemma escalated_row_skips_the_ladder now thr c wa br es w :
  Complaint.status c = escalated ->
  Complaint.sla_breached c = true ->
  exists wa' br' w',
    check_complaint now thr c (wa, br, es) w = (Ok (wa', br', es), w')
    /\ escalations w' = escalations w.
Proof.
  intros Hs Hb.
  destruct (check_complaint now thr c (wa, br, es) w) as [res wf] eqn:Erun.
  unfold check_complaint in Erun. cbv zeta in Erun.
  rewrite Hs, Hb in Erun. unfold bind, ret in Erun.
  cbn [negb andb ComplaintStatus_eqb] in Erun.
  rewrite andb_false_r in Erun.
  match type of Erun with
  | context [if ?b then _ else _] => destruct b
  end.
  - destruct (handleSLAWarning_run (Complaint.id c) w) as (l & m & E1).
    rewrite E1 in Erun. injection Erun as <- <-.
    do 3 eexists. split; reflexivity.
  - injection Erun as <- <-. do 3 eexists. split; reflexivity.
Qed.

(** C5 at a failing input.  Complaint c-1 is in status escalated, marked as
    breached, 43 hours overdue, at level_1 for 22 hours.  The ladder, asked
    directly, advances it to level_2; the sweep does not ask: it checks the
    complaint, counts no escalation and adds no row.  The same complaint in
    status in_progress is advanced by the sweep. *)
Theorem escalated_breach_is_not_delegated :
  let w :=
    breached_world (43 * JS.msPerHour) escalated level_1 (21 * JS.msPerHour) in
  let v :=
    breached_world (43 * JS.msPerHour) in_progress level_1 (21 * JS.msPerHour) in
  fst (checkSLABreaches w)
  = Ok {| checked := 1; warnings := 0; breaches := 0; escalations_ := 0 |}
  /\ escalations (snd (checkSLABreaches w)) = escalations w
  /\ fst (checkEscalation "c-1" 43 w) = Ok true
  /\ fst (checkSLABreaches v)
     = Ok {| checked := 1; warnings := 0; breaches := 0; escalations_ := 1 |}
  /\ current_level "c-1" (snd (checkSLABreaches v)) = Some level_2.
Proof.
  cbv zeta. repeat (split; [vm_compute; reflexivity|]). vm_compute. reflexivity.
Qed.

(** * Further properties of the services *)

(** ** Manual review *)



(** ** Where the state machine stops *)

(** X2.  [updateComplaintStatus] refuses every move out of closed or rejected,
    every move to the status the complaint already has, and every move to
    submitted; an unknown complaint id is a NotFoundError.  The world is
    unchanged in all these cases. *)
Theorem updateComplaintStatus_refusals :
  forall w cid updater target notes rtype,
    let run := updateComplaintStatus cid updater target notes rtype w in
    (single (filter (has_id cid) (complaints w)) = None ->
     run = (Throw (NotFoundError "Complaint" cid), w))
    /\ (forall c,
          single (filter (has_id cid) (complaints w)) = Some c ->
          Complaint.status c = closed \/ Complaint.status c = rejected
          \/ target = Complaint.status c \/ target = submitted ->
          run = (Throw (ValidationError
                          ("Cannot transition from "
                           ++ status_name (Complaint.status c)
                           ++ " to " ++ status_name target)), w)).
Proof.
  intros w cid updater target notes rtype run.
  pose proof (updateComplaintStatus_run cid updater target notes rtype w) as R.
  cbv zeta in R. fold run in R. split.
  - intros Hc. rewrite Hc in R. exact R.
  - intros c Hc Hcase. rewrite Hc in R.
    assert (E : includes (validTransitions (Complaint.status c)) target = false).
    { destruct Hcase as [H | [H | [H | H]]].
      - rewrite H. reflexivity.
      - rewrite H. reflexivity.
      - rewrite H. destruct (Complaint.status c); reflexivity.
      - rewrite H. destruct (Complaint.status c); reflexivity. }
    rewrite E in R. exact R.
Qed.

Lemma updateComplaintStatus_refusals_witness :
  updateComplaintStatus "c-1" "officer" resolved None None
    (world_with rejected)
  = (Throw (ValidationError "Cannot transition from rejected to resolved"),
     world_with rejected).
Proof.
  apply (proj2 (updateComplaintStatus_refusals (world_with rejected)
                  "c-1"%string "officer"%string resolved None None)
           _ eq_refl).
  right. left. reflexivity.
Defined.

(** ** The classifier *)

Lemma lookup_department_code key code :
  lookup DEPARTMENT_MAPPINGS key = Some code ->
  Str.includes DEPARTMENT_CODES code = true.
Proof.
  unfold DEPARTMENT_MAPPINGS. cbn [lookup].
  repeat (destruct (String.eqb _ key);
          [intros H; injection H as <-; reflexivity|]).
  discriminate.
Qed.

Lemma substring_length_le (s : string) :
  forall m, (String.length (String.substring 0 m s) <= m)%nat.
Proof.
  induction s as [|a s IH]; intros [|m]; simpl; try lia.
  specialize (IH m). lia.
Qed.

Lemma Math_round_unit (c : Q) :
  (0 <= c)%Q -> (c <= 1)%Q ->
  (0 <= inject_Z (JS.Math_round (c * 100)) / 100
   /\ inject_Z (JS.Math_round (c * 100)) / 100 <= 1)%Q.
Proof.
  intros H0 H1. unfold JS.Math_round.
  assert (Hk : 0 <= Qfloor (c * 100 + (1 # 2)) <= 100).
  { split.
    - apply (Z.le_trans _ (Qfloor 0)); [reflexivity|].
      apply Qfloor_resp_le. lra.
    - apply (Z.le_trans _ (Qfloor (100 + (1 # 2)))); [|reflexivity].
      apply Qfloor_resp_le. lra. }
  generalize dependent (Qfloor (c * 100 + (1 # 2))). intros k Hk.
  unfold Qle, Qdiv, Qmult, Qinv, inject_Z; simpl. lia.
Qed.



(** X4.  Every failure of [classifyComplaint] reaches its caller as an
    AIServiceError, is logged, and leaves everything but the log as it was. *)
Theorem classifyComplaint_fails_with_AIServiceError :
  forall JSON_parse description locationAddress imageAnalysis w e w',
    classifyComplaint JSON_parse description locationAddress imageAnalysis w
    = (Throw e, w') ->
    (exists message, e = AIServiceError message)
    /\ logged w w'
    /\ In (log_error, "AI classification failed"%string) (logger w').
Proof.
  intros JSON_parse d a i w e w' H.
  split; [|split].
  - unfold classifyComplaint, try_catch in H.
    match type of H with
    | context [let (_, _) := ?body in _] => destruct body as [[r | e0] w1]
    end; [discriminate H|].
    unfold log, modify, bind in H.
    destruct e0; injection H as <- <-; eexists; reflexivity.
  - pose proof (logs_only_classifyComplaint JSON_parse d a i w) as L.
    rewrite H in L. exact L.
  - unfold classifyComplaint, try_catch in H.
    match type of H with
    | context [let (_, _) := ?body in _] => destruct body as [[r | e0] w1]
    end; [discriminate H|].
    unfold log, modify, bind in H.
    destruct e0; injection H as <- <-; cbn [logger with_logger];
      apply in_or_app; right; left; reflexivity.
Qed.

Lemma classifyComplaint_fails_with_AIServiceError_witness :
  exists message,
    fst (classifyComplaint (fun _ => None) "Water is flooding the street"
           None None empty_world)
    = Throw (AIServiceError message).
Proof.
  destruct (classifyComplaint (fun _ => None) "Water is flooding the street"
              None None empty_world) as [res w'] eqn:E.
  assert (Hres : res = Throw (AIServiceError "unavailable"))
    by (vm_compute in E; injection E as <- _; reflexivity).
  subst res.
  destruct (proj1 (classifyComplaint_fails_with_AIServiceError _ _ _ _ _ _ _ E))
    as [message Hm].
  exists message. simpl. rewrite Hm. reflexivity.
Defined.

(** ** Department lookup and critical areas *)

(** X5.  [getDepartmentByCode] answers with a department exactly when one and
    only one active department carries the code: inactive departments are never
    returned, and neither is a code that two active departments share.  It
    writes nothing but a warning to the log. *)
Theorem getDepartmentByCode_active_and_unique :
  forall code w,
    exists answer w',
      getDepartmentByCode code w = (Ok answer, w')
      /\ logged w w'
      /\ (forall id hours,
            answer = Some (id, hours) <->
            exists d,
              filter (fun d => (String.eqb (Department.code d) code
                                && Department.is_active d)%bool)
                (departments w) = [d]
              /\ Department.id d = id /\ Department.sla_hours d = hours)
      /\ (forall id hours,
            answer = Some (id, hours) ->
            exists d,
              In d (departments w)
              /\ Department.code d = code
              /\ Department.is_active d = true
              /\ Department.id d = id /\ Department.sla_hours d = hours).
Proof.
  intros code w. unfold getDepartmentByCode, bind, gets.
  set (active := filter _ (departments w)).
  assert (Hin : forall d, In d active ->
                  In d (departments w) /\ Department.code d = code
                  /\ Department.is_active d = true).
  { intros d Hd. apply filter_In in Hd. destruct Hd as [Hd Hp].
    apply andb_true_iff in Hp. destruct Hp as [Hc Ha].
    apply String.eqb_eq in Hc. tauto. }
  destruct active as [|d [|d2 rest]] eqn:E; simpl.
  - do 2 eexists. split; [reflexivity|].
    split; [exists [(log_warn, "Department not found for code:"%string)];
            reflexivity|].
    split; [|intros id hours H; discriminate H].
    intros id hours. split; [intros H; discriminate H|].
    intros (d & Hd & _). discriminate Hd.
  - do 2 eexists. split; [reflexivity|].
    split; [apply logged_refl|]. split.
    + intros id hours. split.
      * intros H. injection H as <- <-. exists d. repeat split.
      * intros (d' & Hd & <- & <-). injection Hd as <-. reflexivity.
    + intros id hours H. injection H as <- <-. exists d.
      destruct (Hin d (or_introl eq_refl)) as (H1 & H2 & H3). repeat split;
        assumption.
  - do 2 eexists. split; [reflexivity|].
    split; [exists [(log_warn, "Department not found for code:"%string)];
            reflexivity|].
    split; [|intros id hours H; discriminate H].
    intros id hours. split; [intros H; discriminate H|].
    intros (d' & Hd & _). discriminate Hd.
Qed.

(** [checkCriticalArea] says yes exactly when an active critical area
    contains the point, bounds included. *)
Lemma checkCriticalArea_iff lat lng w :
  in_critical_area w lat lng = true
  <-> exists a,
        In a (critical_areas w)
        /\ CriticalArea.is_active a = true
        /\ (CriticalArea.lat_min a <= lat /\ lat <= CriticalArea.lat_max a)%Q
        /\ (CriticalArea.lng_min a <= lng /\ lng <= CriticalArea.lng_max a)%Q.
Proof.
  unfold in_critical_area.
  set (inside := fun a : CriticalArea.t => _).
  assert (Hex : negb (Nat.eqb (List.length (firstn 1 (filter inside (critical_areas w)))) 0)
                = existsb inside (critical_areas w)).
  { induction (critical_areas w) as [|a l IH]; simpl; [reflexivity|].
    destruct (inside a); simpl; [reflexivity | exact IH]. }
  rewrite Hex, existsb_exists. unfold inside, JS.ge.
  split.
  - intros (a & Ha & Hp).
    rewrite !andb_true_iff, !Qle_bool_iff in Hp. exists a. tauto.
  - intros (a & Ha & Hact & [H1 H2] & [H3 H4]). exists a.
    rewrite !andb_true_iff, !Qle_bool_iff. tauto.
Qed.

(** X6.  The pipeline flags a complaint as lying in a critical area exactly when
    both coordinates are given and different from zero and an active critical
    area contains the point: a location on the equator or on the prime meridian
    is never looked up. *)
Theorem isCriticalArea_needs_nonzero_coordinates :
  forall JSON_parse cid d lat lng addr w cls w1,
    classifyComplaint JSON_parse d addr None w = (Ok cls, w1) ->
    exists r,
      fst (classifyAndProcessComplaint JSON_parse cid d lat lng addr w) = Ok r
      /\ (isCriticalArea r = true <->
          exists la ln a,
            lat = Some la /\ lng = Some ln
            /\ ~ (la == 0)%Q /\ ~ (ln == 0)%Q
            /\ In a (critical_areas w)
            /\ CriticalArea.is_active a = true
            /\ (CriticalArea.lat_min a <= la /\ la <= CriticalArea.lat_max a)%Q
            /\ (CriticalArea.lng_min a <= ln /\ ln <= CriticalArea.lng_max a)%Q).
Proof.
  intros JSON_parse cid d lat lng addr w cls w1 H.
  exists (gate w cls lat lng).
  split; [eapply classifyAndProcessComplaint_result; eassumption|].
  unfold gate. cbn [isCriticalArea]. unfold truthy_number.
  destruct lat as [la|], lng as [ln|].
  - destruct (Qeq_bool la 0) eqn:Ela; [|destruct (Qeq_bool ln 0) eqn:Eln].
    + split; [intros Hf; discriminate Hf|].
      intros (la' & ln' & a & Hla & _ & Hnz & _). injection Hla as <-.
      exfalso. apply Hnz. apply Qeq_bool_iff. assumption.
    + split; [intros Hf; discriminate Hf|].
      intros (la' & ln' & a & _ & Hln & _ & Hnz & _). injection Hln as <-.
      exfalso. apply Hnz. apply Qeq_bool_iff. assumption.
    + rewrite checkCriticalArea_iff. split.
      * intros (a & Ha). exists la, ln, a.
        split; [reflexivity|]. split; [reflexivity|].
        split; [intros Hz; apply Qeq_bool_iff in Hz; congruence|].
        split; [intros Hz; apply Qeq_bool_iff in Hz; congruence|]. exact Ha.
      * intros (la' & ln' & a & Hla & Hln & _ & _ & Ha).
        injection Hla as <-. injection Hln as <-. exists a. exact Ha.
  - split; [intros Hf; destruct (Qeq_bool la 0); discriminate Hf|].
    intros (la' & ln' & a & _ & Hln & _). discriminate Hln.
  - split; [intros Hf; discriminate Hf|].
    intros (la' & ln' & a & Hla & _). discriminate Hla.
  - split; [intros Hf; discriminate Hf|].
    intros (la' & ln' & a & Hla & _). discriminate Hla.
Qed.

(** A world whose model answers and whose only critical area is the square
    from (-1,-1) to (1,1). *)
Definition world_with_area : World :=
  {| clock := 0; LocalTZA := 0; config := default_config;
     complaints := []; complaint_status_logs := []; escalations := [];
     departments := [];
     critical_areas := [CriticalArea.mk true (-1) 1 (-1) 1];
     generateContent := fun _ => ReplyText "{ }";
     logger := []; outbox := [] |}.

Lemma isCriticalArea_needs_nonzero_coordinates_witness :
  exists r,
    fst (classifyAndProcessComplaint
           (fun _ => Some (sample_answer "high" (80 # 100)))
           "c-1" "Water is flooding the street" (Some 0%Q) (Some (1 # 2))
           None world_with_area) = Ok r
    /\ isCriticalArea r = false.
Proof.
  destruct (isCriticalArea_needs_nonzero_coordinates
              (fun _ => Some (sample_answer "high" (80 # 100)))
              "c-1"%string "Water is flooding the street"%string
              (Some 0%Q) (Some (1 # 2)) None world_with_area
              (AIClassificationResult.mk "Water Supply" "WATER" high
                 (inject_Z 80 / 100) "Burst pipe on the main road"
                 ["pipe"; "leak"]%string 80)
              (with_logger
                 [(log_info, "Starting AI classification"%string);
                  (log_info, "AI classification completed"%string)]
                 world_with_area))
    as (r & Hr & Hiff).
  - vm_compute. reflexivity.
  - exists r. split; [exact Hr|].
    destruct (isCriticalArea r); [|reflexivity].
    destruct (proj1 Hiff eq_refl) as (la & ln & a & Hla & _ & Hnz & _).
    injection Hla as <-. exfalso. apply Hnz. reflexivity.
Defined.

(** ** Submission *)

(** What the background classification leaves behind, whatever the
    classifier did. *)
Lemma processComplaintClassification_outcome JSON_parse cid data createdAt w :
  exists g,
    let run := processComplaintClassification JSON_parse cid data createdAt w in
    fst run = Ok tt
    /\ complaints (snd run) = rewrite_rows cid g (complaints w)
    /\ complaint_status_logs (snd run) = complaint_status_logs w
    /\ escalations (snd run) = escalations w
    /\ forall c,
         Complaint.id (g c) = Complaint.id c
         /\ ((Complaint.status (g c) = approved
              /\ Complaint.is_auto_approved (g c) = true)
             \/ Complaint.status (g c) = pending_review).
Proof.
  destruct (classifyComplaint JSON_parse (description data)
              (location_address data) None w) as [[cls | e] w1] eqn:E.
  - destruct (processComplaintClassification_classified JSON_parse cid data
                createdAt w cls w1 E) as (score & _ & Hok & Hrows & Hlogs & Hesc).
    eexists. cbv zeta. split; [exact Hok|]. split; [exact Hrows|].
    split; [exact Hlogs|]. split; [exact Hesc|].
    intros c. unfold classified.
    destruct (isAutoApproved _); destruct (slaDeadline _);
      (split; [reflexivity|]);
      [left | left | right | right]; repeat split.
  - pose proof (logs_only_classifyComplaint JSON_parse (description data)
                  (location_address data) None w) as L.
    rewrite E in L. simpl in L. destruct L as [l ->].
    exists needs_manual_review. cbv zeta.
    rewrite (processComplaintClassification_failed _ cid data createdAt _ _ _ E).
    repeat split. right. reflexivity.
Qed.



Lemma classified_id r score now c :
  Complaint.id (classified r score now c) = Complaint.id c.
Proof.
  unfold classified. destruct (slaDeadline r); reflexivity.
Qed.

Lemma single_map {A B} (f : A -> B) (l : list A) :
  single (map f l) = option_map f (single l).
Proof. destruct l as [|a [|b l]]; reflexivity. Qed.

(** X8.  Once the classifier has answered, the department is notified of the
    complaint exactly when the gate approved it, the gate found a department and
    the complaint is stored once; nothing else is handed to the notifier.  In
    particular a complaint approved without a department is routed to nobody,
    and keeps the deadline it had. *)
Theorem routing_needs_approval_and_department :
  forall JSON_parse cid data createdAt w cls w1,
    classifyComplaint JSON_parse (description data) (location_address data)
      None w = (Ok cls, w1) ->
    let r := gate w cls (location_lat data) (location_lng data) in
    let run := processComplaintClassification JSON_parse cid data createdAt w in
    outbox (snd run)
    = outbox w
      ++ match isAutoApproved r, departmentId r,
               single (filter (has_id cid) (complaints w)) with
         | true, Some dept, Some _ => [ComplaintRouting cid dept]
         | _, _, _ => []
         end
    /\ (find_department w (AIClassificationResult.department_code cls) = None ->
        outbox (snd run) = outbox w
        /\ gate_wrote cid
             (fun c c' =>
                Complaint.department_id c' = None
                /\ Complaint.sla_deadline c' = Complaint.sla_deadline c)
             (complaints w) (complaints (snd run))).
Proof.
  intros JSON_parse cid data createdAt w cls w1 H r run.
  assert (Hout :
    outbox (snd run)
    = outbox w
      ++ match isAutoApproved r, departmentId r,
               single (filter (has_id cid) (complaints w)) with
         | true, Some dept, Some _ => [ComplaintRouting cid dept]
         | _, _, _ => []
         end).
  { pose proof (classifyAndProcessComplaint_result JSON_parse cid
                  (description data) (location_lat data) (location_lng data)
                  (location_address data) w cls w1 H) as Hres.
    pose proof (logs_only_classifyAndProcessComplaint JSON_parse cid
                  (description data) (location_lat data) (location_lng data)
                  (location_address data) w) as [l Hl].
    destruct (classifyAndProcessComplaint JSON_parse cid (description data)
                (location_lat data) (location_lng data) (location_address data)
                w) as [res w2] eqn:E.
    simpl in Hres, Hl. subst res w2. fold r in E.
    subst run.
    destruct (processComplaintClassification JSON_parse cid data createdAt w)
      as [res wf] eqn:Erun.
    unfold processComplaintClassification, try_catch in Erun.
    unfold bind at 1 in Erun. rewrite E in Erun.
    unfold calculatePriorityScore, Date_now, update_complaints, log in Erun.
    unfold bind, gets, modify, ret in Erun. cbn beta iota zeta in Erun.
    destruct (isAutoApproved r) eqn:Ea; [destruct (departmentId r) eqn:Ed|].
    - unfold triggerComplaintRouting, select_complaints, bind, gets in Erun.
      cbn [complaints with_logger with_complaints] in Erun.
      match type of Erun with
      | context [filter (has_id cid) (map ?f (complaints w))] =>
          match f with
          | (fun c => if has_id cid c then @?g c else c) =>
              change (map f (complaints w))
                with (rewrite_rows cid g (complaints w)) in Erun;
              rewrite (filter_rewrite_rows cid g) in Erun
          end
      end.
      + rewrite single_map in Erun.
        destruct (single (filter (has_id cid) (complaints w))) as [c|];
          cbn [option_map] in Erun;
          unfold send, log, modify in Erun;
          injection Erun as <- <-; cbn [snd outbox with_outbox with_logger
                                         with_complaints];
          [reflexivity | symmetry; apply app_nil_r].
      + intros c. destruct (slaDeadline r); reflexivity.
    - injection Erun as <- <-. cbn. symmetry; apply app_nil_r.
    - injection Erun as <- <-. cbn. symmetry; apply app_nil_r. }
  split; [exact Hout|].
  intros Hnone.
  assert (Hd : departmentId r = None).
  { unfold r, gate. cbn [departmentId]. rewrite Hnone. reflexivity. }
  assert (Hs : slaDeadline r = None).
  { unfold r, gate. cbn [slaDeadline]. rewrite Hnone. reflexivity. }
  split.
  - rewrite Hout, Hd. destruct (isAutoApproved r); apply app_nil_r.
  - destruct (processComplaintClassification_classified JSON_parse cid data
                createdAt w cls w1 H) as (score & _ & _ & Hrows & _).
    fold r in Hrows. fold run in Hrows. rewrite Hrows.
    unfold gate_wrote, rewrite_rows. apply Forall2_map_r. intros c _.
    destruct (has_id cid c); [|reflexivity].
    unfold classified. rewrite Hd, Hs. split; reflexivity.
Qed.

Lemma routing_needs_approval_and_department_witness :
  outbox
    (snd (processComplaintClassification
            (fun _ => Some (sample_answer "high" (80 # 100)))
            "c-1" flooding 0
            (with_complaints [new_complaint "c-1" "u-1" 0]
               (answering_world false))))
  = [].
Proof.
  refine (proj1 (proj2 (routing_needs_approval_and_department
            (fun _ => Some (sample_answer "high" (80 # 100)))
            "c-1"%string flooding 0
            (with_complaints [new_complaint "c-1" "u-1" 0]
               (answering_world false)) _ _ _) _));
    vm_compute; reflexivity.
Defined.

(** ** SLA Breach Monitor: what a sweep writes *)

(** The tests of the loop of [checkSLABreaches] on a row as selected. *)
Definition time_left (now : Z) (c : Complaint.t) : Z :=
  match Complaint.sla_deadline c with
  | Some d => d
  | None => 0
  end - now.

Definition newly_breached (now : Z) (c : Complaint.t) : bool :=
  (time_left now c <? 0) && negb (Complaint.sla_breached c).

Definition warning_due (now : Z) (thr : Q) (c : Complaint.t) : bool :=
  (0 <? time_left now c) && JS.lt (inject_Z (time_left now c)) thr
  && negb (Complaint.sla_breach_notified c).

Definition asks_ladder (c : Complaint.t) : bool :=
  Complaint.sla_breached c
  && negb (ComplaintStatus_eqb (Complaint.status c) escalated).

(** What a turn on the selected row [c] writes to the rows of its id. *)
Definition turn_row (now : Z) (thr : Q) (c : Complaint.t)
    : Complaint.t -> Complaint.t :=
  if newly_breached now c then breached_row
  else if warning_due now thr c
       then Complaint.set_sla_breach_notified true
       else fun r => r.

(** The escalation row that the ladder adds for [c], given the clock reading
    and the most recent row of the complaint. *)
Definition ladder_rows (now : Z) (c : Complaint.t) (date_now : Z)
    (latest : option Escalation.t) : list Escalation.t :=
  if asks_ladder c then
    match latest with
    | Some l =>
        match next_level (Escalation.escalation_level l) with
        | Some next =>
            if due l (inject_Z (JS.Math_abs (time_left now c))
                      / inject_Z JS.msPerHour)%Q date_now
            then [escalation_row (Complaint.id c) next
                    (Some (Escalation.escalation_level l)) date_now]
            else []
        | None => []
        end
    | None => []
    end
  else [].

Definition turn_added (now : Z) (c : Complaint.t) (date_now : Z)
    (latest : option Escalation.t) : list Escalation.t :=
  if newly_breached now c
  then [escalation_row (Complaint.id c) level_1 None date_now]
  else ladder_rows now c date_now latest.

Lemma sla_world_twice rows ladder lines messages rows' ladder' lines' messages' w :
  sla_world rows' ladder' lines' messages'
    (sla_world rows ladder lines messages w)
  = sla_world rows' ladder' lines' messages' w.
Proof. reflexivity. Qed.

(** One turn of the loop, exactly. *)
Lemma check_complaint_turn now thr c wa br es w :
  exists lines messages,
    check_complaint now thr c (wa, br, es) w
    = (Ok (Nat.b2n (warning_due now thr c) + wa,
           Nat.b2n (newly_breached now c) + br,
           List.length
             (ladder_rows now c (clock w) (latest_of (Complaint.id c) w))
           + es)%nat,
       sla_world
         (rewrite_rows (Complaint.id c) (turn_row now thr c) (complaints w))
         (escalations w
          ++ turn_added now c (clock w) (latest_of (Complaint.id c) w))
         lines messages w).
Proof.
  destruct (check_complaint now thr c (wa, br, es) w) as [res wf] eqn:Erun.
  unfold check_complaint in Erun. cbv zeta in Erun.
  fold (time_left now c) in Erun.
  fold (newly_breached now c) in Erun.
  fold (warning_due now thr c) in Erun.
  fold (asks_ladder c) in Erun.
  unfold bind, ret in Erun.
  unfold turn_row, turn_added, ladder_rows.
  assert (Ladder : forall rows0 l0 m0,
            asks_ladder c = true ->
            exists lines messages,
              checkEscalation (Complaint.id c)
                (inject_Z (JS.Math_abs (time_left now c))
                 / inject_Z JS.msPerHour)%Q
                (sla_world rows0 (escalations w) l0 m0 w)
              = (Ok (negb (Nat.eqb
                       (List.length
                          (ladder_rows now c (clock w)
                             (latest_of (Complaint.id c) w))) 0)),
                 sla_world rows0
                   (escalations w
                    ++ ladder_rows now c (clock w)
                         (latest_of (Complaint.id c) w))
                   lines messages w)).
  { intros rows0 l0 m0 Hask.
    pose proof (checkEscalation_run (Complaint.id c)
                  (inject_Z (JS.Math_abs (time_left now c))
                   / inject_Z JS.msPerHour)%Q
                  (sla_world rows0 (escalations w) l0 m0 w)) as R.
    unfold ladder_rows. rewrite Hask.
    change (latest_of (Complaint.id c)
              (sla_world rows0 (escalations w) l0 m0 w))
      with (latest_of (Complaint.id c) w) in R.
    change (clock (sla_world rows0 (escalations w) l0 m0 w))
      with (clock w) in R.
    destruct (latest_of (Complaint.id c) w) as [latest|];
      [|exists l0, m0; rewrite R, app_nil_r; reflexivity].
    destruct (next_level (Escalation.escalation_level latest)) as [next|];
      [|exists l0, m0; rewrite R, app_nil_r; reflexivity].
    destruct (due latest _ (clock w));
      [|exists l0, m0; rewrite R, app_nil_r; reflexivity].
    destruct R as (lines & messages & R).
    exists lines, messages. rewrite R. reflexivity. }
  destruct (newly_breached now c) eqn:C1.
  - destruct (handleSLABreach_run (Complaint.id c) w) as (l & m & E1).
    rewrite E1 in Erun.
    assert (Hask : asks_ladder c = false).
    { unfold newly_breached in C1. apply andb_true_iff in C1.
      destruct C1 as [_ C1]. apply negb_true_iff in C1.
      unfold asks_ladder. rewrite C1. reflexivity. }
    rewrite Hask in Erun |- *. cbn beta iota in Erun.
    injection Erun as <- <-.
    assert (Hw : warning_due now thr c = false).
    { unfold newly_breached in C1. apply andb_true_iff in C1.
      destruct C1 as [C1 _]. apply Z.ltb_lt in C1.
      unfold warning_due.
      replace (0 <? time_left now c) with false
        by (symmetry; apply Z.ltb_ge; lia).
      reflexivity. }
    rewrite Hw. exists l, m. reflexivity.
  - destruct (warning_due now thr c) eqn:C2.
    + destruct (handleSLAWarning_run (Complaint.id c) w) as (l & m & E1).
      rewrite E1 in Erun. cbn beta iota in Erun.
      destruct (asks_ladder c) eqn:Hask.
      * match type of Erun with
        | context [checkEscalation _ _ (sla_world ?r _ _ _ _)] =>
            destruct (Ladder r l m eq_refl) as (lines & messages & E2)
        end.
        unfold ladder_rows in E2. rewrite Hask in E2.
        rewrite E2 in Erun. injection Erun as <- <-.
        exists lines, messages. f_equal. f_equal.
        destruct (latest_of (Complaint.id c) w) as [latest|]; [|reflexivity].
        destruct (next_level _); [|reflexivity].
        destruct (due _ _ _); reflexivity.
      * injection Erun as <- <-. exists l, m.
        rewrite app_nil_r. reflexivity.
    + cbn beta iota in Erun.
      destruct (asks_ladder c) eqn:Hask.
      * destruct (Ladder (complaints w) (logger w) (outbox w) eq_refl)
          as (lines & messages & E2).
        rewrite <- sla_world_same in E2.
        unfold ladder_rows in E2. rewrite Hask in E2.
        rewrite E2 in Erun. injection Erun as <- <-.
        exists lines, messages. rewrite rewrite_rows_same. f_equal. f_equal.
        destruct (latest_of (Complaint.id c) w) as [latest|]; [|reflexivity].
        destruct (next_level _); [|reflexivity].
        destruct (due _ _ _); reflexivity.
      * injection Erun as <- <-. exists (logger w), (outbox w).
        rewrite rewrite_rows_same, app_nil_r.
        f_equal. apply sla_world_same.
Qed.

Lemma turn_row_id now thr c r :
  Complaint.id (turn_row now thr c r) = Complaint.id r.
Proof.
  unfold turn_row.
  destruct (newly_breached now c); [reflexivity|].
  destruct (warning_due now thr c); reflexivity.
Qed.

Lemma turn_added_filter cid now c date_now latest :
  filter (of_complaint cid) (turn_added now c date_now latest)
  = if String.eqb (Complaint.id c) cid
    then turn_added now c date_now latest else [].
Proof.
  unfold turn_added, ladder_rows.
  destruct (newly_breached now c).
  - cbn [filter]. rewrite of_complaint_row.
    destruct (String.eqb (Complaint.id c) cid); reflexivity.
  - destruct (asks_ladder c);
      [|destruct (String.eqb (Complaint.id c) cid); reflexivity].
    destruct latest as [l|];
      [|destruct (String.eqb (Complaint.id c) cid); reflexivity].
    destruct (next_level _);
      [|destruct (String.eqb (Complaint.id c) cid); reflexivity].
    destruct (due _ _ _);
      [|destruct (String.eqb (Complaint.id c) cid); reflexivity].
    cbn [filter]. rewrite of_complaint_row.
    destruct (String.eqb (Complaint.id c) cid); reflexivity.
Qed.

Lemma find_absent cid (l : list Complaint.t) :
  ~ In cid (map Complaint.id l) -> find (has_id cid) l = None.
Proof.
  induction l as [|a l IH]; intros H; [reflexivity|].
  cbn [find]. unfold has_id at 1.
  destruct (String.eqb_spec (Complaint.id a) cid) as [Heq | _].
  - exfalso. apply H. left. assumption.
  - apply IH. intros Hin. apply H. right. assumption.
Qed.

Lemma find_present (l : list Complaint.t) c :
  NoDup (map Complaint.id l) -> In c l ->
  find (has_id (Complaint.id c)) l = Some c.
Proof.
  induction l as [|a l IH]; intros Hnd Hin; [destruct Hin|].
  inversion Hnd as [|? ? Hnotin Hnd']; subst.
  cbn [find]. unfold has_id at 1.
  destruct Hin as [-> | Hin].
  - rewrite String.eqb_refl. reflexivity.
  - destruct (String.eqb_spec (Complaint.id a) (Complaint.id c)) as [Heq | _].
    + exfalso. apply Hnotin. rewrite Heq. apply in_map. assumption.
    + apply IH; assumption.
Qed.

(** The row of the selection that a turn of the loop takes for the rows of
    id [cid]. *)
Definition selected_for (cid : string) (selected : list Complaint.t)
    : option Complaint.t :=
  find (has_id cid) selected.

Lemma selected_for_cons cid c rest :
  selected_for cid (c :: rest)
  = if String.eqb (Complaint.id c) cid then Some c else selected_for cid rest.
Proof. reflexivity. Qed.

Lemma selected_for_absent cid l :
  ~ In cid (map Complaint.id l) -> selected_for cid l = None.
Proof. apply find_absent. Qed.

Lemma selected_for_present l c :
  NoDup (map Complaint.id l) -> In c l ->
  selected_for (Complaint.id c) l = Some c.
Proof. apply find_present. Qed.

(** The loop over a selection with distinct ids: every stored row is
    rewritten by the turn on the selected row of its id, every complaint
    gets the escalation rows of its own turn, and the counters count the
    turns. *)
Lemma for_each_turns now thr selected :
  forall wa br es w,
    NoDup (map Complaint.id selected) ->
    exists ladder lines messages,
      for_each now thr selected (wa, br, es) w
      = (Ok (List.length (filter (warning_due now thr) selected) + wa,
             List.length (filter (newly_breached now) selected) + br,
             list_sum
               (map (fun c =>
                       List.length
                         (ladder_rows now c (clock w)
                            (latest_of (Complaint.id c) w))) selected)
             + es)%nat,
         sla_world
           (map (fun r =>
                   match selected_for (Complaint.id r) selected with
                   | Some c => turn_row now thr c r
                   | None => r
                   end) (complaints w))
           ladder lines messages w)
      /\ forall cid,
           filter (of_complaint cid) ladder
           = filter (of_complaint cid) (escalations w)
             ++ match selected_for cid selected with
                | Some c => turn_added now c (clock w) (latest_of cid w)
                | None => []
                end.
Proof.
  induction selected as [|c rest IH]; intros wa br es w Hnd.
  - exists (escalations w), (logger w), (outbox w). split.
    + cbn [for_each filter map List.length]. unfold ret.
      change (fun r : Complaint.t =>
                match selected_for (Complaint.id r) [] with
                | Some c => turn_row now thr c r
                | None => r
                end) with (fun r : Complaint.t => r).
      rewrite map_id. f_equal. apply sla_world_same.
    + intros cid. change (selected_for cid []) with (@None Complaint.t).
      rewrite app_nil_r. reflexivity.
  - inversion Hnd as [|? ? Hnotin Hnd']; subst.
    destruct (check_complaint_turn now thr c wa br es w) as (l1 & m1 & E1).
    set (w1 := sla_world
                 (rewrite_rows (Complaint.id c) (turn_row now thr c)
                    (complaints w))
                 (escalations w
                  ++ turn_added now c (clock w) (latest_of (Complaint.id c) w))
                 l1 m1 w) in *.
    destruct (IH (Nat.b2n (warning_due now thr c) + wa)%nat
                 (Nat.b2n (newly_breached now c) + br)%nat
                 (List.length
                    (ladder_rows now c (clock w)
                       (latest_of (Complaint.id c) w)) + es)%nat
                 w1 Hnd')
      as (ladder & lines & messages & E2 & Hladder).
    assert (Hother : forall cid,
              cid <> Complaint.id c ->
              filter (of_complaint cid) (escalations w1)
              = filter (of_complaint cid) (escalations w)).
    { intros cid Hne. unfold w1.
      cbn [escalations sla_world with_outbox with_logger with_escalations].
      rewrite filter_app, turn_added_filter.
      destruct (String.eqb_spec (Complaint.id c) cid) as [Heq | _];
        [congruence | apply app_nil_r]. }
    exists ladder, lines, messages. split.
    + cbn [for_each]. unfold bind. rewrite E1, E2.
      unfold w1. rewrite sla_world_twice. f_equal.
      * f_equal. f_equal; [f_equal|].
        -- cbn [filter]. destruct (warning_due now thr c); simpl; lia.
        -- cbn [filter]. destruct (newly_breached now c); simpl; lia.
        -- cbn [map list_sum].
           change (clock (sla_world _ _ l1 m1 w)) with (clock w).
           rewrite (map_ext_in
                      (fun c0 =>
                         List.length
                           (ladder_rows now c0 (clock w)
                              (latest_of (Complaint.id c0) w1)))
                      (fun c0 =>
                         List.length
                           (ladder_rows now c0 (clock w)
                              (latest_of (Complaint.id c0) w)))).
           ++ unfold list_sum. cbn [fold_right]. lia.
           ++ intros c0 Hc0. unfold latest_of. rewrite Hother; [reflexivity|].
              intros Heq. apply Hnotin. rewrite <- Heq. apply in_map.
              assumption.
      * f_equal.
        cbn [complaints sla_world with_outbox with_logger with_escalations
             with_complaints].
        unfold rewrite_rows. rewrite map_map. apply map_ext. intros r.
        rewrite selected_for_cons.
        destruct (has_id (Complaint.id c) r) eqn:Hr.
        -- rewrite turn_row_id.
           unfold has_id in Hr. apply String.eqb_eq in Hr.
           rewrite Hr, String.eqb_refl.
           rewrite (selected_for_absent _ _ Hnotin). reflexivity.
        -- unfold has_id in Hr. rewrite String.eqb_sym, Hr. reflexivity.
    + intros cid. rewrite Hladder, selected_for_cons.
      destruct (String.eqb_spec (Complaint.id c) cid) as [Heq | Hne].
      * subst cid. rewrite (selected_for_absent _ _ Hnotin).
        rewrite app_nil_r. unfold w1.
        cbn [escalations sla_world with_outbox with_logger with_escalations].
        rewrite filter_app, turn_added_filter, String.eqb_refl. reflexivity.
      * rewrite Hother by congruence.
        change (clock w1) with (clock w).
        unfold latest_of. rewrite Hother by congruence. reflexivity.
Qed.

(** A complaint after a sweep at [now]: a closed, resolved or rejected
    complaint, or one without a deadline, is left alone; an open one past
    its deadline and not yet marked is marked as breached and notified and
    moved to escalated; an open one inside the warning window and not yet
    notified is marked as notified. *)
Definition swept (now : Z) (thr : Q) (c : Complaint.t) : Complaint.t :=
  if (is_open c && has_deadline c)%bool then
    if newly_breached now c then breached_row c
    else if warning_due now thr c
         then Complaint.set_sla_breach_notified true c
         else c
  else c.

Lemma breach_excludes_warning now thr c :
  newly_breached now c = true -> warning_due now thr c = false.
Proof.
  unfold newly_breached, warning_due. intros H.
  apply andb_true_iff in H. destruct H as [H _]. apply Z.ltb_lt in H.
  replace (0 <? time_left now c) with false by (symmetry; apply Z.ltb_ge; lia).
  reflexivity.
Qed.

Lemma filter_lengths_disjoint {A} (p q : A -> bool) (l : list A) :
  (forall a, p a = true -> q a = false) ->
  (List.length (filter p l) + List.length (filter q l) <= List.length l)%nat.
Proof.
  intros H. induction l as [|a l IH]; simpl; [lia|].
  destruct (p a) eqn:Hp.
  - rewrite (H a Hp). simpl. lia.
  - destruct (q a); simpl; lia.
Qed.

Lemma ladder_rows_bound now date_now (latest : string -> option Escalation.t)
    (l : list Complaint.t) :
  (list_sum
     (map (fun c =>
             List.length (ladder_rows now c date_now (latest (Complaint.id c))))
        l)
   <= List.length (filter asks_ladder l))%nat.
Proof.
  induction l as [|c l IH]; [apply Nat.le_refl|].
  cbn [map filter]. unfold list_sum in *. cbn [fold_right].
  unfold ladder_rows at 1.
  destruct (asks_ladder c); [|simpl; lia].
  destruct (latest (Complaint.id c)) as [e|]; [|simpl; lia].
  destruct (next_level _); [|simpl; lia].
  destruct (due _ _ _); simpl; lia.
Qed.

Lemma selected_for_filter (p : Complaint.t -> bool) l r :
  NoDup (map Complaint.id l) -> In r l ->
  selected_for (Complaint.id r) (filter p l) = if p r then Some r else None.
Proof.
  intros Hnd Hin. destruct (p r) eqn:Hp.
  - apply selected_for_present.
    + apply NoDup_map_filter. assumption.
    + apply filter_In. split; assumption.
  - apply selected_for_absent. intros H. apply in_map_iff in H.
    destruct H as (x & Hx & Hxin). apply filter_In in Hxin.
    destruct Hxin as [Hxin Hpx].
    assert (x = r); [|congruence].
    clear Hp Hpx. induction l as [|a l IH]; [destruct Hin|].
    inversion Hnd as [|? ? Hnotin Hnd']; subst.
    destruct Hin as [-> | Hin]; destruct Hxin as [-> | Hxin]; auto.
    + exfalso. apply Hnotin. rewrite <- Hx. apply in_map. assumption.
    + exfalso. apply Hnotin. rewrite Hx. apply in_map. assumption.
Qed.

(** A sweep over a store whose complaint ids are distinct, exactly. *)
Lemma checkSLABreaches_exact w :
  NoDup (map Complaint.id (complaints w)) ->
  let now := clock w in
  let thr := (sla_warningHoursBefore (config w) * 60 * 60 * 1000)%Q in
  let selected :=
    filter (fun c => is_open c && has_deadline c)%bool (complaints w) in
  exists ladder lines messages,
    checkSLABreaches w
    = (Ok {| checked := List.length selected;
             warnings := List.length (filter (warning_due now thr) selected);
             breaches := List.length (filter (newly_breached now) selected);
             escalations_ :=
               list_sum
                 (map (fun c =>
                         List.length
                           (ladder_rows now c now
                              (latest_of (Complaint.id c) w))) selected) |},
       sla_world (map (swept now thr) (complaints w)) ladder lines messages w)
    /\ forall cid,
         filter (of_complaint cid) ladder
         = filter (of_complaint cid) (escalations w)
           ++ match selected_for cid selected with
              | Some c => turn_added now c now (latest_of cid w)
              | None => []
              end.
Proof.
  intros Hnd now thr selected.
  destruct (for_each_turns now thr selected 0%nat 0%nat 0%nat w)
    as (ladder & lines & messages & E & Hladder).
  { apply NoDup_map_filter. assumption. }
  exists ladder,
    (lines ++ [(log_info, "SLA check completed"%string)]), messages.
  split; [|exact Hladder].
  unfold checkSLABreaches, try_catch, Date_now, log.
  unfold bind, gets, modify, ret.
  fold selected. fold now. fold thr. rewrite E.
  rewrite !Nat.add_0_r. f_equal.
  unfold sla_world.
  cbn [logger with_outbox with_logger with_escalations with_complaints
       complaints escalations outbox clock LocalTZA config
       complaint_status_logs departments critical_areas generateContent].
  unfold with_logger, with_outbox.
  cbn [logger with_outbox with_logger with_escalations with_complaints
       complaints escalations outbox clock LocalTZA config
       complaint_status_logs departments critical_areas generateContent].
  f_equal.
  apply map_ext_in. intros r Hr.
  unfold selected.
  rewrite (selected_for_filter _ _ _ Hnd Hr). unfold swept, turn_row.
  destruct (is_open r && has_deadline r)%bool; [|reflexivity].
  destruct (newly_breached now r); [reflexivity|].
  destruct (warning_due now thr r); reflexivity.
Qed.

Definition overdue_world : World :=
  with_clock (10 * JS.msPerHour)
    (with_complaints
       [Complaint.set_sla_deadline (Some 0)
          (Complaint.set_status in_progress (new_complaint "c-1" "u-1" (-1)));
        Complaint.set_sla_deadline (Some (12 * JS.msPerHour))
          (Complaint.set_status assigned (new_complaint "c-2" "u-1" (-1)));
        Complaint.set_sla_deadline (Some 0)
          (Complaint.set_status closed (new_complaint "c-3" "u-2" (-1)))]
       empty_world).

Lemma overdue_world_ids : NoDup (map Complaint.id (complaints overdue_world)).
Proof.
  cbn. repeat constructor; cbn; intros H;
    repeat (destruct H as [H | H]; [discriminate H|]); exact H.
Qed.

(** X9.  The sweep returns its counts from the rows as selected: [checked] is
    the number of open complaints with a deadline, [breaches] the number of
    those past the deadline and not yet marked, [warnings] the number of those
    inside the warning window and not yet notified.  No complaint is counted
    twice, and only complaints already marked and not in status escalated can
    count as escalations. *)
Theorem checkSLABreaches_counts :
  forall w,
    NoDup (map Complaint.id (complaints w)) ->
    let now := clock w in
    let thr := (sla_warningHoursBefore (config w) * 60 * 60 * 1000)%Q in
    let selected :=
      filter (fun c => is_open c && has_deadline c)%bool (complaints w) in
    exists result,
      fst (checkSLABreaches w) = Ok result
      /\ checked result = List.length selected
      /\ breaches result = List.length (filter (newly_breached now) selected)
      /\ warnings result = List.length (filter (warning_due now thr) selected)
      /\ (breaches result + warnings result <= checked result)%nat
      /\ (escalations_ result
          <= List.length (filter asks_ladder selected))%nat.
Proof.
  intros w Hnd now thr selected.
  destruct (checkSLABreaches_exact w Hnd)
    as (ladder & lines & messages & E & _).
  fold now thr selected in E. rewrite E.
  eexists. split; [reflexivity|]. cbn [checked breaches warnings escalations_].
  repeat split.
  - apply filter_lengths_disjoint. intros c. apply breach_excludes_warning.
  - apply (ladder_rows_bound now now (fun cid => latest_of cid w)).
Qed.

Lemma checkSLABreaches_counts_witness :
  exists result,
    fst (checkSLABreaches overdue_world) = Ok result
    /\ checked result = 2%nat
    /\ breaches result = 1%nat
    /\ warnings result = 1%nat.
Proof.
  destruct (checkSLABreaches_counts overdue_world overdue_world_ids)
    as (result & E & Hc & Hb & Hw & _).
  exists result. split; [exact E|].
  rewrite Hc, Hb, Hw. vm_compute. repeat split.
Defined.



(** ** A second sweep at the same instant *)

Lemma check_complaint_settled now thr c counters w :
  newly_breached now c = false ->
  warning_due now thr c = false ->
  ladder_rows now c (clock w) (latest_of (Complaint.id c) w) = [] ->
  check_complaint now thr c counters w = (Ok counters, w).
Proof.
  intros H1 H2 H3. destruct counters as [[wa br] es].
  unfold check_complaint. cbv zeta.
  fold (time_left now c). fold (newly_breached now c).
  fold (warning_due now thr c). fold (asks_ladder c).
  rewrite H1, H2. unfold bind, ret.
  unfold ladder_rows in H3.
  destruct (asks_ladder c); [|reflexivity].
  pose proof (checkEscalation_run (Complaint.id c)
                (inject_Z (JS.Math_abs (time_left now c))
                 / inject_Z JS.msPerHour)%Q w) as R.
  destruct (latest_of (Complaint.id c) w) as [latest|];
    [|rewrite R; reflexivity].
  destruct (next_level (Escalation.escalation_level latest));
    [|rewrite R; reflexivity].
  destruct (due latest _ (clock w)); [discriminate H3|].
  rewrite R. reflexivity.
Qed.

Lemma for_each_settled now thr selected counters w :
  (forall c, In c selected ->
     newly_breached now c = false
     /\ warning_due now thr c = false
     /\ ladder_rows now c (clock w) (latest_of (Complaint.id c) w) = []) ->
  for_each now thr selected counters w = (Ok counters, w).
Proof.
  induction selected as [|c rest IH]; intros H; [reflexivity|].
  cbn [for_each]. unfold bind.
  destruct (H c (or_introl eq_refl)) as (H1 & H2 & H3).
  rewrite (check_complaint_settled now thr c counters w H1 H2 H3).
  apply IH. intros c' Hc'. apply H. right. assumption.
Qed.

Lemma swept_id now thr c : Complaint.id (swept now thr c) = Complaint.id c.
Proof.
  unfold swept. destruct (is_open c && has_deadline c)%bool; [|reflexivity].
  destruct (newly_breached now c); [reflexivity|].
  destruct (warning_due now thr c); reflexivity.
Qed.

Lemma swept_time_left now thr c :
  time_left now (swept now thr c) = time_left now c.
Proof.
  unfold swept. destruct (is_open c && has_deadline c)%bool; [|reflexivity].
  destruct (newly_breached now c); [reflexivity|].
  destruct (warning_due now thr c); reflexivity.
Qed.

Lemma swept_selected now thr c :
  (is_open (swept now thr c) && has_deadline (swept now thr c))%bool
  = (is_open c && has_deadline c)%bool.
Proof.
  unfold swept. destruct (is_open c && has_deadline c)%bool eqn:Hp;
    [|assumption].
  destruct (newly_breached now c).
  - apply andb_true_iff in Hp. destruct Hp as [_ Hp].
    unfold is_open, has_deadline, breached_row in *. simpl. assumption.
  - destruct (warning_due now thr c); assumption.
Qed.

Lemma swept_not_newly_breached now thr c :
  (is_open c && has_deadline c)%bool = true ->
  newly_breached now (swept now thr c) = false.
Proof.
  intros Hp. unfold swept. rewrite Hp.
  destruct (newly_breached now c) eqn:Hb.
  - unfold newly_breached, breached_row. simpl. apply andb_false_r.
  - destruct (warning_due now thr c); assumption.
Qed.

Lemma swept_no_warning_due now thr c :
  (is_open c && has_deadline c)%bool = true ->
  warning_due now thr (swept now thr c) = false.
Proof.
  intros Hp. unfold swept. rewrite Hp.
  destruct (newly_breached now c) eqn:Hb.
  - pose proof (breach_excludes_warning now thr c Hb) as Hw.
    unfold warning_due in *.
    change (time_left now (breached_row c)) with (time_left now c).
    destruct (0 <? time_left now c); [|reflexivity].
    destruct (JS.lt (inject_Z (time_left now c)) thr); [|reflexivity].
    simpl. reflexivity.
  - destruct (warning_due now thr c) eqn:Hw; [|assumption].
    unfold warning_due. simpl. apply andb_false_r.
Qed.

(** Once the ladder has answered for a complaint, it adds nothing when asked
    again at the same clock reading. *)
Lemma ladder_settles now c date_now (rows : list Escalation.t) :
  ladder_rows now c date_now
    (most_recent (rows ++ ladder_rows now c date_now (most_recent rows)))
  = [].
Proof.
  unfold ladder_rows. destruct (asks_ladder c); [|reflexivity].
  destruct (most_recent rows) as [l|] eqn:Hl;
    [|rewrite app_nil_r, Hl; reflexivity].
  destruct (next_level (Escalation.escalation_level l)) as [next|] eqn:Hn;
    [|rewrite app_nil_r, Hl, Hn; reflexivity].
  destruct (due l _ date_now) eqn:Hd;
    [|rewrite app_nil_r, Hl, Hn, Hd; reflexivity].
  rewrite most_recent_snoc, Hl.
  apply due_not_in_future in Hd. apply Z.leb_le in Hd.
  change (Escalation.created_at (escalation_row _ _ _ date_now))
    with date_now.
  rewrite Hd.
  change (Escalation.escalation_level
            (escalation_row (Complaint.id c) next
               (Some (Escalation.escalation_level l)) date_now))
    with next.
  destruct (next_level next); [|reflexivity].
  unfold due.
  change (Escalation.created_at (escalation_row _ _ _ date_now))
    with date_now.
  rewrite hours_since_at_least_12, Z.sub_diag.
  change (12 * JS.msPerHour <=? 0) with false.
  rewrite andb_false_r. reflexivity.
Qed.

Lemma ladder_rows_same_tests now c c' date_now latest :
  asks_ladder c' = asks_ladder c ->
  time_left now c' = time_left now c ->
  Complaint.id c' = Complaint.id c ->
  ladder_rows now c' date_now latest = ladder_rows now c date_now latest.
Proof. intros Ha Ht Hi. unfold ladder_rows. rewrite Ha, Ht, Hi. reflexivity. Qed.

Lemma filter_map_swept now thr rows :
  filter (fun c => is_open c && has_deadline c)%bool
    (map (swept now thr) rows)
  = map (swept now thr)
      (filter (fun c => is_open c && has_deadline c)%bool rows).
Proof.
  induction rows as [|c rows IH]; [reflexivity|].
  cbn [map filter]. rewrite swept_selected, IH.
  destruct (is_open c && has_deadline c)%bool; reflexivity.
Qed.

(** X11.  A sweep run again at the same clock reading finds the same complaints
    to check and nothing to do: it counts no breach, no warning and no
    escalation, hands nothing to the notifier and leaves every table as the
    first sweep left it. *)
Theorem second_sweep_changes_nothing :
  forall w,
    NoDup (map Complaint.id (complaints w)) ->
    let first := checkSLABreaches w in
    exists result,
      fst first = Ok result
      /\ checkSLABreaches (snd first)
         = (Ok {| checked := checked result; warnings := 0; breaches := 0;
                  escalations_ := 0 |},
            with_logger
              (logger (snd first) ++ [(log_info, "SLA check completed"%string)])
              (snd first)).
Proof.
  intros w Hnd first.
  destruct (checkSLABreaches_exact w Hnd)
    as (ladder & lines & messages & E & Hladder).
  set (now := clock w) in *.
  set (thr := (sla_warningHoursBefore (config w) * 60 * 60 * 1000)%Q) in *.
  set (selected := filter (fun c => is_open c && has_deadline c)%bool
                     (complaints w)) in *.
  subst first. rewrite E. eexists. split; [reflexivity|].
  cbn [fst snd checked].
  set (w1 := sla_world (map (swept now thr) (complaints w)) ladder lines
               messages w).
  unfold checkSLABreaches, try_catch, Date_now, log.
  unfold bind, gets, modify, ret.
  change (clock w1) with now.
  change (sla_warningHoursBefore (config w1) * 60 * 60 * 1000)%Q with thr.
  change (complaints w1) with (map (swept now thr) (complaints w)).
  rewrite filter_map_swept. fold selected.
  rewrite (for_each_settled now thr (map (swept now thr) selected)
             (0, 0, 0)%nat w1).
  - rewrite length_map. reflexivity.
  - intros c1 Hc1. apply in_map_iff in Hc1. destruct Hc1 as (c & <- & Hc).
    unfold selected in Hc. apply filter_In in Hc. destruct Hc as [Hin Hp].
    split; [apply swept_not_newly_breached; assumption|].
    split; [apply swept_no_warning_due; assumption|].
    change (clock w1) with now. unfold latest_of.
    change (escalations w1) with ladder.
    rewrite swept_id, Hladder.
    unfold selected. rewrite (selected_for_filter _ _ _ Hnd Hin), Hp.
    fold (latest_of (Complaint.id c) w).
    unfold swept. rewrite Hp. unfold turn_added.
    destruct (newly_breached now c) eqn:Hb.
    + unfold ladder_rows.
      change (asks_ladder (breached_row c)) with false. reflexivity.
    + assert (Hsame : forall c',
                asks_ladder c' = asks_ladder c ->
                time_left now c' = time_left now c ->
                Complaint.id c' = Complaint.id c ->
                ladder_rows now c' now
                  (most_recent
                     (filter (of_complaint (Complaint.id c)) (escalations w)
                      ++ ladder_rows now c now (latest_of (Complaint.id c) w)))
                = []).
      { intros c' Ha Ht Hi.
        rewrite (ladder_rows_same_tests now c c' _ _ Ha Ht Hi).
        apply ladder_settles. }
      destruct (warning_due now thr c); apply Hsame; reflexivity.
Qed.

Lemma second_sweep_changes_nothing_witness :
  fst (checkSLABreaches (snd (checkSLABreaches overdue_world)))
  = Ok {| checked := 2; warnings := 0; breaches := 0; escalations_ := 0 |}.
Proof.
  destruct (second_sweep_changes_nothing overdue_world overdue_world_ids)
    as (result & E & ->).
  cbn [fst]. f_equal.
  assert (H : Ok result
              = Ok {| checked := 2; warnings := 1; breaches := 1;
                      escalations_ := 0 |})
    by (rewrite <- E; vm_compute; reflexivity).
  injection H as ->. reflexivity.
Defined.

(** ** The escalation level helper *)

Lemma JS_lt_spec a b : JS.lt a b = true <-> (a < b)%Q.
Proof.
  unfold JS.lt. rewrite negb_true_iff. split.
  - intros H. apply Qnot_le_lt. intros Hle.
    apply Qle_bool_iff in Hle. congruence.
  - intros H. destruct (Qle_bool b a) eqn:E; [|reflexivity].
    apply Qle_bool_iff in E. exfalso. exact (Qlt_not_le _ _ H E).
Qed.

Lemma JS_lt_false a b : JS.lt a b = false <-> (b <= a)%Q.
Proof.
  unfold JS.lt. rewrite negb_false_iff. apply Qle_bool_iff.
Qed.



(** ** Sanitising input *)

Definition angle_bracket (c : ascii) : bool :=
  (Ascii.eqb c "<" || Ascii.eqb c ">")%bool.

(** The text holds no angle bracket. *)
Definition plain (s : string) : Prop :=
  Forall (fun c => angle_bracket c = false) (list_ascii_of_string s).

Lemma chars_reverse s acc :
  list_ascii_of_string (Str.reverse s acc)
  = rev (list_ascii_of_string s) ++ list_ascii_of_string acc.
Proof.
  revert acc. induction s as [|c s IH]; intros acc; [reflexivity|].
  cbn [Str.reverse list_ascii_of_string rev]. rewrite IH.
  cbn [list_ascii_of_string]. rewrite <- app_assoc. reflexivity.
Qed.

Lemma plain_reverse s : plain s -> plain (Str.reverse s EmptyString).
Proof.
  unfold plain. rewrite chars_reverse, app_nil_r. apply Forall_rev.
Qed.

Lemma plain_trimStart s : plain s -> plain (Str.trimStart s).
Proof.
  unfold plain. induction s as [|c s IH]; intros H; [exact H|].
  cbn [Str.trimStart]. destruct (Str.isWhiteSpace c); [|exact H].
  apply IH. inversion H. assumption.
Qed.

Lemma plain_trim s : plain s -> plain (Str.trim s).
Proof.
  intros H. unfold Str.trim.
  apply plain_reverse, plain_trimStart, plain_reverse, plain_trimStart, H.
Qed.

Lemma length_reverse s acc :
  String.length (Str.reverse s acc) = (String.length s + String.length acc)%nat.
Proof.
  revert acc. induction s as [|c s IH]; intros acc; [reflexivity|].
  cbn [Str.reverse String.length]. rewrite IH. cbn [String.length]. lia.
Qed.

Lemma length_trimStart s :
  (String.length (Str.trimStart s) <= String.length s)%nat.
Proof.
  induction s as [|c s IH]; [apply Nat.le_refl|].
  cbn [Str.trimStart]. destruct (Str.isWhiteSpace c); cbn [String.length]; lia.
Qed.

Lemma length_trim s : (String.length (Str.trim s) <= String.length s)%nat.
Proof.
  unfold Str.trim. rewrite length_reverse. cbn [String.length].
  pose proof (length_trimStart (Str.reverse (Str.trimStart s) EmptyString)) as H1.
  rewrite length_reverse in H1. cbn [String.length] in H1.
  pose proof (length_trimStart s). lia.
Qed.

Lemma length_removeTags s :
  forall held,
    (String.length (removeTags held s)
     <= String.length s
        + match held with
          | Some h => String.length h
          | None => 0
          end)%nat.
Proof.
  induction s as [|c s IH]; intros [h|]; cbn [removeTags String.length].
  - rewrite length_reverse. cbn [String.length]. lia.
  - lia.
  - destruct (Ascii.eqb c ">").
    + specialize (IH None). cbn beta iota in IH. lia.
    + specialize (IH (Some (String c h))). cbn [String.length] in IH. lia.
  - destruct (Ascii.eqb c "<").
    + specialize (IH (Some (String c EmptyString))).
      cbn [String.length] in IH. lia.
    + specialize (IH None). cbn beta iota in IH. cbn [String.length]. lia.
Qed.

Lemma length_removeAngleBrackets s :
  (String.length (removeAngleBrackets s) <= String.length s)%nat.
Proof.
  induction s as [|c s IH]; [apply Nat.le_refl|].
  cbn [removeAngleBrackets].
  destruct (Ascii.eqb c "<" || Ascii.eqb c ">")%bool; cbn [String.length]; lia.
Qed.

Lemma plain_removeAngleBrackets s : plain (removeAngleBrackets s).
Proof.
  unfold plain. induction s as [|c s IH]; [constructor|].
  cbn [removeAngleBrackets].
  destruct (Ascii.eqb c "<" || Ascii.eqb c ">")%bool eqn:E; [exact IH|].
  cbn [list_ascii_of_string]. constructor; assumption.
Qed.

Lemma removeAngleBrackets_plain s : plain s -> removeAngleBrackets s = s.
Proof.
  unfold plain. induction s as [|c s IH]; intros H; [reflexivity|].
  cbn [list_ascii_of_string] in H. inversion H as [|? ? Hc Hs]; subst.
  cbn [removeAngleBrackets]. unfold angle_bracket in Hc. rewrite Hc.
  rewrite (IH Hs). reflexivity.
Qed.

Lemma removeTags_plain s : plain s -> removeTags None s = s.
Proof.
  unfold plain. induction s as [|c s IH]; intros H; [reflexivity|].
  cbn [list_ascii_of_string] in H. inversion H as [|? ? Hc Hs]; subst.
  cbn [removeTags]. unfold angle_bracket in Hc.
  apply orb_false_iff in Hc. destruct Hc as [Hc _]. rewrite Hc.
  rewrite (IH Hs). reflexivity.
Qed.

(** X13.  [sanitizeInput] returns a text without angle brackets and no longer
    than its input; a text that holds no angle bracket is only trimmed. *)
Theorem sanitizeInput_strips_angle_brackets :
  forall input,
    plain (sanitizeInput input)
    /\ (String.length (sanitizeInput input) <= String.length input)%nat
    /\ (plain input -> sanitizeInput input = Str.trim input).
Proof.
  intros input. unfold sanitizeInput. split; [|split].
  - apply plain_removeAngleBrackets.
  - pose proof (length_removeAngleBrackets
                  (removeTags None (Str.trim input))).
    pose proof (length_removeTags (Str.trim input) None) as H2.
    cbn beta iota in H2.
    pose proof (length_trim input). lia.
  - intros H. apply plain_trim in H.
    rewrite (removeTags_plain _ H). apply removeAngleBrackets_plain, H.
Qed.

Lemma sanitizeInput_strips_angle_brackets_witness :
  sanitizeInput "  Leaking pipe at 5th street " = "Leaking pipe at 5th street"%string
  /\ sanitizeInput "<b>Leak</b> at <5th street" = "Leak at 5th street"%string.
Proof.
  split.
  - rewrite (proj2 (proj2 (sanitizeInput_strips_angle_brackets
                             "  Leaking pipe at 5th street "))).
    + reflexivity.
    + unfold plain. cbn. repeat constructor.
  - vm_compute. reflexivity.
Defined.

(** ** Hours in the SLA messages *)

Lemma Math_round_tenths (diff : Z) :
  JS.Math_round (inject_Z diff / inject_Z (1000 * 60 * 60) * 10)%Q
  = (diff + 180000) / 360000.
Proof.
  unfold JS.Math_round, Qfloor, Qdiv, Qmult, Qinv, Qplus, inject_Z. simpl.
  replace (diff * 1 * 10 * 2 + 3600000) with (20 * (diff + 180000)) by lia.
  change 7200000 with (20 * 360000).
  apply Z.div_mul_cancel_l; lia.
Qed.

Lemma Math_max_tenths (k : Z) :
  Math_max 0 (inject_Z k / 10)
  = if 0 <=? k then (inject_Z k / 10)%Q else 0%Q.
Proof.
  unfold Math_max, Qle_bool, Qdiv, Qmult, Qinv, inject_Z. simpl.
  rewrite !Z.mul_1_r. reflexivity.
Qed.

Lemma tenths_positive (k : Z) :
  (0 < (if 0 <=? k then inject_Z k / 10 else 0))%Q <-> 0 < k.
Proof.
  destruct (Z.leb_spec 0 k) as [H | H].
  - unfold Qlt, Qdiv, Qmult, Qinv, inject_Z. simpl. lia.
  - split; [intros H0; discriminate H0 | lia].
Qed.

Lemma tenths_zero (k : Z) :
  k <= 0 -> ((if 0 <=? k then inject_Z k / 10 else 0) == 0)%Q.
Proof.
  intros H. destruct (Z.leb_spec 0 k) as [H0 | H0]; [|reflexivity].
  assert (k = 0) as -> by lia. reflexivity.
Qed.

Lemma tenths_nonnegative (k : Z) :
  (0 <= (if 0 <=? k then inject_Z k / 10 else 0))%Q.
Proof.
  destruct (Z.leb_spec 0 k) as [H | H]; [|apply Qle_refl].
  unfold Qle, Qdiv, Qmult, Qinv, inject_Z. simpl. lia.
Qed.

Lemma tenths_whole (k : Z) :
  exists n,
    0 <= n /\ ((if 0 <=? k then inject_Z k / 10 else 0) == inject_Z n / 10)%Q.
Proof.
  destruct (Z.leb_spec 0 k) as [H | H].
  - exists k. split; [assumption | reflexivity].
  - exists 0. split; [lia | reflexivity].
Qed.

Lemma round_tenths_positive (diff : Z) :
  0 < (diff + 180000) / 360000 <-> 180000 <= diff.
Proof.
  split; intros H.
  - pose proof (Z.mul_div_le (diff + 180000) 360000 ltac:(lia)). lia.
  - apply (Z.lt_le_trans _ 1); [lia|].
    apply Z.div_le_lower_bound; lia.
Qed.

(** X14.  The hours sent with an SLA warning and with an SLA breach: a number of
    tenths that is never negative, and 0 without a deadline.  Hours remain from
    three minutes before the deadline backwards, hours are overdue from three
    minutes after it; so at most one of the two is positive, and both are 0
    within three minutes of the deadline. *)
Theorem hours_remaining_and_overdue :
  forall deadline w,
    exists remaining overdue,
      calculateHoursRemaining deadline w = (Ok remaining, w)
      /\ calculateHoursOverdue deadline w = (Ok overdue, w)
      /\ (0 <= remaining)%Q /\ (0 <= overdue)%Q
      /\ (remaining == 0 \/ overdue == 0)%Q
      /\ (exists n, 0 <= n /\ (remaining == inject_Z n / 10)%Q)
      /\ (exists n, 0 <= n /\ (overdue == inject_Z n / 10)%Q)
      /\ match deadline with
         | None => (remaining == 0)%Q /\ (overdue == 0)%Q
         | Some d =>
             ((0 < remaining)%Q <-> 180000 <= d - clock w)
             /\ ((0 < overdue)%Q <-> 180000 <= clock w - d)
         end.
Proof.
  intros [d|] w.
  - unfold calculateHoursRemaining, calculateHoursOverdue, Date_now, bind,
      gets, ret.
    rewrite !Math_round_tenths, !Math_max_tenths.
    do 2 eexists. split; [reflexivity|]. split; [reflexivity|].
    split; [apply tenths_nonnegative|]. split; [apply tenths_nonnegative|].
    split; [|split; [|split]].
    + destruct (Z.le_gt_cases ((d - clock w + 180000) / 360000) 0) as [H | H].
      * left. apply tenths_zero. assumption.
      * right. apply tenths_zero. apply round_tenths_positive in H.
        destruct (Z.le_gt_cases ((clock w - d + 180000) / 360000) 0)
          as [H' | H']; [assumption|].
        apply round_tenths_positive in H'. lia.
    + apply tenths_whole.
    + apply tenths_whole.
    + rewrite !tenths_positive, !round_tenths_positive. split; reflexivity.
  - exists 0%Q, 0%Q. repeat split; try reflexivity; try discriminate.
    + left. reflexivity.
    + exists 0. split; [lia | reflexivity].
    + exists 0. split; [lia | reflexivity].
Qed.

(** ** SLA statistics *)

(** The complaints that the statistics count: those that have left
    submitted and pending_review, of the department if one is given. *)
Definition counted (departmentId : option string) (c : Complaint.t) : bool :=
  negb (ComplaintStatus_eqb (Complaint.status c) submitted
        || ComplaintStatus_eqb (Complaint.status c) pending_review)
  && match Str.truthy departmentId with
     | Some d =>
         match Complaint.department_id c with
         | Some d' => String.eqb d' d
         | None => false
         end
     | None => true
     end.

Lemma filter_length_le {A} (p : A -> bool) (l : list A) :
  (List.length (filter p l) <= List.length l)%nat.
Proof.
  induction l as [|a l IH]; simpl; [lia|]. destruct (p a); simpl; lia.
Qed.

Lemma percentage_range (part total : nat) :
  (0 < total)%nat -> (part <= total)%nat ->
  let rate :=
    (inject_Z (Z.of_nat part) / inject_Z (Z.of_nat total) * 100)%Q in
  (0 <= rate)%Q /\ (rate <= 100)%Q
  /\ (rate * inject_Z (Z.of_nat total) == inject_Z (Z.of_nat part) * 100)%Q.
Proof.
  intros Ht Hp rate.
  assert (HT : (0 < inject_Z (Z.of_nat total))%Q).
  { change 0%Q with (inject_Z 0). rewrite <- Zlt_Qlt. lia. }
  assert (HP : (0 <= inject_Z (Z.of_nat part))%Q).
  { change 0%Q with (inject_Z 0). rewrite <- Zle_Qle. lia. }
  assert (HPT : (inject_Z (Z.of_nat part) <= inject_Z (Z.of_nat total))%Q).
  { rewrite <- Zle_Qle. lia. }
  set (T := inject_Z (Z.of_nat total)) in *.
  set (P := inject_Z (Z.of_nat part)) in *.
  assert (Hx0 : (0 <= P / T)%Q).
  { apply Qle_shift_div_l; [assumption|]. lra. }
  assert (Hx1 : (P / T <= 1)%Q).
  { apply Qle_shift_div_r; [assumption|]. lra. }
  assert (Hx : (P / T * T == P)%Q).
  { rewrite Qmult_comm. apply Qmult_div_r. lra. }
  unfold rate. split; [lra|]. split; [lra|].
  rewrite <- Hx at 2. ring.
Qed.



(** ** Reading a complaint for a user *)

Lemma getComplaintById_as_run complaintId userId userRole departmentId w :
  getComplaintById_as complaintId userId userRole departmentId w
  = match single
            (filter (fun c =>
                       has_id complaintId c
                       && role_filter userId userRole departmentId c)%bool
               (complaints w)) with
    | Some data => (Ok data, w)
    | None => (Throw (NotFoundError "Complaint" complaintId), w)
    end.
Proof.
  unfold getComplaintById_as, bind, gets, ret, throw.
  destruct (single _); reflexivity.
Qed.

(** X16.  [getComplaintById] with its role arguments only reads, and fails only
    with NotFoundError for the id asked.  What it returns is stored under that
    id; for a citizen with a user id it is a complaint of that user, for a
    department user with a department id a complaint of that department, so a
    complaint of somebody else is reported as not found.  Without such a pair
    the call is the unfiltered one: this includes the roles citizen and
    department when the accompanying id is missing or empty. *)
Theorem getComplaintById_role_filter :
  forall complaintId userId userRole departmentId w,
    let run := getComplaintById_as complaintId userId userRole departmentId w in
    snd run = w
    /\ (forall e, fst run = Throw e -> e = NotFoundError "Complaint" complaintId)
    /\ (forall c,
          fst run = Ok c ->
          In c (complaints w)
          /\ Complaint.id c = complaintId
          /\ (forall u,
                userRole = Some "citizen"%string ->
                Str.truthy userId = Some u ->
                Complaint.user_id c = u)
          /\ (forall d,
                userRole = Some "department"%string ->
                Str.truthy departmentId = Some d ->
                Complaint.department_id c = Some d))
    /\ ((userRole <> Some "citizen"%string \/ Str.truthy userId = None) ->
        (userRole <> Some "department"%string
         \/ Str.truthy departmentId = None) ->
        run = getComplaintById complaintId w).
Proof.
  intros complaintId userId userRole departmentId w run. subst run.
  rewrite getComplaintById_as_run.
  set (visible := role_filter userId userRole departmentId).
  set (rows := filter (fun c => has_id complaintId c && visible c)%bool
                 (complaints w)).
  split; [|split; [|split]].
  - destruct (single rows); reflexivity.
  - intros e. destruct (single rows); intros H; inversion H. reflexivity.
  - intros c. destruct (single rows) as [c'|] eqn:Hs; intros H; inversion H.
    subst c'. apply single_inv in Hs.
    assert (Hin : In c rows) by (rewrite Hs; left; reflexivity).
    unfold rows in Hin. apply filter_In in Hin. destruct Hin as [Hin Hc].
    apply andb_true_iff in Hc. destruct Hc as [Hid Hv].
    split; [assumption|]. split; [apply String.eqb_eq; exact Hid|].
    unfold visible, role_filter in Hv. split.
    + intros u -> Hu. rewrite Hu in Hv. cbn in Hv.
      apply String.eqb_eq. exact Hv.
    + intros d -> Hd. rewrite Hd in Hv. cbn in Hv.
      destruct (Complaint.department_id c) as [d'|]; [|discriminate Hv].
      apply String.eqb_eq in Hv. congruence.
  - intros Hc Hd.
    assert (Hall : forall c, visible c = true).
    { intros c. unfold visible, role_filter.
      assert (C : match userRole with
                  | Some r => String.eqb r "citizen"
                  | None => false
                  end = false \/ Str.truthy userId = None).
      { destruct Hc as [Hc | Hc]; [left | right; assumption].
        destruct userRole as [r|]; [|reflexivity].
        apply String.eqb_neq. congruence. }
      assert (D : match userRole with
                  | Some r => String.eqb r "department"
                  | None => false
                  end = false \/ Str.truthy departmentId = None).
      { destruct Hd as [Hd | Hd]; [left | right; assumption].
        destruct userRole as [r|]; [|reflexivity].
        apply String.eqb_neq. congruence. }
      destruct C as [C | C], D as [D | D]; rewrite C, ?D;
        repeat match goal with
               | |- context [match ?x with _ => _ end] => destruct x
               end; reflexivity. }
    unfold getComplaintById, select_complaints, bind, gets, ret, throw.
    unfold rows.
    rewrite (filter_ext _ (has_id complaintId));
      [destruct (single _); reflexivity|].
    intros c. rewrite Hall. apply andb_true_r.
Qed.

Lemma getComplaintById_role_filter_witness :
  In (new_complaint "c-1" "u-1" 0) (complaints submitted_world)
  /\ fst (getComplaintById_as "c-1" (Some "u-2"%string)
            (Some "citizen"%string) None submitted_world)
     = Throw (NotFoundError "Complaint" "c-1").
Proof.
  split.
  - apply (proj1 (proj2 (proj2 (getComplaintById_role_filter
                                  "c-1" (Some "u-1"%string)
                                  (Some "citizen"%string) None
                                  submitted_world)))
             (new_complaint "c-1" "u-1" 0)).
    vm_compute. reflexivity.
  - vm_compute. reflexivity.
Defined.

(** ** The SLA deadline in the service and in the database *)

Lemma ToIntegerOrInfinity_nonneg (q : Q) :
  (0 <= q)%Q -> JS.ToIntegerOrInfinity q = Qfloor q.
Proof.
  destruct q as [n d]. unfold Qle, JS.ToIntegerOrInfinity, Qfloor. simpl.
  intros H. apply Z.quot_div_nonneg; lia.
Qed.

Lemma Qfloor_plus_Z (n : Z) (q : Q) :
  Qfloor (inject_Z n + q) = n + Qfloor q.
Proof.
  destruct q as [a b]. unfold Qfloor, Qplus, inject_Z. simpl.
  rewrite Z.mul_1_r. apply Z.div_add_l. lia.
Qed.

(** Moving the hour of a date forward by a number of hours moves the date by
    the whole hours in that number. *)
Lemma setHours_forward (tza d : Z) (q : Q) :
  (0 <= q)%Q ->
  JS.setHours tza d (inject_Z (JS.getHours tza d) + q)%Q
  = d + Qfloor q * JS.msPerHour.
Proof.
  intros Hq. unfold JS.setHours, JS.getHours, JS.MakeTime.
  assert (Hh : 0 <= JS.HourFromTime (JS.LocalTime tza d)).
  { unfold JS.HourFromTime. apply Z.mod_pos_bound. lia. }
  rewrite ToIntegerOrInfinity_nonneg.
  - rewrite Qfloor_plus_Z.
    pose proof (time_value_parts (JS.LocalTime tza d)) as Hp.
    unfold JS.MakeDate in *. unfold JS.UTC, JS.LocalTime in *. lia.
  - assert (H0 : (0 <= inject_Z (JS.HourFromTime (JS.LocalTime tza d)))%Q).
    { change 0%Q with (inject_Z 0). rewrite <- Zle_Qle. assumption. }
    lra.
Qed.

(** The urgency multiplier in quarters. *)
Definition quarters (u : UrgencyLevel) : Z :=
  match u with
  | critical => 1
  | high => 2
  | normal => 4
  end.

Lemma Qfloor_sla_hours (h : Z) (u : UrgencyLevel) :
  Qfloor (inject_Z h * urgencyMultipliers u) = h * quarters u / 4.
Proof.
  destruct u; unfold Qfloor, Qmult, inject_Z, urgencyMultipliers, quarters;
    simpl; rewrite ?Z.mul_1_r.
  - rewrite Z.div_1_r, Z.div_mul by lia. reflexivity.
  - change 4 with (2 * 2). rewrite Z.div_mul_cancel_r by lia. reflexivity.
  - reflexivity.
Qed.

Lemma Qfloor_sla_interval (h : Z) (u : UrgencyLevel) :
  Qfloor (inject_Z h * urgencyMultipliers u * inject_Z JS.msPerHour)
  = h * quarters u * 900000.
Proof.
  destruct u; unfold Qfloor, Qmult, inject_Z, urgencyMultipliers, quarters,
    JS.msPerHour; simpl; rewrite ?Z.mul_1_r.
  - rewrite Z.div_1_r. lia.
  - replace (h * 3600000) with (h * 2 * 900000 * 2) by lia.
    apply Z.div_mul. lia.
  - replace (h * 3600000) with (h * 900000 * 4) by lia.
    apply Z.div_mul. lia.
Qed.



(** ** The status route *)

(** The moves that a request to the status route can make. *)
Inductive route_edge : ComplaintStatus -> ComplaintStatus -> Prop :=
| route_assigned_to_in_progress : route_edge assigned in_progress
| route_escalated_to_in_progress : route_edge escalated in_progress
| route_in_progress_to_resolved : route_edge in_progress resolved
| route_escalated_to_resolved : route_edge escalated resolved
| route_resolved_to_closed : route_edge resolved closed.

Lemma route_edge_iff from to :
  route_edge from to
  <-> includes (validTransitions from) to = true
      /\ (to = in_progress \/ to = resolved \/ to = closed).
Proof.
  split.
  - intros H. destruct H; split; try reflexivity; tauto.
  - intros [H [-> | [-> | ->]]]; destruct from; try discriminate H;
      constructor.
Qed.

Lemma updateComplaintStatusSchema_statuses body target notes rtype :
  updateComplaintStatusSchema body = Some (target, notes, rtype) ->
  (target = in_progress \/ target = resolved \/ target = closed)
  /\ notes = StatusBody.notes body
  /\ rtype = StatusBody.resolution_type body.
Proof.
  unfold updateComplaintStatusSchema.
  destruct (StatusBody.status body) as [s|]; [|discriminate].
  destruct (String.eqb s "in_progress");
    [|destruct (String.eqb s "resolved");
      [|destruct (String.eqb s "closed"); [|discriminate]]];
    (match goal with
     | |- context [if ?b then _ else _] => destruct b; [|discriminate]
     end);
    intros H; injection H as <- <- <-; tauto.
Qed.



(** ** Order of priority scores *)

Definition urgency_rank (u : UrgencyLevel) : nat :=
  match u with
  | normal => 0
  | high => 1
  | critical => 2
  end.

Lemma hours_over_week (age : Z) :
  (inject_Z age / inject_Z JS.msPerHour / 168
   == inject_Z age * (1 # 604800000))%Q.
Proof.
  unfold Qeq, Qdiv, Qmult, Qinv, inject_Z, JS.msPerHour. simpl. lia.
Qed.

Lemma time_value_monotone (age age' : Z) :
  age <= age' ->
  (JS.Math_min (inject_Z age / inject_Z JS.msPerHour / 168) 1
   <= JS.Math_min (inject_Z age' / inject_Z JS.msPerHour / 168) 1)%Q.
Proof.
  intros H. rewrite !Math_min_Qmin, !hours_over_week.
  apply Q.min_le_compat_r.
  assert (inject_Z age <= inject_Z age')%Q by (rewrite <- Zle_Qle; assumption).
  lra.
Qed.

Lemma time_value_saturates (age : Z) :
  168 * JS.msPerHour <= age ->
  (JS.Math_min (inject_Z age / inject_Z JS.msPerHour / 168) 1 == 1)%Q.
Proof.
  intros H. rewrite Math_min_Qmin, hours_over_week.
  apply Q.min_r.
  assert (inject_Z (168 * JS.msPerHour) <= inject_Z age)%Q
    by (rewrite <- Zle_Qle; assumption).
  change (inject_Z (168 * JS.msPerHour)) with 604800000%Q in *.
  lra.
Qed.

Lemma Math_round_monotone (x y : Q) :
  (x <= y)%Q ->
  (inject_Z (JS.Math_round (x * 100)) / 100
   <= inject_Z (JS.Math_round (y * 100)) / 100)%Q.
Proof.
  intros H. unfold JS.Math_round.
  assert (Hk : Qfloor (x * 100 + (1 # 2)) <= Qfloor (y * 100 + (1 # 2)))
    by (apply Qfloor_resp_le; lra).
  revert Hk.
  generalize (Qfloor (x * 100 + (1 # 2))), (Qfloor (y * 100 + (1 # 2))).
  intros a b Hab. unfold Qle, Qdiv, Qmult, Qinv, inject_Z. simpl. lia.
Qed.

(** X19.  With weights that are not negative, the priority score orders
    complaints as one expects: a complaint that is at least as urgent, at least
    as old and in a critical area if the other is, scores at least as much.
    After a week of age the score no longer grows. *)
Theorem priority_score_order :
  forall w w' u u' createdAt createdAt' (flag flag' : bool) wts,
    (0 <= w_urgency wts)%Q -> (0 <= w_time wts)%Q ->
    (0 <= w_location wts)%Q ->
    let score := fst (calculatePriorityScore u createdAt flag wts w) in
    let score' := fst (calculatePriorityScore u' createdAt' flag' wts w') in
    ((urgency_rank u <= urgency_rank u')%nat ->
     clock w - createdAt <= clock w' - createdAt' ->
     (flag = true -> flag' = true) ->
     exists s s', score = Ok s /\ score' = Ok s' /\ (s <= s')%Q)
    /\ (u = u' -> flag = flag' ->
        168 * JS.msPerHour <= clock w - createdAt ->
        168 * JS.msPerHour <= clock w' - createdAt' ->
        score = score').
Proof.
  intros w w' u u' createdAt createdAt' flag flag' wts Hu Ht Hl score score'.
  subst score score'. unfold calculatePriorityScore, Date_now, bind, gets, ret.
  cbn [fst]. split.
  - intros Hrank Hage Hflag. do 2 eexists.
    split; [reflexivity|]. split; [reflexivity|].
    apply Math_round_monotone.
    pose proof (time_value_monotone _ _ Hage) as Htv.
    set (tv := JS.Math_min _ 1) in *.
    set (tv' := JS.Math_min _ 1) in *.
    assert (Huv : (URGENCY_VALUES u <= URGENCY_VALUES u')%Q).
    { destruct u, u'; simpl in Hrank; try lia; unfold URGENCY_VALUES;
        unfold Qle; simpl; lia. }
    assert (Hlv : ((if flag then 1 else 0) <= (if flag' then 1 else 0))%Q).
    { destruct flag, flag'; try apply Qle_refl.
      - specialize (Hflag eq_refl). discriminate Hflag.
      - unfold Qle; simpl; lia. }
    set (uv := URGENCY_VALUES u) in *. set (uv' := URGENCY_VALUES u') in *.
    set (lv := (if flag then 1 else 0)%Q) in *.
    set (lv' := (if flag' then 1 else 0)%Q) in *.
    nra.
  - intros <- <- Hweek Hweek'. f_equal. f_equal. f_equal.
    unfold JS.Math_round. apply Qfloor_comp.
    rewrite (time_value_saturates _ Hweek), (time_value_saturates _ Hweek').
    reflexivity.
Qed.

Lemma priority_score_order_witness :
  exists s s',
    fst (calculatePriorityScore normal 0 false DEFAULT_WEIGHTS empty_world)
    = Ok s
    /\ fst (calculatePriorityScore critical (- JS.msPerHour) true
              DEFAULT_WEIGHTS empty_world) = Ok s'
    /\ (s <= s')%Q.
Proof.
  apply (proj1 (priority_score_order empty_world empty_world normal critical
                  0 (- JS.msPerHour) false true DEFAULT_WEIGHTS
                  ltac:(discriminate) ltac:(discriminate)
                  ltac:(discriminate))).
  - simpl. lia.
  - vm_compute. discriminate.
  - intros H. discriminate H.
Defined.

(** ** First escalations over sweeps *)

(** The escalation rows at level_1 of a complaint. *)
Definition first_rows (cid : string) (w : World) : list Escalation.t :=
  filter (fun e => EscalationLevel_eqb (Escalation.escalation_level e) level_1)
    (filter (of_complaint cid) (escalations w)).

(** Some complaint stored under [cid] is not marked as breached. *)
Definition unmarked (cid : string) (w : World) : bool :=
  existsb (fun c => has_id cid c && negb (Complaint.sla_breached c))%bool
    (complaints w).

Lemma same_id_same_row (rows : list Complaint.t) r c :
  NoDup (map Complaint.id rows) -> In r rows -> In c rows ->
  Complaint.id r = Complaint.id c -> r = c.
Proof.
  induction rows as [|a rows IH]; intros Hnd Hr Hc Hid; [destruct Hr|].
  inversion Hnd as [|? ? Hnotin Hnd']; subst.
  destruct Hr as [-> | Hr], Hc as [-> | Hc]; auto.
  - exfalso. apply Hnotin. rewrite Hid. apply in_map. assumption.
  - exfalso. apply Hnotin. rewrite <- Hid. apply in_map. assumption.
Qed.

Lemma swept_keeps_mark now thr c :
  Complaint.sla_breached (swept now thr c) = false ->
  Complaint.sla_breached c = false.
Proof.
  unfold swept. destruct (is_open c && has_deadline c)%bool; [|tauto].
  destruct (newly_breached now c); [intros H; discriminate H|].
  destruct (warning_due now thr c); tauto.
Qed.

Lemma ladder_rows_not_first now c date_now latest :
  filter (fun e => EscalationLevel_eqb (Escalation.escalation_level e) level_1)
    (ladder_rows now c date_now latest) = [].
Proof.
  unfold ladder_rows. destruct (asks_ladder c); [|reflexivity].
  destruct latest as [l|]; [|reflexivity].
  destruct (next_level (Escalation.escalation_level l)) as [next|] eqn:Hn;
    [|reflexivity].
  destruct (due _ _ _); [|reflexivity].
  destruct (Escalation.escalation_level l); inversion Hn; reflexivity.
Qed.

(** One sweep adds a level_1 row for a complaint only by marking it. *)
Lemma sweep_first_rows now w cid :
  NoDup (map Complaint.id (complaints w)) ->
  NoDup (map Complaint.id (complaints (sweep now w)))
  /\ (List.length (first_rows cid (sweep now w))
      + Nat.b2n (unmarked cid (sweep now w))
      <= List.length (first_rows cid w) + Nat.b2n (unmarked cid w))%nat.
Proof.
  intros Hnd. unfold sweep.
  destruct (checkSLABreaches_exact (with_clock now w) Hnd)
    as (ladder & lines & messages & E & Hladder).
  change (clock (with_clock now w)) with now in E, Hladder.
  change (complaints (with_clock now w)) with (complaints w) in E, Hladder.
  change (escalations (with_clock now w)) with (escalations w) in Hladder.
  set (thr := (sla_warningHoursBefore (config (with_clock now w))
               * 60 * 60 * 1000)%Q) in *.
  set (selected := filter (fun c => is_open c && has_deadline c)%bool
                     (complaints w)) in *.
  rewrite E. cbn [snd].
  unfold first_rows, unmarked.
  cbn [complaints escalations sla_world with_outbox with_logger
       with_escalations with_complaints].
  split.
  - rewrite map_map.
    rewrite (map_ext _ Complaint.id); [assumption|].
    intros c. apply swept_id.
  - assert (Hmono :
      existsb (fun c => has_id cid c && negb (Complaint.sla_breached c))%bool
        (map (swept now thr) (complaints w)) = true ->
      existsb (fun c => has_id cid c && negb (Complaint.sla_breached c))%bool
        (complaints w) = true).
    { intros H. apply existsb_exists in H. destruct H as (r' & Hin & Hr').
      apply in_map_iff in Hin. destruct Hin as (r & <- & Hin).
      apply andb_true_iff in Hr'. destruct Hr' as [Hid Hb].
      apply negb_true_iff in Hb. apply swept_keeps_mark in Hb.
      apply existsb_exists. exists r. split; [assumption|].
      unfold has_id in *. rewrite swept_id in Hid. rewrite Hid, Hb.
      reflexivity. }
    rewrite Hladder, filter_app, length_app.
    destruct (selected_for cid selected) as [c|] eqn:Hsel.
    + unfold selected_for in Hsel. apply find_some in Hsel.
      destruct Hsel as [Hcsel Hcid].
      unfold selected in Hcsel. apply filter_In in Hcsel.
      destruct Hcsel as [Hcin Hp].
      unfold turn_added.
      destruct (newly_breached now c) eqn:Hb.
      * assert (Hbefore :
          existsb (fun c => has_id cid c && negb (Complaint.sla_breached c))%bool
            (complaints w) = true).
        { apply existsb_exists. exists c. split; [assumption|].
          rewrite Hcid. unfold newly_breached in Hb.
          apply andb_true_iff in Hb. destruct Hb as [_ Hb]. exact Hb. }
        assert (Hafter :
          existsb (fun c => has_id cid c && negb (Complaint.sla_breached c))%bool
            (map (swept now thr) (complaints w)) = false).
        { destruct (existsb _ (map _ _)) eqn:Hex; [|reflexivity].
          apply existsb_exists in Hex. destruct Hex as (r' & Hin & Hr').
          apply in_map_iff in Hin. destruct Hin as (r & <- & Hin).
          apply andb_true_iff in Hr'. destruct Hr' as [Hid Hm].
          unfold has_id in Hid, Hcid. rewrite swept_id in Hid.
          apply String.eqb_eq in Hid, Hcid.
          assert (r = c)
            by (apply (same_id_same_row (complaints w)); congruence).
          subst r. unfold swept in Hm. rewrite Hp, Hb in Hm.
          discriminate Hm. }
        rewrite Hbefore, Hafter. cbn. lia.
      * rewrite ladder_rows_not_first. cbn [List.length].
        destruct (existsb _ (map _ _)) eqn:Hex.
        -- rewrite (Hmono eq_refl). lia.
        -- cbn [Nat.b2n]. lia.
    + cbn [filter List.length].
      destruct (existsb _ (map _ _)) eqn:Hex.
      * rewrite (Hmono eq_refl). lia.
      * cbn [Nat.b2n]. lia.
Qed.

(** X20.  Over any sequence of sweeps, at whatever clock readings, a complaint
    gets at most one more escalation row at level_1, and none if it was already
    marked as breached: the sweep escalates a complaint to level_1 once. *)
Theorem level_1_row_added_at_most_once :
  forall times w cid,
    NoDup (map Complaint.id (complaints w)) ->
    (List.length (first_rows cid (sweeps times w))
     <= List.length (first_rows cid w) + Nat.b2n (unmarked cid w))%nat.
Proof.
  induction times as [|now times IH]; intros w cid Hnd.
  - cbn [sweeps fold_left]. lia.
  - cbn [sweeps fold_left].
    destruct (sweep_first_rows now w cid Hnd) as [Hnd' Hstep].
    specialize (IH (sweep now w) cid Hnd'). unfold sweeps in IH. lia.
Qed.

Lemma level_1_row_added_at_most_once_witness :
  (List.length
     (first_rows "c-1"
        (sweeps [10 * JS.msPerHour; 11 * JS.msPerHour; 40 * JS.msPerHour]%Z
           overdue_world)) <= 1)%nat.
Proof.
  apply (level_1_row_added_at_most_once
           [10 * JS.msPerHour; 11 * JS.msPerHour; 40 * JS.msPerHour]
           overdue_world "c-1"%string overdue_world_ids).
Defined.
